(** * arch-cleaner: a shallow embedding of the scan / suggest / apply pipeline

    The development follows the layout of the Python package:
    [hashlib]'s SHA-1 (used for suggestion ids), [utils/helpers.py],
    [core/models.py], [db/database.py], [modules/analysis.py],
    [modules/recommendation.py], [modules/execution.py],
    [modules/learning.py], [modules/collection.py] and
    [core/controller.py].  Definitions come first, the properties of the
    pipeline follow.

    Conventions.  Python [int]s are [Z]; timestamps and confidences, which
    are Python floats, are exact rationals [Q] (every float is a rational;
    the places where rounding of a float operation could matter are pointed
    out where they occur); [str] is [string], read as its UTF-8 bytes (for
    a file name that is not UTF-8 see [Utf8]);
    [pathlib.Path] is the string of the path, taken absolute and free of
    symbolic links, so that [Path.resolve] is the identity.  Code that can
    raise returns an [outcome]. *)

From Stdlib Require Import Ascii String ZArith QArith Lia Sorted Permutation.
From stdpp Require Import gmap strings list fin_maps pretty.

Set Warnings "-register-all".
Local Open Scope Z_scope.

(* ===================================================================== *)
(** * Python strings *)
(* ===================================================================== *)

Module PyStr.

Definition byte_of (c : ascii) : Z := Z.of_N (N_of_ascii c).

Fixpoint bytes_of (s : string) : list Z :=
  match s with
  | EmptyString => []
  | String c r => byte_of c :: bytes_of r
  end.

(** [s[:n]] *)
Fixpoint prefix (n : nat) (s : string) : string :=
  match n, s with
  | O, _ => EmptyString
  | S _, EmptyString => EmptyString
  | S k, String c r => String c (prefix k r)
  end.

Definition is_upper (c : ascii) : bool :=
  (65 <=? byte_of c) && (byte_of c <=? 90).
Definition is_lower (c : ascii) : bool :=
  (97 <=? byte_of c) && (byte_of c <=? 122).
Definition is_digit (c : ascii) : bool :=
  (48 <=? byte_of c) && (byte_of c <=? 57).
(** the ASCII white space of [str.strip] and of the regex class [\s] *)
Definition is_space (c : ascii) : bool :=
  let b := byte_of c in
  ((9 <=? b) && (b <=? 13)) || ((28 <=? b) && (b <=? 32)).

Definition lower_char (c : ascii) : ascii :=
  if is_upper c then ascii_of_N (N_of_ascii c + 32) else c.
Definition upper_char (c : ascii) : ascii :=
  if is_lower c then ascii_of_N (N_of_ascii c - 32) else c.

Fixpoint map_chars (f : ascii -> ascii) (s : string) : string :=
  match s with
  | EmptyString => EmptyString
  | String c r => String (f c) (map_chars f r)
  end.

Definition lower : string -> string := map_chars lower_char.
Definition upper : string -> string := map_chars upper_char.

Fixpoint lstrip (s : string) : string :=
  match s with
  | String c r => if is_space c then lstrip r else s
  | EmptyString => EmptyString
  end.

Fixpoint rstrip (s : string) : string :=
  match s with
  | EmptyString => EmptyString
  | String c r =>
      match rstrip r with
      | EmptyString => if is_space c then EmptyString else String c EmptyString
      | r' => String c r'
      end
  end.

Definition strip (s : string) : string := rstrip (lstrip s).

(** [sep.join(l)] *)
Fixpoint join (sep : string) (l : list string) : string :=
  match l with
  | [] => EmptyString
  | [x] => x
  | x :: r => x +:+ sep +:+ join sep r
  end.

(** [str.startswith] *)
Fixpoint startswith (p s : string) : bool :=
  match p, s with
  | EmptyString, _ => true
  | String a p', String b s' => if ascii_dec a b then startswith p' s' else false
  | String _ _, EmptyString => false
  end.

(** the order of [str] under [<]: by code point, here by byte *)
Fixpoint ltb (a b : string) : bool :=
  match a, b with
  | EmptyString, EmptyString => false
  | EmptyString, String _ _ => true
  | String _ _, EmptyString => false
  | String x a', String y b' =>
      if byte_of x <? byte_of y then true
      else if byte_of y <? byte_of x then false
      else ltb a' b'
  end.

(** the decimal text of an integer, [str(n)] *)
Definition of_Z (n : Z) : string := pretty n.

End PyStr.

(* ===================================================================== *)
(** * hashlib.sha1 *)
(* ===================================================================== *)

(** SHA-1 as in FIPS 180-4, on 32-bit words held in [Z] with the
    wrap-around written out. *)
Module Sha1.

Definition mask32 : Z := 0xFFFFFFFF.
Definition add32 (a b : Z) : Z := Z.land (a + b) mask32.
Definition rotl32 (n x : Z) : Z :=
  Z.land (Z.lor (Z.shiftl x n) (Z.shiftr x (32 - n))) mask32.
Definition not32 (x : Z) : Z := Z.lxor x mask32.

(** the message followed by the bit 1, zeros up to 56 modulo 64, and the
    length in bits as a 64-bit big-endian integer *)
Definition be_bytes (k : nat) (x : Z) : list Z :=
  map (fun i => Z.land (Z.shiftr x (8 * Z.of_nat i)) 255) (rev (seq 0 k)).

Definition pad (msg : list Z) : list Z :=
  let len := Z.of_nat (length msg) in
  let zeros := Z.to_nat ((55 - len) mod 64) in
  msg ++ [128] ++ repeat 0 zeros ++ be_bytes 8 (8 * len).

Fixpoint words_of (fuel : nat) (bs : list Z) : list Z :=
  match fuel, bs with
  | S f, b0 :: b1 :: b2 :: b3 :: r =>
      Z.lor (Z.shiftl b0 24) (Z.lor (Z.shiftl b1 16) (Z.lor (Z.shiftl b2 8) b3))
        :: words_of f r
  | _, _ => []
  end.

(** the message schedule, kept newest-first: [rw] holds W(t-1), W(t-2), ... *)
Fixpoint extend (n : nat) (rw : list Z) : list Z :=
  match n with
  | O => rw
  | S k =>
      let w := rotl32 1 (Z.lxor (Z.lxor (nth 2 rw 0) (nth 7 rw 0))
                                (Z.lxor (nth 13 rw 0) (nth 15 rw 0))) in
      extend k (w :: rw)
  end.

Definition schedule (block : list Z) : list Z :=
  rev (extend 64 (rev (words_of 16 block))).

Definition f_t (t : nat) (b c d : Z) : Z :=
  if (t <? 20)%nat then Z.lor (Z.land b c) (Z.land (not32 b) d)
  else if (t <? 40)%nat then Z.lxor (Z.lxor b c) d
  else if (t <? 60)%nat then
    Z.lor (Z.lor (Z.land b c) (Z.land b d)) (Z.land c d)
  else Z.lxor (Z.lxor b c) d.

Definition k_t (t : nat) : Z :=
  if (t <? 20)%nat then 0x5A827999
  else if (t <? 40)%nat then 0x6ED9EBA1
  else if (t <? 60)%nat then 0x8F1BBCDC
  else 0xCA62C1D6.

Record state := St { h0 : Z; h1 : Z; h2 : Z; h3 : Z; h4 : Z }.

Definition round (s : state) (tw : nat * Z) : state :=
  let '(t, w) := tw in
  let tmp :=
    add32 (add32 (add32 (add32 (rotl32 5 (h0 s)) (f_t t (h1 s) (h2 s) (h3 s)))
                        (h4 s)) (k_t t)) w in
  St tmp (h0 s) (rotl32 30 (h1 s)) (h2 s) (h3 s).

Definition compress (s : state) (block : list Z) : state :=
  let ws := schedule block in
  let r := fold_left round (combine (seq 0 80) ws) s in
  St (add32 (h0 s) (h0 r)) (add32 (h1 s) (h1 r)) (add32 (h2 s) (h2 r))
     (add32 (h3 s) (h3 r)) (add32 (h4 s) (h4 r)).

Fixpoint blocks (fuel : nat) (bs : list Z) (s : state) : state :=
  match fuel, bs with
  | S f, _ :: _ => blocks f (skipn 64 bs) (compress s (firstn 64 bs))
  | _, _ => s
  end.

Definition init : state :=
  St 0x67452301 0xEFCDAB89 0x98BADCFE 0x10325476 0xC3D2E1F0.

Definition digest (msg : list Z) : state :=
  let p := pad msg in blocks (length p) p init.

Definition hex_digit (d : Z) : ascii :=
  if d <? 10 then ascii_of_N (Z.to_N (48 + d)) else ascii_of_N (Z.to_N (87 + d)).

Definition hex32 (x : Z) : string :=
  fold_right (fun i acc => String (hex_digit (Z.land (Z.shiftr x (4 * Z.of_nat i)) 15)) acc)
    EmptyString (rev (seq 0 8)).

(** [hashlib.sha1(s.encode()).hexdigest()]; feeding the hasher in several
    [update] calls hashes the concatenation *)
Definition hexdigest (s : string) : string :=
  let d := digest (PyStr.bytes_of s) in
  hex32 (h0 d) +:+ hex32 (h1 d) +:+ hex32 (h2 d) +:+ hex32 (h3 d) +:+ hex32 (h4 d).

End Sha1.

(* ===================================================================== *)
(** * Exceptions and results *)
(* ===================================================================== *)

(** The Python exceptions the modelled code can meet. *)
Inductive exn : Type :=
  | AttributeError (attr : string)      (* object has no attribute [attr] *)
  | UnboundLocalError (var : string)    (* local read before assignment *)
  | TypeError (what : string)
  | SqliteError (what : string)         (* sqlite3.Error and its subclasses *)
  | OSError (what : string)
  | OverflowError (what : string)
  | UnicodeEncodeError (what : string)
  | Unmodelled (what : string).
  (* [Unmodelled]: the run builds a Python object that holds a value of a
     type its dataclass does not declare (a text where an [int] is declared,
     say); such objects have no counterpart here. *)

(** [str(e)] *)
Definition exn_str (e : exn) : string :=
  match e with
  | AttributeError a => "object has no attribute '" +:+ a +:+ "'"
  | UnboundLocalError v =>
      "cannot access local variable '" +:+ v +:+ "' where it is not associated with a value"
  | TypeError m => m
  | SqliteError m => m
  | OSError m => m
  | OverflowError m => m
  | UnicodeEncodeError m => m
  | Unmodelled m => m
  end.

Inductive outcome (A : Type) : Type :=
  | Return (a : A)
  | Raise (e : exn).
Arguments Return {A} a.
Arguments Raise {A} e.

#[global] Instance outcome_ret : MRet outcome := @Return.
#[global] Instance outcome_bind : MBind outcome :=
  fun A B f o => match o with Return a => f a | Raise e => Raise e end.

Definition is_Return {A} (o : outcome A) : bool :=
  match o with Return _ => true | Raise _ => false end.

(* ===================================================================== *)
(** * [str.encode()] *)
(* ===================================================================== *)

(** A [str] is held as the bytes of its UTF-8 encoding.  A file name that
    is not UTF-8 reaches Python through [os.fsdecode], where every byte
    that begins no well-formed sequence becomes a lone surrogate
    ([surrogateescape]); here such a name is the string of its bytes.  A
    lone surrogate has no UTF-8 encoding: [str.encode()], and [sqlite3]
    when it binds the text, raise [UnicodeEncodeError] on the first run of
    them. *)
Module Utf8.

Definition between (lo hi : Z) (c : ascii) : bool :=
  (lo <=? PyStr.byte_of c) && (PyStr.byte_of c <=? hi).

(** the length of the well-formed sequence at the head of [s], [0] where
    there is none (Unicode, table 3-7) *)
Definition sequence_length (s : string) : nat :=
  match s with
  | EmptyString => 0
  | String a r =>
      let b := PyStr.byte_of a in
      if b <? 128 then 1
      else if (194 <=? b) && (b <=? 223) then
        match r with
        | String c _ => if between 128 191 c then 2 else 0
        | _ => 0
        end
      else if (224 <=? b) && (b <=? 239) then
        match r with
        | String c (String d _) =>
            if between (if b =? 224 then 160 else 128) (if b =? 237 then 159 else 191) c
               && between 128 191 d
            then 3 else 0
        | _ => 0
        end
      else if (240 <=? b) && (b <=? 244) then
        match r with
        | String c (String d (String e _)) =>
            if between (if b =? 240 then 144 else 128) (if b =? 244 then 143 else 191) c
               && between 128 191 d && between 128 191 e
            then 4 else 0
        | _ => 0
        end
      else 0
  end.

(** the bytes at the head of [s] that stand for lone surrogates *)
Fixpoint lone_run (s : string) : list Z :=
  match s with
  | EmptyString => []
  | String a r =>
      match sequence_length s with
      | O => PyStr.byte_of a :: lone_run r
      | S _ => []
      end
  end.

(** the first run of lone surrogates: its position, counted in
    characters, and its bytes; [skip] bytes of the current character are
    still to be passed *)
Fixpoint first_lone (skip : nat) (pos : Z) (s : string) : option (Z * list Z) :=
  match s with
  | EmptyString => None
  | String a r =>
      match skip with
      | S k => first_lone k pos r
      | O =>
          match sequence_length s with
          | O => Some (pos, lone_run s)
          | S k => first_lone k (pos + 1) r
          end
      end
  end.

Definition hex2 (b : Z) : string :=
  String (Sha1.hex_digit (Z.shiftr b 4)) (String (Sha1.hex_digit (Z.land b 15)) EmptyString).

(** [str(e)] of the [UnicodeEncodeError] that encoding [s] raises, [None]
    when [s] can be encoded *)
Definition encode_error (s : string) : option string :=
  match first_lone 0 0 s with
  | None => None
  | Some (start, [b]) =>
      Some ("'utf-8' codec can't encode character '\udc" +:+ hex2 b +:+ "' in position "
            +:+ PyStr.of_Z start +:+ ": surrogates not allowed")
  | Some (start, run) =>
      Some ("'utf-8' codec can't encode characters in position " +:+ PyStr.of_Z start
            +:+ "-" +:+ PyStr.of_Z (start + Z.of_nat (length run) - 1)
            +:+ ": surrogates not allowed")
  end.

Definition encodable (s : string) : bool :=
  match encode_error s with None => true | Some _ => false end.

End Utf8.

(* ===================================================================== *)
(** * JSON values, as [json.dump] writes and [json.load] reads them *)
(* ===================================================================== *)

Inductive json : Type :=
  | JNull
  | JBool (b : bool)
  | JInt (n : Z)
  | JFloat (q : Q)
  | JStr (s : string)
  | JArr (l : list json)
  | JObj (fields : list (string * json)).

Module Json.

(** [d.get(k)], [None] when the key is absent *)
Fixpoint get (k : string) (fields : list (string * json)) : option json :=
  match fields with
  | [] => None
  | (k', v) :: r => if String.eqb k k' then Some v else get k r
  end.

(** Python truth of a loaded value: [None], [False], [0], [0.0], the
    empty string, list and dict are false *)
Definition truthy (j : json) : bool :=
  match j with
  | JNull => false
  | JBool b => b
  | JInt n => negb (n =? 0)
  | JFloat q => negb (Qnum q =? 0)
  | JStr s => negb (String.eqb s EmptyString)
  | JArr l => match l with [] => false | _ => true end
  | JObj f => match f with [] => false | _ => true end
  end.

Definition of_option {A} (f : A -> json) (o : option A) : json :=
  match o with Some a => f a | None => JNull end.

End Json.

(* ===================================================================== *)
(** * utils/helpers.py *)
(* ===================================================================== *)

Module Helpers.

(** [SIZE_UNITS] *)
Definition SIZE_UNITS (u : string) : option Z :=
  if String.eqb u "B" then Some 1
  else if String.eqb u "K" then Some 1024
  else if String.eqb u "M" then Some (1024 ^ 2)
  else if String.eqb u "G" then Some (1024 ^ 3)
  else if String.eqb u "T" then Some (1024 ^ 4)
  else None.

(** [TIME_UNITS] *)
Definition TIME_UNITS (u : string) : option Z :=
  if String.eqb u "s" then Some 1
  else if String.eqb u "m" then Some 60
  else if String.eqb u "h" then Some 3600
  else if String.eqb u "d" then Some 86400
  else if String.eqb u "w" then Some (86400 * 7)
  else if String.eqb u "month" then Some (86400 * 30)
  else if String.eqb u "y" then Some (86400 * 365)
  else None.

(** ** The common prefix of both grammars: [(\d+(\.\d+)?)\s*] *)

Fixpoint span (p : ascii -> bool) (s : string) : string * string :=
  match s with
  | String c r =>
      if p c then let '(a, b) := span p r in (String c a, b)
      else (EmptyString, s)
  | EmptyString => (EmptyString, EmptyString)
  end.

Fixpoint digits_value (acc : Z) (s : string) : Z :=
  match s with
  | String c r => digits_value (10 * acc + (PyStr.byte_of c - 48)) r
  | EmptyString => acc
  end.

Definition str_len (s : string) : Z := Z.of_nat (String.length s).

(** The number at the head of [s]: its value (what [float(group 1)]
    denotes), whether group 1 holds a decimal point, and the text that is
    left after the white space behind it.  [None] when [s] does not start
    with a digit. *)
Definition scan_number (s : string) : option (Q * bool * string) :=
  let '(ip, r1) := span PyStr.is_digit s in
  match ip with
  | EmptyString => None
  | _ =>
      let whole := digits_value 0 ip in
      let '(q, dotted, r2) :=
        match r1 with
        | String "."%char r1' =>
            let '(fp, r1'') := span PyStr.is_digit r1' in
            match fp with
            | EmptyString => (inject_Z whole, false, r1)
            | _ =>
                (Qmake (whole * 10 ^ str_len fp + digits_value 0 fp)
                       (Z.to_pos (10 ^ str_len fp)), true, r1'')
            end
        | _ => (inject_Z whole, false, r1)
        end in
      Some (q, dotted, snd (span PyStr.is_space r2))
  end.

(** [int(x)] of a float: truncation towards zero *)
Definition int_of_Q (x : Q) : Z := Z.quot (Qnum x) (Zpos (Qden x)).

Definition all_digits (s : string) : bool :=
  match s with
  | EmptyString => false
  | _ => match snd (span PyStr.is_digit s) with EmptyString => true | _ => false end
  end.

(** [parse_size]: the pattern is [^(\d+(\.\d+)?)\s*([BKMGT])?B?$] on
    the stripped, upper-cased text.  The product [value * multiplier] is a
    float product in the source; it is exact whenever the value is a whole
    number below 2^53. *)
Definition parse_size (size_str : string) : option Z :=
  let size_str := PyStr.upper (PyStr.strip size_str) in
  let no_match :=
    if all_digits size_str then Some (digits_value 0 size_str) else None in
  match scan_number size_str with
  | None => no_match
  | Some (value, dotted, rest) =>
      let unit : option (option string) :=   (* outer None: no match *)
        match rest with
        | EmptyString => Some None
        | String c EmptyString =>
            if String.eqb rest "B" then Some (Some "B")
            else match SIZE_UNITS rest with Some _ => Some (Some rest) | None => None end
        | String c (String "B"%char EmptyString) =>
            let u := String c EmptyString in
            match SIZE_UNITS u with Some _ => Some (Some u) | None => None end
        | _ => None
        end in
      match unit with
      | None => no_match
      | Some (Some u) =>
          let multiplier := default 1 (SIZE_UNITS u) in
          Some (int_of_Q (value * inject_Z multiplier))
      | Some None =>
          if negb dotted then Some (int_of_Q (value * 1)) else None
      end
  end.

(** [parse_duration]: the pattern is
    [^(\d+(\.\d+)?)\s*([smhdw]|month|y)?$] on the stripped, lower-cased
    text; a missing unit means seconds. *)
Definition parse_duration (duration_str : string) : option Z :=
  let duration_str := PyStr.lower (PyStr.strip duration_str) in
  match scan_number duration_str with
  | None => None
  | Some (value, _, rest) =>
      let unit : option string :=
        match rest with
        | EmptyString => Some "s"
        | _ => match TIME_UNITS rest with Some _ => Some rest | None => None end
        end in
      match unit with
      | None => None
      | Some u =>
          match TIME_UNITS u with
          | None => None
          | Some multiplier => Some (int_of_Q (value * inject_Z multiplier))
          end
      end
  end.

(** [get_age_seconds], with the reading of [time.time()] as [now] *)
Definition get_age_seconds (now timestamp : Q) : Q := now - timestamp.

(** ** [human_readable_size] *)

(** [f"{x:.1f}"] for [x = n / d >= 0]: the nearest tenth, ties to even.
    The quotients formatted below divide by a power of two, so the float
    is the exact quotient for sizes below 2^53. *)
Definition fmt1 (n d : Z) : string :=
  let q := (10 * n) / d in
  let r := (10 * n) mod d in
  let t := if 2 * r <? d then q
           else if d <? 2 * r then q + 1
           else if Z.even q then q else q + 1 in
  PyStr.of_Z (t / 10) +:+ "." +:+ PyStr.of_Z (t mod 10).

Definition human_readable_size (size_bytes : Z) : string :=
  if size_bytes <? 0 then "N/A"
  else if size_bytes <? 1024 then PyStr.of_Z size_bytes +:+ " B"
  else if size_bytes <? 1024 ^ 2 then fmt1 size_bytes 1024 +:+ " KB"
  else if size_bytes <? 1024 ^ 3 then fmt1 size_bytes (1024 ^ 2) +:+ " MB"
  else if size_bytes <? 1024 ^ 4 then fmt1 size_bytes (1024 ^ 3) +:+ " GB"
  else fmt1 size_bytes (1024 ^ 4) +:+ " TB".

End Helpers.

(* ===================================================================== *)
(** * core/models.py *)
(* ===================================================================== *)

Module ScannedItem.
Record t : Type := Make {
  path : string;
  size_bytes : Z;
  last_accessed : Q;
  last_modified : Q;
  item_type : string;
  extra_info : list (string * json)
}.

(** the instance [__dict__] after the artifact encoder has turned the
    [Path] into text *)
Definition to_dict (i : t) : json :=
  JObj [("path", JStr (path i)); ("size_bytes", JInt (size_bytes i));
        ("last_accessed", JFloat (last_accessed i));
        ("last_modified", JFloat (last_modified i));
        ("item_type", JStr (item_type i));
        ("extra_info", JObj (extra_info i))].
End ScannedItem.

Module PackageInfo.
Record t : Type := Make {
  name : string;
  version : string;
  size_bytes : Z;
  description : option string;
  install_date : option Q;
  last_used : option Q;
  is_orphan : bool;
  is_dependency : bool;
  required_by : list string;
  optional_for : list string
}.

Definition to_dict (p : t) : json :=
  JObj [("name", JStr (name p)); ("version", JStr (version p));
        ("size_bytes", JInt (size_bytes p));
        ("description", Json.of_option JStr (description p));
        ("install_date", Json.of_option JFloat (install_date p));
        ("last_used", Json.of_option JFloat (last_used p));
        ("is_orphan", JBool (is_orphan p));
        ("is_dependency", JBool (is_dependency p));
        ("required_by", JArr (map JStr (required_by p)));
        ("optional_for", JArr (map JStr (optional_for p)))].
End PackageInfo.

Module DuplicateSet.
Record t : Type := Make {
  file_hash : string;
  paths : list string;
  size_bytes : Z;
  total_size_bytes : Z
}.

Definition to_dict (d : t) : json :=
  JObj [("file_hash", JStr (file_hash d));
        ("paths", JArr (map JStr (paths d)));
        ("size_bytes", JInt (size_bytes d));
        ("total_size_bytes", JInt (total_size_bytes d))].
End DuplicateSet.

(** What [Suggestion.data] (declared [Any]) holds at run time.  The
    [isinstance] tests of the handlers become matches on this type. *)
(** The values of a parameter dictionary: [None], a [bool], an [int] or a
    [str]. *)
Inductive pyval : Type :=
  | PNone
  | PBool (b : bool)
  | PInt (n : Z)
  | PStr (s : string).

Module PyVal.
Fixpoint get (k : string) (d : list (string * pyval)) : option pyval :=
  match d with
  | [] => None
  | (k', v) :: r => if String.eqb k k' then Some v else get k r
  end.

(** [str(v)] *)
Definition str (v : pyval) : string :=
  match v with
  | PNone => "None"
  | PBool true => "True"
  | PBool false => "False"
  | PInt n => PyStr.of_Z n
  | PStr s => s
  end.

Definition to_json (v : pyval) : json :=
  match v with
  | PNone => JNull
  | PBool b => JBool b
  | PInt n => JInt n
  | PStr s => JStr s
  end.
End PyVal.

Inductive pyelem : Type :=
  | EPackage (p : PackageInfo.t)
  | EPath (p : string)
  | EJson (j : json).            (* a plain loaded value: str, number, dict ... *)

Inductive pydata : Type :=
  | DNone
  | DItem (i : ScannedItem.t)
  | DPackage (p : PackageInfo.t)
  | DDupSet (d : DuplicateSet.t)
  | DList (l : list pyelem)
  | DDict (d : list (string * pyval)).

Module Suggestion.
Record t : Type := Make {
  id : string;
  suggestion_type : string;
  description : string;
  details : string;
  estimated_size_bytes : Z;
  confidence : Q;
  rationale : string;
  data : pydata
}.
End Suggestion.

(** Values bound to the parameters of an SQL statement. *)
Inductive sqlval : Type :=
  | VNull
  | VInt (n : Z)
  | VReal (q : Q)
  | VText (s : string).

Module ActionFeedback.
(** The dataclass of [core/models.py]: four fields. *)
Record t : Type := Make {
  suggestion_id : string;
  action_taken : string;
  timestamp : Q;
  user_comment : option string
}.

(** Attribute access [feedback.<attr>]: an attribute the instance does
    not have raises [AttributeError]. *)
Definition getattr (f : t) (attr : string) : outcome sqlval :=
  if String.eqb attr "suggestion_id" then Return (VText (suggestion_id f))
  else if String.eqb attr "action_taken" then Return (VText (action_taken f))
  else if String.eqb attr "timestamp" then Return (VReal (timestamp f))
  else if String.eqb attr "user_comment" then
    Return (match user_comment f with Some c => VText c | None => VNull end)
  else Raise (AttributeError attr).
End ActionFeedback.

Module ActionResult.
Record t : Type := Make {
  suggestion : Suggestion.t;
  success : bool;
  message : string;
  bytes_freed : Z;
  dry_run : bool
}.
End ActionResult.

(* ===================================================================== *)
(** * modules/config_manager.py *)
(* ===================================================================== *)

(** The merged configuration, as the values [ConfigManager.get] returns for
    the keys the pipeline reads (a key's default is the one passed at the
    call site). *)
Module ConfigManager.
Record t : Type := Make {
  safety_use_trash : bool;                      (* safety.use_trash *)
  paths_scan : list string;                     (* get_scan_paths() *)
  paths_exclude : list string;                  (* get_exclude_patterns() *)
  thresholds_old_file : string;                 (* thresholds.old_file *)
  thresholds_large_file : string;               (* thresholds.large_file *)
  duplicates_enabled : bool;                    (* duplicates.enabled *)
  duplicates_min_size : string;                 (* duplicates.min_size *)
  arch_remove_orphans : bool;                   (* arch.remove_orphans *)
  arch_clean_pacman_cache : bool;               (* arch.clean_pacman_cache *)
  arch_pacman_cache_keep : Z;                   (* arch.pacman_cache_keep *)
  arch_clean_journal : bool;                    (* arch.clean_journal *)
  arch_journal_max_disk_size : option string;   (* arch.journal_max_disk_size *)
  arch_journal_max_age : option string;         (* arch.journal_max_age *)
  automation_min_confidence : Q;                (* automation.min_confidence *)
  learning_enabled : bool                       (* learning.enabled *)
}.

(** [DEFAULT_CONFIG], with the home directory written [~] *)
Definition DEFAULT_CONFIG : t :=
  {| safety_use_trash := true;
     paths_scan := ["~/.cache"; "~/Downloads"; "~/.local/share"];
     paths_exclude := ["*/.git/*"; "*/node_modules/*"; "*/__pycache__/*";
                       "*.important"; "~/.config/*"];
     thresholds_old_file := "3m";
     thresholds_large_file := "500M";
     duplicates_enabled := true;
     duplicates_min_size := "1M";
     arch_remove_orphans := true;
     arch_clean_pacman_cache := true;
     arch_pacman_cache_keep := 1;
     arch_clean_journal := true;
     arch_journal_max_disk_size := Some "500M";
     arch_journal_max_age := None;
     automation_min_confidence := 8 # 10;
     learning_enabled := true |}.
End ConfigManager.

(* ===================================================================== *)
(** * db/database.py *)
(* ===================================================================== *)

Module Database.

(** The SQL statements of [DatabaseManager], one name per statement. *)
Inductive stmt : Type :=
  | InsertScan | SelectScanStart | UpdateScan
  | DeleteItemsOfScan | DeletePackagesOfScan
  | UpsertItems | SelectItems | SelectDuplicateGroups | SelectPathsByHash
  | UpdateIsDuplicate | DeleteItem
  | UpsertPackages | SelectPackages | DeletePackage
  | InsertFeedback | SelectFeedback
  | Commit.                       (* an explicit [self.conn.commit()] *)

Record ScanRow : Type := {
  scan_id : Z;
  start_time : Q;
  end_time : option Q;
  duration_seconds : option Q;
  items_found : option Z;
  errors : option string
}.

Record ItemRow : Type := {
  i_scan_id : Z;
  i_size_bytes : Z;
  i_last_accessed : Q;
  i_last_modified : Q;
  i_item_type : string;
  i_file_hash : option string;
  i_is_duplicate : bool;
  i_extra_info : option (list (string * json))   (* JSON text, or NULL *)
}.

Record PackageRow : Type := {
  p_scan_id : Z;
  p_version : string;
  p_size_bytes : Z;
  p_description : option string;
  p_install_date : option Q;
  p_last_used : option Q;
  p_is_orphan : bool;
  p_is_dependency : bool;
  p_required_by : option (list string);          (* JSON text, or NULL *)
  p_optional_for : option (list string)
}.

(** A row of [action_feedback]: suggestion_id, suggestion_type,
    item_details, action_taken, timestamp, user_comment. *)
Record FeedbackRow : Type := {
  f_suggestion_id : sqlval;
  f_suggestion_type : sqlval;
  f_item_details : sqlval;
  f_action_taken : sqlval;
  f_timestamp : sqlval;
  f_user_comment : sqlval
}.

(** The store.  [scanned_items] is keyed by path and [packages] by name
    (their primary keys).  [faulty] tells for which statements the engine
    raises [sqlite3.Error] when it runs them (a locked file, a full disk
    ...); [error_log] collects the statements whose failure the module
    reported through [logger.error]. *)
Record t : Type := Make {
  conn : bool;
  faulty : stmt -> bool;
  scan_history : list ScanRow;
  next_scan_id : Z;
  scanned_items : gmap string ItemRow;
  packages : gmap string PackageRow;
  action_feedback : list FeedbackRow;
  error_log : list stmt
}.

Definition with_scan_history (h : list ScanRow) (n : Z) (db : t) : t :=
  Make (conn db) (faulty db) h n (scanned_items db) (packages db)
       (action_feedback db) (error_log db).
Definition with_scanned_items (m : gmap string ItemRow) (db : t) : t :=
  Make (conn db) (faulty db) (scan_history db) (next_scan_id db) m (packages db)
       (action_feedback db) (error_log db).
Definition with_packages (m : gmap string PackageRow) (db : t) : t :=
  Make (conn db) (faulty db) (scan_history db) (next_scan_id db)
       (scanned_items db) m (action_feedback db) (error_log db).
Definition with_action_feedback (l : list FeedbackRow) (db : t) : t :=
  Make (conn db) (faulty db) (scan_history db) (next_scan_id db)
       (scanned_items db) (packages db) l (error_log db).
Definition log_error (s : stmt) (db : t) : t :=
  Make (conn db) (faulty db) (scan_history db) (next_scan_id db)
       (scanned_items db) (packages db) (action_feedback db) (error_log db ++ [s]).

(** [execute_sql]: [None] without a connection and when the statement
    raises [sqlite3.Error], which is logged and not re-raised. [run] is
    the effect and the result of the statement; it answers [None] when the
    engine rejects it (a constraint). *)
Definition execute_sql {A} (s : stmt) (run : t -> option (A * t)) (db : t)
  : option A * t :=
  if negb (conn db) then (None, log_error s db)
  else if faulty db s then (None, log_error s db)
  else match run db with
       | Some (a, db') => (Some a, db')
       | None => (None, log_error s db)
       end.

(** [if self.conn: self.conn.commit()], outside any [try] *)
Definition commit (db : t) : outcome unit :=
  if conn db && faulty db Commit then Raise (SqliteError "commit failed") else Return tt.

(** the foreign key [scan_id REFERENCES scan_history(scan_id)] *)
Definition scan_exists (sid : Z) (db : t) : bool :=
  existsb (fun r => scan_id r =? sid) (scan_history db).

(** ** Binding the values of a row

    [sqlite3] binds the values of a row before it runs the statement on
    them.  An [int] outside 64 bits raises [OverflowError] and a [str]
    without a UTF-8 encoding raises [UnicodeEncodeError]; neither is an
    [sqlite3.Error].  A list or a dict is refused with
    [sqlite3.ProgrammingError]. *)
Inductive param : Type :=
  | ParNone
  | ParInt (n : Z)              (* a [bool] is an [int] *)
  | ParFloat (q : Q)
  | ParStr (s : string)
  | ParOther.                   (* a list or a dict *)

Definition param_of_json (j : json) : param :=
  match j with
  | JNull => ParNone
  | JBool b => ParInt (if b then 1 else 0)
  | JInt n => ParInt n
  | JFloat q => ParFloat q
  | JStr s => ParStr s
  | JArr _ | JObj _ => ParOther
  end.

(** [Return false] stands for the [sqlite3.Error] *)
Definition bind_param (p : param) : outcome bool :=
  match p with
  | ParInt n =>
      if (- 2 ^ 63 <=? n) && (n <? 2 ^ 63) then Return true
      else Raise (OverflowError "Python int too large to convert to SQLite INTEGER")
  | ParStr s =>
      match Utf8.encode_error s with
      | None => Return true
      | Some m => Raise (UnicodeEncodeError m)
      end
  | ParOther => Return false
  | ParNone | ParFloat _ => Return true
  end.

(** the values of a row are bound from left to right *)
Fixpoint bind (row : list param) : outcome bool :=
  match row with
  | [] => Return true
  | p :: rest =>
      match bind_param p with
      | Return true => bind rest
      | o => o
      end
  end.

(** [executemany]: the rows are bound and run one after the other, each
    row bound before it is run.  [runs] tells whether the engine runs a
    row; where it does not, the first row that is bound fails the
    statement with an [sqlite3.Error].  [Return true]: every row ran. *)
Fixpoint executemany (runs : bool) (rows : list (list param)) : outcome bool :=
  match rows with
  | [] => Return true
  | row :: rest =>
      match bind row with
      | Return true => if runs then executemany runs rest else Return false
      | o => o
      end
  end.

(** The engine runs a row of the upsert [s] for the scan [sid] unless it
    fails the statement or [scan_history] lacks the scan (the foreign key:
    [sqlite3.IntegrityError]). *)
Definition upsert_runs (s : stmt) (sid : Z) (db : t) : bool :=
  negb (faulty db s) && scan_exists sid db.

(** ** Scan history *)

Definition start_scan (now : Q) (db : t) : option Z * t :=
  execute_sql InsertScan
    (fun db =>
       let sid := next_scan_id db in
       Some (sid, with_scan_history
                    (scan_history db ++ [Build_ScanRow sid now None None None None])
                    (sid + 1) db))
    db.

Definition end_scan (now : Q) (sid : Z) (found : Z) (errs : option string) (db : t)
  : outcome unit * t :=
  let '(cursor_start, db) :=
    execute_sql SelectScanStart
      (fun db => Some (List.find (fun r => scan_id r =? sid) (scan_history db), db)) db in
  match cursor_start with
  | None => (Return tt, db)
  | Some None => (Return tt, db)
  | Some (Some row) =>
      let start := start_time row in
      let duration := if Qnum start =? 0 then None else Some (now - start)%Q in
      let db :=
        snd (execute_sql UpdateScan
               (fun db =>
                  Some (tt, with_scan_history
                              (map (fun r => if scan_id r =? sid
                                             then Build_ScanRow sid (start_time r) (Some now)
                                                    duration (Some found) errs
                                             else r) (scan_history db))
                              (next_scan_id db) db))
               db) in
      (commit db, db)
  end.

(** ** Scanned items *)

Definition clear_scan_data (sid : Z) (db : t) : t :=
  if negb (conn db) then db
  else
    let '(_, db) :=
      execute_sql DeleteItemsOfScan
        (fun db => Some (tt, with_scanned_items
                               (filter (fun kv => i_scan_id kv.2 ≠ sid) (scanned_items db)) db))
        db in
    snd (execute_sql DeletePackagesOfScan
           (fun db => Some (tt, with_packages
                                  (filter (fun kv => p_scan_id kv.2 ≠ sid) (packages db)) db))
           db).

Definition hash_column (extra : list (string * json)) : option string :=
  match Json.get "hash" extra with Some (JStr h) => Some h | _ => None end.

Definition is_duplicate_column (extra : list (string * json)) : bool :=
  match Json.get "is_duplicate" extra with Some j => Json.truthy j | None => false end.

Definition item_tuple (sid : Z) (i : ScannedItem.t) : string * ItemRow :=
  (ScannedItem.path i,
   Build_ItemRow sid (ScannedItem.size_bytes i) (ScannedItem.last_accessed i)
     (ScannedItem.last_modified i) (ScannedItem.item_type i)
     (hash_column (ScannedItem.extra_info i))
     (is_duplicate_column (ScannedItem.extra_info i))
     (match ScannedItem.extra_info i with [] => None | e => Some e end)).

(** the values the statement is given for an item, as Python holds them;
    the ninth, the text of [json.dumps(item.extra_info)] or [None], is
    ASCII and always binds *)
Definition item_params (sid : Z) (i : ScannedItem.t) : list param :=
  [ParStr (ScannedItem.path i); ParInt sid; ParInt (ScannedItem.size_bytes i);
   ParFloat (ScannedItem.last_accessed i); ParFloat (ScannedItem.last_modified i);
   ParStr (ScannedItem.item_type i);
   match Json.get "hash" (ScannedItem.extra_info i) with
   | Some j => param_of_json j
   | None => ParNone
   end;
   match Json.get "is_duplicate" (ScannedItem.extra_info i) with
   | Some j => param_of_json j
   | None => ParInt 0
   end].

(** [INSERT OR REPLACE] of every tuple, inside [with self.conn:]: all of
    them or, when the statement fails or a value cannot be bound, none.
    An [sqlite3.Error] is caught by the method's own [except] clause,
    which logs it; the [OverflowError] or [UnicodeEncodeError] of a value
    that cannot be bound is not one and leaves the method. *)
Definition add_scanned_items_batch (items : list ScannedItem.t) (sid : Z) (db : t)
  : outcome unit * t :=
  if negb (conn db) then (Return tt, db)
  else
    let data_tuples := map (item_tuple sid) items in
    match executemany (upsert_runs UpsertItems sid db) (map (item_params sid) items) with
    | Raise e => (Raise e, db)
    | Return false => (Return tt, log_error UpsertItems db)
    | Return true =>
        (Return tt,
         with_scanned_items
           (fold_left (fun m kv => <[kv.1 := kv.2]> m) data_tuples (scanned_items db)) db)
    end.

Definition item_of_row (kv : string * ItemRow) : ScannedItem.t :=
  ScannedItem.Make kv.1 (i_size_bytes kv.2) (i_last_accessed kv.2) (i_last_modified kv.2)
    (i_item_type kv.2) (default [] (i_extra_info kv.2)).

Definition get_scanned_items (item_type : option string) (min_size : option Z) (db : t)
  : list ScannedItem.t * t :=
  if negb (conn db) then ([], db)
  else
    let type_ok (r : ItemRow) :=
      match item_type with
      | Some ty => if String.eqb ty EmptyString then true else String.eqb (i_item_type r) ty
      | None => true
      end in
    let size_ok (r : ItemRow) :=
      match min_size with Some n => n <=? i_size_bytes r | None => true end in
    let '(cursor, db) :=
      execute_sql SelectItems
        (fun db => Some (List.filter (fun kv => type_ok kv.2 && size_ok kv.2)
                           (map_to_list (scanned_items db)), db)) db in
    match cursor with
    | Some rows => (map item_of_row rows, db)
    | None => ([], db)
    end.

(** [GROUP BY file_hash, size_bytes HAVING COUNT( * ) > 1] *)
Fixpoint count_group (k : string * Z) (acc : list (string * Z * Z)) : list (string * Z * Z) :=
  match acc with
  | [] => [(k.1, k.2, 1)]
  | (h, sz, c) :: r =>
      if String.eqb h k.1 && (sz =? k.2) then (h, sz, c + 1) :: r
      else (h, sz, c) :: count_group k r
  end.

Definition find_potential_duplicates (min_size : Z) (db : t)
  : list (string * Z * Z) * t :=
  let '(cursor, db) :=
    execute_sql SelectDuplicateGroups
      (fun db =>
         let keys :=
           omap (fun kv => match i_file_hash kv.2 with
                           | Some h => if min_size <=? i_size_bytes kv.2
                                       then Some (h, i_size_bytes kv.2) else None
                           | None => None
                           end) (map_to_list (scanned_items db)) in
         Some (List.filter (fun g => 1 <? g.2) (fold_left (fun acc k => count_group k acc) keys []),
               db)) db in
  (default [] cursor, db).

Definition get_files_by_hash (h : string) (db : t) : list string * t :=
  let '(cursor, db) :=
    execute_sql SelectPathsByHash
      (fun db => Some (map fst (List.filter
                                  (fun kv => bool_decide (i_file_hash kv.2 = Some h))
                                  (map_to_list (scanned_items db))), db)) db in
  (default [] cursor, db).

Definition mark_duplicates (h : string) (db : t) : t :=
  snd (execute_sql UpdateIsDuplicate
         (fun db =>
            Some (tt, with_scanned_items
                        ((fun r => if bool_decide (i_file_hash r = Some h)
                                   then Build_ItemRow (i_scan_id r) (i_size_bytes r)
                                          (i_last_accessed r) (i_last_modified r)
                                          (i_item_type r) (i_file_hash r) true
                                          (i_extra_info r)
                                   else r) <$> scanned_items db) db)) db).

Definition delete_scanned_item (path : string) (db : t) : outcome unit * t :=
  let db :=
    snd (execute_sql DeleteItem
           (fun db => Some (tt, with_scanned_items (delete path (scanned_items db)) db)) db) in
  (commit db, db).

(** ** Packages *)

Definition package_tuple (sid : Z) (p : PackageInfo.t) : string * PackageRow :=
  (PackageInfo.name p,
   Build_PackageRow sid (PackageInfo.version p) (PackageInfo.size_bytes p)
     (PackageInfo.description p) (PackageInfo.install_date p) (PackageInfo.last_used p)
     (PackageInfo.is_orphan p) (PackageInfo.is_dependency p)
     (match PackageInfo.required_by p with [] => None | l => Some l end)
     (match PackageInfo.optional_for p with [] => None | l => Some l end)).

(** the values the statement is given for a package; the last two, the
    texts of [json.dumps] or [None], always bind *)
Definition package_params (sid : Z) (p : PackageInfo.t) : list param :=
  [ParStr (PackageInfo.name p); ParInt sid; ParStr (PackageInfo.version p);
   ParInt (PackageInfo.size_bytes p);
   match PackageInfo.description p with Some d => ParStr d | None => ParNone end;
   match PackageInfo.install_date p with Some q => ParFloat q | None => ParNone end;
   match PackageInfo.last_used p with Some q => ParFloat q | None => ParNone end;
   ParInt (if PackageInfo.is_orphan p then 1 else 0);
   ParInt (if PackageInfo.is_dependency p then 1 else 0)].

(** as [add_scanned_items_batch] *)
Definition add_packages_batch (pkgs : list PackageInfo.t) (sid : Z) (db : t)
  : outcome unit * t :=
  if negb (conn db) then (Return tt, db)
  else
    let data_tuples := map (package_tuple sid) pkgs in
    match executemany (upsert_runs UpsertPackages sid db) (map (package_params sid) pkgs) with
    | Raise e => (Raise e, db)
    | Return false => (Return tt, log_error UpsertPackages db)
    | Return true =>
        (Return tt,
         with_packages
           (fold_left (fun m kv => <[kv.1 := kv.2]> m) data_tuples (packages db)) db)
    end.

Definition package_of_row (kv : string * PackageRow) : PackageInfo.t :=
  PackageInfo.Make kv.1 (p_version kv.2) (p_size_bytes kv.2) (p_description kv.2)
    (p_install_date kv.2) (p_last_used kv.2) (p_is_orphan kv.2) (p_is_dependency kv.2)
    (default [] (p_required_by kv.2)) (default [] (p_optional_for kv.2)).

Definition get_packages (orphans_only : bool) (db : t) : list PackageInfo.t * t :=
  if negb (conn db) then ([], db)
  else
    let '(cursor, db) :=
      execute_sql SelectPackages
        (fun db => Some (List.filter (fun kv => negb orphans_only || p_is_orphan kv.2)
                           (map_to_list (packages db)), db)) db in
    match cursor with
    | Some rows => (map package_of_row rows, db)
    | None => ([], db)
    end.

Definition delete_package (name : string) (db : t) : outcome unit * t :=
  let db :=
    snd (execute_sql DeletePackage
           (fun db => Some (tt, with_packages (delete name (packages db)) db)) db) in
  (commit db, db).

(** ** Feedback *)

Definition not_null (v : sqlval) : bool :=
  match v with VNull => false | _ => true end.

(** The parameter tuple is built from six attributes of the feedback
    object before the [try]; an attribute that is missing raises out of
    the method. *)
Definition add_feedback (feedback : ActionFeedback.t) (db : t) : outcome unit * t :=
  if negb (conn db) then (Return tt, db)
  else
    match ActionFeedback.getattr feedback "suggestion_id" with
    | Raise e => (Raise e, db) | Return a1 =>
    match ActionFeedback.getattr feedback "suggestion_type" with
    | Raise e => (Raise e, db) | Return a2 =>
    match ActionFeedback.getattr feedback "item_details" with
    | Raise e => (Raise e, db) | Return a3 =>
    match ActionFeedback.getattr feedback "action_taken" with
    | Raise e => (Raise e, db) | Return a4 =>
    match ActionFeedback.getattr feedback "timestamp" with
    | Raise e => (Raise e, db) | Return a5 =>
    match ActionFeedback.getattr feedback "user_comment" with
    | Raise e => (Raise e, db) | Return a6 =>
        let '(_, db) :=
          execute_sql InsertFeedback
            (fun db =>
               if not_null a1 && not_null a2 && not_null a3 && not_null a4 && not_null a5
               then Some (tt, with_action_feedback
                                (action_feedback db ++ [Build_FeedbackRow a1 a2 a3 a4 a5 a6]) db)
               else None) db in
        (Return tt, db)
    end end end end end end.

End Database.

(* ===================================================================== *)
(** * The machine: files, external commands, the store, the artifact *)
(* ===================================================================== *)

Module World.

Inductive node : Type :=
  | File (size : Z) (atime mtime : Q) (sha256 : string)   (* digest of the contents *)
  | Dir (size : Z) (atime mtime : Q).

(** [subprocess.CompletedProcess] *)
Record CompletedProcess : Type := {
  returncode : Z;
  stdout : string;
  stderr : string
}.

(** The suggestion artifact [last_suggestions.json]: missing, not
    readable as JSON, or holding a value. *)
Inductive artifact : Type :=
  | Absent
  | Unreadable
  | Stored (j : json).

(** [exec] is what an external command answers and does to the files
    when it is run; [commands] records the commands that were run and
    [listed] the directories whose entries were enumerated ([os.walk],
    [Path.glob]); [denied] marks the paths on which [stat], [open],
    [unlink] and [rmtree] raise [OSError]; [clock] is the reading of
    [time.time()]; [ctime] and [mktime] are [time.ctime] and
    [time.mktime(time.strptime(text, format))] under the locale and time
    zone of the machine ([mktime] is [None] where [strptime] raises
    [ValueError]).  Paths are absolute and free of symbolic links, and
    [files] holds, with a file, the directories above it. *)
Record t : Type := Make {
  files : gmap string node;
  exec : list string -> gmap string node -> CompletedProcess * gmap string node;
  commands : list (list string);
  listed : list string;
  denied : string -> bool;
  db : Database.t;
  suggestions_file : artifact;
  clock : Q;
  ctime : Q -> string;
  mktime : string -> option Q
}.

Definition with_files (f : gmap string node) (w : t) : t :=
  Make f (exec w) (commands w) (listed w) (denied w) (db w) (suggestions_file w) (clock w) (ctime w) (mktime w).
Definition with_commands (c : list (list string)) (w : t) : t :=
  Make (files w) (exec w) c (listed w) (denied w) (db w) (suggestions_file w) (clock w) (ctime w) (mktime w).
Definition with_db (d : Database.t) (w : t) : t :=
  Make (files w) (exec w) (commands w) (listed w) (denied w) d (suggestions_file w) (clock w) (ctime w) (mktime w).
Definition with_suggestions_file (a : artifact) (w : t) : t :=
  Make (files w) (exec w) (commands w) (listed w) (denied w) (db w) a (clock w) (ctime w) (mktime w).
Definition with_listed (l : list string) (w : t) : t :=
  Make (files w) (exec w) (commands w) l (denied w) (db w) (suggestions_file w) (clock w) (ctime w) (mktime w).

(** ** pathlib *)

Definition path_exists (p : string) (w : t) : bool :=
  match files w !! p with Some _ => true | None => false end.
Definition is_file (p : string) (w : t) : bool :=
  match files w !! p with Some (File _ _ _ _) => true | _ => false end.
Definition is_dir (p : string) (w : t) : bool :=
  match files w !! p with Some (Dir _ _ _) => true | _ => false end.

(** [p] lies strictly below the directory [d] *)
Definition below (d p : string) : bool := PyStr.startswith (d +:+ "/") p.

(** [Path.name], the last component *)
Fixpoint basename_from (acc s : string) : string :=
  match s with
  | EmptyString => acc
  | String c r =>
      if Ascii.eqb c "/"%char then basename_from r r
      else basename_from acc r
  end.
Definition name (p : string) : string := basename_from p p.

(** [Path.stat]: size, atime, mtime *)
Definition stat (p : string) (w : t) : outcome (Z * Q * Q) :=
  if denied w p then Raise (OSError p)
  else match files w !! p with
       | Some (File sz a m _) => Return (sz, a, m)
       | Some (Dir sz a m) => Return (sz, a, m)
       | None => Raise (OSError p)
       end.

Definition unlink (p : string) (w : t) : outcome unit * t :=
  if denied w p then (Raise (OSError p), w)
  else (Return tt, with_files (delete p (files w)) w).

(** [shutil.rmtree] *)
Definition rmtree (p : string) (w : t) : outcome unit * t :=
  if denied w p then (Raise (OSError p), w)
  else (Return tt,
        with_files (filter (fun kv => kv.1 ≠ p ∧ below p kv.1 = false) (files w)) w).

(** [helpers.run_command] with [check=False]: the command is run and its
    [CompletedProcess] returned; a command that cannot be started comes
    back with return code -1, so the call does not raise. *)
Definition run_command (command : list string) (w : t) : CompletedProcess * t :=
  let '(r, f) := exec w command (files w) in
  (r, with_commands (commands w ++ [command]) (with_files f w)).

End World.

(** Order on timestamps. *)
Definition Qltb (a b : Q) : bool :=
  Qnum a * Zpos (Qden b) <? Qnum b * Zpos (Qden a).

(** [sorted(l, key=..., reverse=True)] and [sorted(l, key=...)]: stable. *)
Section Sorting.
Context {A K : Type} (key : A -> K) (lt : K -> K -> bool).

(** [x] goes in front of the first element whose key is not above its own *)
Fixpoint insert_desc (x : A) (l : list A) : list A :=
  match l with
  | [] => [x]
  | y :: r => if lt (key x) (key y) then y :: insert_desc x r else x :: l
  end.
Definition sort_desc (l : list A) : list A := fold_right insert_desc [] l.

Fixpoint insert_asc (x : A) (l : list A) : list A :=
  match l with
  | [] => [x]
  | y :: r => if lt (key y) (key x) then y :: insert_asc x r else x :: l
  end.
Definition sort_asc (l : list A) : list A := fold_right insert_asc [] l.
End Sorting.

(* ===================================================================== *)
(** * modules/collection.py: item types *)
(* ===================================================================== *)

Definition ITEM_TYPE_FILE : string := "file".
Definition ITEM_TYPE_DIR : string := "directory".
Definition ITEM_TYPE_CACHE : string := "cache".
Definition ITEM_TYPE_LOG : string := "log".
Definition ITEM_TYPE_PACMAN_CACHE : string := "pacman_cache".
Definition ITEM_TYPE_JOURNAL_LOG : string := "journal_log".

(* ===================================================================== *)
(** * modules/analysis.py *)
(* ===================================================================== *)

Module AnalysisEngine.

Record t : Type := Make {
  config : ConfigManager.t;
  old_file_seconds : option Z;
  large_file_bytes : option Z;
  duplicate_min_bytes : option Z
}.

(** [__init__]: a threshold that does not parse falls back to its default *)
Definition init (config : ConfigManager.t) : t :=
  let old_file_seconds := Helpers.parse_duration (ConfigManager.thresholds_old_file config) in
  let large_file_bytes := Helpers.parse_size (ConfigManager.thresholds_large_file config) in
  let duplicate_min_bytes := Helpers.parse_size (ConfigManager.duplicates_min_size config) in
  Make config
    (match old_file_seconds with None => Some (90 * 86400) | s => s end)
    (match large_file_bytes with None => Some (500 * 1024 * 1024) | s => s end)
    (match duplicate_min_bytes with None => Some (1 * 1024 * 1024) | s => s end).

(** The results of [analyze_all], one field per key of its dictionary. *)
Record results : Type := {
  old_files : list ScannedItem.t;
  large_files : list ScannedItem.t;
  orphan_packages : list PackageInfo.t;
  duplicate_sets : list DuplicateSet.t;
  pacman_cache_files : list ScannedItem.t;
  journal_logs : list ScannedItem.t
}.

(** [now] is the reading of [time.time()] *)
Definition _find_old_files (self : t) (now : Q) (files : list ScannedItem.t)
  : list ScannedItem.t :=
  match old_file_seconds self with
  | None => []
  | Some secs =>
      let cutoff_time := (now - inject_Z secs)%Q in
      List.filter (fun f => Qltb (ScannedItem.last_accessed f) cutoff_time) files
  end.

Definition _find_large_files (self : t) (files : list ScannedItem.t)
  : list ScannedItem.t :=
  match large_file_bytes self with
  | None => []
  | Some bytes =>
      let large_files := List.filter (fun f => bytes <=? ScannedItem.size_bytes f) files in
      sort_desc ScannedItem.size_bytes Z.ltb large_files
  end.

(** the loop of [_find_duplicate_sets] over the groups the store reports *)
Fixpoint duplicate_loop (groups : list (string * Z * Z)) (processed : list string)
    (w : World.t) : list DuplicateSet.t * World.t :=
  match groups with
  | [] => ([], w)
  | (file_hash, size_bytes, _) :: rest =>
      if String.eqb file_hash EmptyString || bool_decide (file_hash ∈ processed)
      then duplicate_loop rest processed w
      else
        let '(paths, d) := Database.get_files_by_hash file_hash (World.db w) in
        let w := World.with_db d w in
        if (1 <? Z.of_nat (length paths)) then
          let valid_paths := List.filter (fun p => World.path_exists p w) paths in
          if (1 <? Z.of_nat (length valid_paths)) then
            let '(sets, w) := duplicate_loop rest (file_hash :: processed) w in
            (DuplicateSet.Make file_hash valid_paths size_bytes
               (size_bytes * Z.of_nat (length valid_paths)) :: sets, w)
          else duplicate_loop rest processed w
        else duplicate_loop rest processed w
  end.

Definition _find_duplicate_sets (self : t) (w : World.t)
  : list DuplicateSet.t * World.t :=
  match duplicate_min_bytes self with
  | None => ([], w)
  | Some min_bytes =>
      let '(potential_hashes, d) := Database.find_potential_duplicates min_bytes (World.db w) in
      let '(duplicate_sets, w) := duplicate_loop potential_hashes [] (World.with_db d w) in
      (sort_desc DuplicateSet.total_size_bytes Z.ltb duplicate_sets, w)
  end.

Definition analyze_all (self : t) (w : World.t) : results * World.t :=
  let cfg := config self in
  let '(all_files, d) := Database.get_scanned_items (Some ITEM_TYPE_FILE) None (World.db w) in
  let w := World.with_db d w in
  let old := _find_old_files self (World.clock w) all_files in
  let large := _find_large_files self all_files in
  let '(orphans, w) :=
    if ConfigManager.arch_remove_orphans cfg then
      let '(l, d) := Database.get_packages true (World.db w) in (l, World.with_db d w)
    else ([], w) in
  let '(dups, w) :=
    if ConfigManager.duplicates_enabled cfg then _find_duplicate_sets self w
    else ([], w) in
  let '(cache, w) :=
    if ConfigManager.arch_clean_pacman_cache cfg then
      let '(l, d) := Database.get_scanned_items (Some ITEM_TYPE_PACMAN_CACHE) None (World.db w) in
      (l, World.with_db d w)
    else ([], w) in
  let '(journal, w) :=
    if ConfigManager.arch_clean_journal cfg then
      let '(l, d) := Database.get_scanned_items (Some ITEM_TYPE_JOURNAL_LOG) None (World.db w) in
      (l, World.with_db d w)
    else ([], w) in
  (Build_results old large orphans dups cache journal, w).

End AnalysisEngine.

(* ===================================================================== *)
(** * modules/recommendation.py *)
(* ===================================================================== *)

Definition SUGGESTION_OLD_FILE : string := "OLD_FILE".
Definition SUGGESTION_LARGE_FILE : string := "LARGE_FILE".
Definition SUGGESTION_ORPHAN_PACKAGE : string := "ORPHAN_PACKAGE".
Definition SUGGESTION_DUPLICATE_SET : string := "DUPLICATE_SET".
Definition SUGGESTION_PACMAN_CACHE : string := "PACMAN_CACHE".
Definition SUGGESTION_JOURNAL_LOG : string := "JOURNAL_LOG".

Module RecommendationEngine.

Record t : Type := Make {
  config : ConfigManager.t;
  pacman_cache_keep : Z;
  journal_max_size_str : option string;
  journal_max_age_str : option string;
  journal_max_bytes : option Z;
  journal_max_seconds : option Z
}.

(** [x if s else None] on an optional string: the empty string is false *)
Definition if_set {A} (s : option string) (f : string -> option A) : option A :=
  match s with
  | Some v => if String.eqb v EmptyString then None else f v
  | None => None
  end.

Definition init (config : ConfigManager.t) : t :=
  let size_str := ConfigManager.arch_journal_max_disk_size config in
  let age_str := ConfigManager.arch_journal_max_age config in
  Make config (ConfigManager.arch_pacman_cache_keep config) size_str age_str
    (if_set size_str Helpers.parse_size) (if_set age_str Helpers.parse_duration).

(** [_generate_suggestion_id]: the hasher is fed the type, then the
    second argument; the id is the first ten hexadecimal digits.  The
    texts it is given are fixed words, or paths and content hashes read
    from the store, which holds no text without an encoding (see
    [Database.bind_param]). *)
Definition _generate_suggestion_id (suggestion_type details : string) : string :=
  PyStr.prefix 10 (Sha1.hexdigest (suggestion_type +:+ details)).

(** ** [_parse_pkg_filename]

    The pattern is
    [^(.*?)-(\\d.*?)-(\\d+)-(.*?)\\.pkg\\.tar\\.(?:zst|xz|gz|bz2)$]: the
    shortest name, then the shortest version, for which the rest can be
    matched. *)

Definition remove_suffix (suf s : string) : option string :=
  let n := String.length s in
  let k := String.length suf in
  if (k <=? n)%nat && String.eqb (String.substring (n - k) k s) suf
  then Some (String.substring 0 (n - k) s) else None.

Definition strip_pkg_suffix (s : string) : option string :=
  match remove_suffix ".pkg.tar.zst" s with
  | Some b => Some b
  | None =>
      match remove_suffix ".pkg.tar.xz" s with
      | Some b => Some b
      | None =>
          match remove_suffix ".pkg.tar.gz" s with
          | Some b => Some b
          | None => remove_suffix ".pkg.tar.bz2" s
          end
      end
  end.

Fixpoint has_newline (s : string) : bool :=
  match s with
  | EmptyString => false
  | String c r => Ascii.eqb c "010"%char || has_newline r
  end.

Definition cons3 (c : ascii) (x : string * string * string) : string * string * string :=
  let '(a, b, d) := x in (String c a, b, d).
Definition cons4 (c : ascii) (x : string * string * string * string)
  : string * string * string * string :=
  let '(a, b, d, e) := x in (String c a, b, d, e).

(** the rest of the version, the release number and the architecture *)
Fixpoint find_rel (s : string) : option (string * string * string) :=
  match s with
  | EmptyString => None
  | String c r =>
      let here :=
        if Ascii.eqb c "-"%char then
          let '(ds, rest) := Helpers.span PyStr.is_digit r in
          match ds, rest with
          | String _ _, String "-"%char arch => Some (EmptyString, ds, arch)
          | _, _ => None
          end
        else None in
      match here with
      | Some x => Some x
      | None => cons3 c <$> find_rel r
      end
  end.

Definition try_version (s : string) : option (string * string * string) :=
  match s with
  | String d r => if PyStr.is_digit d then cons3 d <$> find_rel r else None
  | EmptyString => None
  end.

Fixpoint find_name (s : string) : option (string * string * string * string) :=
  match s with
  | EmptyString => None
  | String c r =>
      let here := if Ascii.eqb c "-"%char then try_version r else None in
      match here with
      | Some (v, rel, arch) => Some (EmptyString, v, rel, arch)
      | None => cons4 c <$> find_name r
      end
  end.

(** name, version ([pkgver-pkgrel]) and architecture, or three [None] *)
Definition _parse_pkg_filename (filename : string)
  : option string * option string * option string :=
  let s := match remove_suffix (String "010"%char EmptyString) filename with
           | Some s => s | None => filename end in
  match strip_pkg_suffix s with
  | None => (None, None, None)
  | Some body =>
      if has_newline body then (None, None, None)
      else match find_name body with
           | Some (name, ver, rel, arch) => (Some name, Some (ver +:+ "-" +:+ rel), Some arch)
           | None => (None, None, None)
           end
  end.

(** ** The generators *)

Definition sum_Z (l : list Z) : Z := fold_left Z.add l 0.
Definition len {A} (l : list A) : Z := Z.of_nat (length l).
Definition Qmin (a b : Q) : Q := if Qltb b a then b else a.

Section Generators.
(** [time.ctime], which depends on the locale and the time zone *)
Variable ctime : Q -> string.

(** [now] is the reading of [time.time()] in [get_age_seconds]. The
    quotient by 86400 is a float division in the source, truncated by
    [int]. *)
Definition old_file_suggestion (now : Q) (item : ScannedItem.t) : Suggestion.t :=
  let age_days :=
    Helpers.int_of_Q
      (Helpers.get_age_seconds now (ScannedItem.last_accessed item) / inject_Z 86400) in
  let size_hr := Helpers.human_readable_size (ScannedItem.size_bytes item) in
  let details := ScannedItem.path item in
  let desc := "Remove old file not accessed in " +:+ PyStr.of_Z age_days
              +:+ " days (" +:+ size_hr +:+ ")" in
  let rationale := "File last accessed on "
                   +:+ ctime (ScannedItem.last_accessed item) +:+ "." in
  let confidence :=
    Qmin ((5 # 10) + (inject_Z age_days / inject_Z 365) * (4 # 10)) (9 # 10) in
  Suggestion.Make (_generate_suggestion_id SUGGESTION_OLD_FILE details)
    SUGGESTION_OLD_FILE desc details (ScannedItem.size_bytes item)
    confidence rationale (DItem item).

Definition _generate_old_file_suggestions (now : Q) (old_files : list ScannedItem.t)
  : list Suggestion.t :=
  map (old_file_suggestion now) old_files.

Definition large_file_suggestion (item : ScannedItem.t) : Suggestion.t :=
  let size_hr := Helpers.human_readable_size (ScannedItem.size_bytes item) in
  let details := ScannedItem.path item in
  let desc := "Review large file (" +:+ size_hr +:+ ")" in
  let rationale := "File size (" +:+ size_hr +:+ ") exceeds threshold. Last accessed: "
                   +:+ ctime (ScannedItem.last_accessed item) +:+ "." in
  let confidence := 3 # 10 in
  Suggestion.Make (_generate_suggestion_id SUGGESTION_LARGE_FILE details)
    SUGGESTION_LARGE_FILE desc details (ScannedItem.size_bytes item)
    confidence rationale (DItem item).

Definition _generate_large_file_suggestions (large_files : list ScannedItem.t)
  : list Suggestion.t :=
  map large_file_suggestion large_files.

Definition _generate_orphan_package_suggestions (orphans : list PackageInfo.t)
  : list Suggestion.t :=
  let total_size := sum_Z (map PackageInfo.size_bytes orphans) in
  match orphans with
  | [] => []
  | _ =>
      let details :=
        PyStr.join ", " (sort_asc id PyStr.ltb (map PackageInfo.name orphans)) in
      let size_hr := Helpers.human_readable_size total_size in
      let desc := "Remove " +:+ PyStr.of_Z (len orphans) +:+ " orphan packages ("
                  +:+ size_hr +:+ ")" in
      let rationale := "These packages were installed as dependencies but are no longer required by any installed package." in
      let confidence := 8 # 10 in
      [Suggestion.Make (_generate_suggestion_id SUGGESTION_ORPHAN_PACKAGE "all_orphans")
         SUGGESTION_ORPHAN_PACKAGE desc details total_size confidence rationale
         (DList (map EPackage orphans))]
  end.

Definition duplicate_set_suggestion (dup_set : DuplicateSet.t) : option Suggestion.t :=
  let paths := DuplicateSet.paths dup_set in
  let num_files := len paths in
  let potential_saving := (num_files - 1) * DuplicateSet.size_bytes dup_set in
  if potential_saving <=? 0 then None
  else
    let size_hr := Helpers.human_readable_size (DuplicateSet.size_bytes dup_set) in
    let total_size_hr := Helpers.human_readable_size potential_saving in
    let paths_preview := PyStr.join ", " (map World.name (firstn 3 paths)) in
    let paths_preview := if 3 <? len paths then paths_preview +:+ ", ..." else paths_preview in
    let details := PyStr.of_Z num_files +:+ " files (" +:+ size_hr +:+ " each). Hash: "
                   +:+ PyStr.prefix 8 (DuplicateSet.file_hash dup_set)
                   +:+ "... Locations: " +:+ paths_preview in
    let desc := "Remove " +:+ PyStr.of_Z (num_files - 1) +:+ " duplicate files (Save "
                +:+ total_size_hr +:+ ")" in
    let rationale := "Found " +:+ PyStr.of_Z num_files
                     +:+ " identical files based on content hash. Keeping one copy is usually sufficient." in
    let confidence := 7 # 10 in
    Some (Suggestion.Make
            (_generate_suggestion_id SUGGESTION_DUPLICATE_SET (DuplicateSet.file_hash dup_set))
            SUGGESTION_DUPLICATE_SET desc details potential_saving confidence rationale
            (DDupSet dup_set)).

Definition _generate_duplicate_set_suggestions (duplicate_sets : list DuplicateSet.t)
  : list Suggestion.t :=
  omap duplicate_set_suggestion duplicate_sets.

(** [packages[name].append(...)] on the insertion-ordered dictionary *)
Fixpoint add_version (name : string) (entry : string * string * Z)
    (packages : list (string * list (string * string * Z)))
  : list (string * list (string * string * Z)) :=
  match packages with
  | [] => [(name, [entry])]
  | (n, vs) :: r =>
      if String.eqb n name then (n, vs ++ [entry]) :: r
      else (n, vs) :: add_version name entry r
  end.

Definition group_cache_files (cache_files : list ScannedItem.t)
  : list (string * list (string * string * Z)) :=
  fold_left
    (fun packages item =>
       match _parse_pkg_filename (World.name (ScannedItem.path item)) with
       | (Some name, Some version, _) =>
           if String.eqb name EmptyString || String.eqb version EmptyString then packages
           else add_version name
                  (version, ScannedItem.path item, ScannedItem.size_bytes item) packages
       | _ => packages
       end)
    cache_files [].

Definition _generate_pacman_cache_suggestions (self : t) (cache_files : list ScannedItem.t)
  : list Suggestion.t :=
  match cache_files with
  | [] => []
  | _ =>
      let total_size := sum_Z (map ScannedItem.size_bytes cache_files) in
      let packages :=
        map (fun nv => (nv.1, sort_desc (fun x : string * string * Z => x.1.1) PyStr.ltb nv.2))
            (group_cache_files cache_files) in
      let keep_count := Z.max 1 (pacman_cache_keep self) in
      let files_to_remove : list (string * Z) :=
        flat_map (fun nv =>
                    let versions := nv.2 in
                    if keep_count <? len versions
                    then map (fun x : string * string * Z => (x.1.2, x.2))
                             (skipn (Z.to_nat keep_count) versions)
                    else []) packages in
      match files_to_remove with
      | [] => []
      | _ =>
          let removable_size := sum_Z (map snd files_to_remove) in
          let size_hr := Helpers.human_readable_size removable_size in
          let num_files := len files_to_remove in
          let details := PyStr.of_Z num_files +:+ " older package versions. Total cache size: "
                         +:+ Helpers.human_readable_size total_size in
          let desc := "Clean pacman cache: Remove " +:+ PyStr.of_Z num_files
                      +:+ " older versions (Save " +:+ size_hr +:+ ")" in
          let rationale := "Keep the latest " +:+ PyStr.of_Z (pacman_cache_keep self)
                           +:+ " version(s) of each package and remove older ones." in
          let confidence := 9 # 10 in
          [Suggestion.Make (_generate_suggestion_id SUGGESTION_PACMAN_CACHE "older_versions")
             SUGGESTION_PACMAN_CACHE desc details removable_size confidence rationale
             (DList (map (fun x => EPath x.1) files_to_remove))]
      end
  end.

Definition _generate_journal_log_suggestions (self : t) (journal_items : list ScannedItem.t)
  : list Suggestion.t :=
  match journal_items with
  | [] => []
  | journal_item :: _ =>
      let current_size := ScannedItem.size_bytes journal_item in
      let size_hr := Helpers.human_readable_size current_size in
      match journal_max_bytes self with
      | Some max_bytes =>
          if max_bytes <? current_size then
            let target_size_hr := Helpers.human_readable_size max_bytes in
            let rationale := "Journal size (" +:+ size_hr +:+ ") exceeds configured limit ("
                             +:+ target_size_hr +:+ ")." in
            let estimated_saving := current_size - max_bytes in
            let details := "Current size: " +:+ size_hr +:+ ". Target size: "
                           +:+ target_size_hr in
            let desc := "Vacuum journal logs to target size (" +:+ target_size_hr +:+ ")" in
            let confidence := 8 # 10 in
            [Suggestion.Make (_generate_suggestion_id SUGGESTION_JOURNAL_LOG "vacuum_size")
               SUGGESTION_JOURNAL_LOG desc details (Z.max 0 estimated_saving)
               confidence rationale
               (DDict [("target_size", PInt max_bytes); ("target_age", PNone)])]
          else []
      | None => []
      end
  end.

(** [now] is read once per old file in the source; one reading stands
    for all of them. *)
Definition generate_suggestions (self : t) (now : Q)
    (analysis_results : AnalysisEngine.results) : list Suggestion.t :=
  let suggestions :=
    _generate_old_file_suggestions now (AnalysisEngine.old_files analysis_results)
    ++ _generate_large_file_suggestions (AnalysisEngine.large_files analysis_results)
    ++ _generate_orphan_package_suggestions (AnalysisEngine.orphan_packages analysis_results)
    ++ _generate_duplicate_set_suggestions (AnalysisEngine.duplicate_sets analysis_results)
    ++ _generate_pacman_cache_suggestions self (AnalysisEngine.pacman_cache_files analysis_results)
    ++ _generate_journal_log_suggestions self (AnalysisEngine.journal_logs analysis_results) in
  sort_desc Suggestion.estimated_size_bytes Z.ltb suggestions.

End Generators.

End RecommendationEngine.

(* ===================================================================== *)
(** * modules/execution.py *)
(* ===================================================================== *)

Module ExecutionHandler.

Record t : Type := Make {
  config : ConfigManager.t;
  use_trash : bool
}.

(** [HAS_TRASH_CLI] is found once, when the module is imported *)
Definition init (config : ConfigManager.t) (HAS_TRASH_CLI : bool) : t :=
  Make config (ConfigManager.safety_use_trash config && HAS_TRASH_CLI).

Definition result (s : Suggestion.t) (success : bool) (message : string)
    (bytes_freed : Z) (dry_run : bool) : ActionResult.t :=
  ActionResult.Make s success message bytes_freed dry_run.

Definition _safe_delete (self : t) (path : string) (dry_run : bool) (w : World.t)
  : (bool * string) * World.t :=
  let target := path in
  if negb (World.path_exists path w) then
    ((true, "Path " +:+ target +:+ " already gone."), w)
  else if dry_run then
    let action := if use_trash self then "Trash" else "Delete" in
    ((true, "Simulated " +:+ PyStr.lower action +:+ " of " +:+ target), w)
  else if use_trash self then
    let '(r, w) := World.run_command ["trash-put"; target] w in
    if World.returncode r =? 0 then ((true, "Moved " +:+ target +:+ " to trash."), w)
    else ((false, "Failed to move " +:+ target +:+ " to trash: " +:+ World.stderr r), w)
  else
    let '(r, w) :=
      if World.is_file path w then World.unlink path w
      else if World.is_dir path w then World.rmtree path w
      else (Return tt, w) in
    match r with
    | Return _ => ((true, "Permanently deleted " +:+ target), w)
    | Raise e => ((false, "Error deleting " +:+ target +:+ ": " +:+ exn_str e), w)
    end.

(** ** The handlers, one per suggestion type *)

Definition _handle_old_file (self : t) (suggestion : Suggestion.t) (dry_run : bool)
    (w : World.t) : outcome ActionResult.t * World.t :=
  match Suggestion.data suggestion with
  | DItem item =>
      let '((success, message), w) := _safe_delete self (ScannedItem.path item) dry_run w in
      let bytes_freed := if success then ScannedItem.size_bytes item else 0 in
      if success && negb dry_run then
        let '(r, d) := Database.delete_scanned_item (ScannedItem.path item) (World.db w) in
        let w := World.with_db d w in
        match r with
        | Raise e => (Raise e, w)
        | Return _ => (Return (result suggestion success message bytes_freed dry_run), w)
        end
      else (Return (result suggestion success message bytes_freed dry_run), w)
  | _ => (Return (result suggestion false "Invalid data type for OLD_FILE" 0 dry_run), w)
  end.

Definition _handle_large_file := _handle_old_file.

(** [all(isinstance(p, PackageInfo) for p in l)] and the names *)
Fixpoint package_list (l : list pyelem) : option (list PackageInfo.t) :=
  match l with
  | [] => Some []
  | EPackage p :: r => cons p <$> package_list r
  | _ :: _ => None
  end.

Fixpoint path_list (l : list pyelem) : option (list string) :=
  match l with
  | [] => Some []
  | EPath p :: r => cons p <$> path_list r
  | _ :: _ => None
  end.

(** [result.stderr.strip() if result.stderr else f"{what} exited with code {rc}"] *)
Definition error_msg (what : string) (r : World.CompletedProcess) : string :=
  if String.eqb (World.stderr r) EmptyString
  then what +:+ " exited with code " +:+ PyStr.of_Z (World.returncode r)
  else PyStr.strip (World.stderr r).

(** the loop [for x in xs: self.db.delete...(x)]; an exception ends it *)
Fixpoint delete_each (del : string -> Database.t -> outcome unit * Database.t)
    (xs : list string) (w : World.t) : outcome unit * World.t :=
  match xs with
  | [] => (Return tt, w)
  | x :: r =>
      let '(o, d) := del x (World.db w) in
      let w := World.with_db d w in
      match o with
      | Raise e => (Raise e, w)
      | Return _ => delete_each del r w
      end
  end.

Definition _handle_orphan_package (self : t) (suggestion : Suggestion.t) (dry_run : bool)
    (w : World.t) : outcome ActionResult.t * World.t :=
  let invalid :=
    (Return (result suggestion false "Invalid data type for ORPHAN_PACKAGE" 0 dry_run), w) in
  match Suggestion.data suggestion with
  | DList l =>
      match package_list l with
      | None => invalid
      | Some [] =>
          (Return (result suggestion true "No orphan packages specified." 0 dry_run), w)
      | Some orphans =>
          let package_names := map PackageInfo.name orphans in
          let command := ["sudo"; "pacman"; "-Rns"] ++ package_names in
          let n := PyStr.of_Z (Z.of_nat (length package_names)) in
          if dry_run then
            (Return (result suggestion true ("Simulated removal of " +:+ n +:+ " orphans.")
                       (Suggestion.estimated_size_bytes suggestion) true), w)
          else
            let '(r, w) := World.run_command command w in
            if World.returncode r =? 0 then
              let message := "Successfully removed " +:+ n +:+ " orphan packages." in
              let '(o, w) := delete_each Database.delete_package package_names w in
              match o with
              | Raise e => (Raise e, w)
              | Return _ =>
                  (Return (result suggestion true message
                             (Suggestion.estimated_size_bytes suggestion) false), w)
              end
            else
              (Return (result suggestion false
                         ("Failed to remove orphans: " +:+ error_msg "pacman" r) 0 false), w)
      end
  | _ => invalid
  end.

(** the loop of [_handle_duplicate_set] over [paths_to_remove]:
    [(total_bytes_freed, success_count, messages)] *)
Fixpoint remove_duplicates (self : t) (size_bytes : Z) (dry_run : bool)
    (paths : list string) (acc : Z * Z * list string) (w : World.t)
  : outcome (Z * Z * list string) * World.t :=
  match paths with
  | [] => (Return acc, w)
  | path :: rest =>
      let '(total, count, messages) := acc in
      let '((success, message), w) := _safe_delete self path dry_run w in
      let messages := messages ++ [message] in
      if success then
        let acc := (total + size_bytes, count + 1, messages) in
        if negb dry_run then
          let '(o, d) := Database.delete_scanned_item path (World.db w) in
          let w := World.with_db d w in
          match o with
          | Raise e => (Raise e, w)
          | Return _ => remove_duplicates self size_bytes dry_run rest acc w
          end
        else remove_duplicates self size_bytes dry_run rest acc w
      else remove_duplicates self size_bytes dry_run rest (total, count, messages) w
  end.

Definition _handle_duplicate_set (self : t) (suggestion : Suggestion.t) (dry_run : bool)
    (w : World.t) : outcome ActionResult.t * World.t :=
  let invalid :=
    (Return (result suggestion false
               "Invalid data type or insufficient files for DUPLICATE_SET" 0 dry_run), w) in
  match Suggestion.data suggestion with
  | DDupSet dup_set =>
      match DuplicateSet.paths dup_set with
      | keep :: ((_ :: _) as paths_to_remove) =>
          let '(o, w) :=
            remove_duplicates self (DuplicateSet.size_bytes dup_set) dry_run
              paths_to_remove (0, 0, []) w in
          match o with
          | Raise e => (Raise e, w)
          | Return (total_bytes_freed, success_count, messages) =>
              let n := Z.of_nat (length paths_to_remove) in
              let overall_success := success_count =? n in
              let final_message :=
                "Removed " +:+ PyStr.of_Z success_count +:+ "/" +:+ PyStr.of_Z n
                +:+ " duplicate files. Kept: " +:+ World.name keep +:+ ". "
                +:+ PyStr.join "; " messages in
              (Return (result suggestion overall_success final_message
                         total_bytes_freed dry_run), w)
          end
      | _ => invalid
      end
  | _ => invalid
  end.

Definition _handle_pacman_cache (self : t) (suggestion : Suggestion.t) (dry_run : bool)
    (w : World.t) : outcome ActionResult.t * World.t :=
  let invalid :=
    (Return (result suggestion false "Invalid data type for PACMAN_CACHE" 0 dry_run), w) in
  match Suggestion.data suggestion with
  | DList l =>
      match path_list l with
      | None => invalid
      | Some [] =>
          (Return (result suggestion true "No pacman cache files specified for removal."
                     0 dry_run), w)
      | Some paths_to_remove =>
          let paths_str := paths_to_remove in
          let command := ["sudo"; "rm"; "-f"] ++ paths_str in
          let n := PyStr.of_Z (Z.of_nat (length paths_str)) in
          if dry_run then
            (Return (result suggestion true ("Simulated removal of " +:+ n +:+ " cache files.")
                       (Suggestion.estimated_size_bytes suggestion) true), w)
          else
            let '(r, w) := World.run_command command w in
            if World.returncode r =? 0 then
              let message := "Successfully removed " +:+ n +:+ " pacman cache files." in
              let '(o, w) := delete_each Database.delete_scanned_item paths_to_remove w in
              match o with
              | Raise e => (Raise e, w)
              | Return _ =>
                  (Return (result suggestion true message
                             (Suggestion.estimated_size_bytes suggestion) false), w)
              end
            else
              (Return (result suggestion false
                         ("Failed to remove cache files: " +:+ error_msg "sudo rm" r) 0 false), w)
      end
  | _ => invalid
  end.

(** ** Reading a size out of the text of [journalctl] *)

Definition is_size_char (c : ascii) : bool :=
  PyStr.is_digit c || Ascii.eqb c "."%char.
Definition is_unit_char (c : ascii) : bool :=
  existsb (Ascii.eqb c) ["B"; "K"; "M"; "G"; "T"]%char.

(** [\\s+([\\d.]+[BKMGT])] at the head of [s]: the group and the rest *)
Definition size_token (s : string) : option (string * string) :=
  let '(sp, r) := Helpers.span PyStr.is_space s in
  match sp with
  | EmptyString => None
  | _ =>
      let '(num, r) := Helpers.span is_size_char r in
      match num, r with
      | String _ _, String u r' =>
          if is_unit_char u then Some (num +:+ String u EmptyString, r') else None
      | _, _ => None
      end
  end.

Definition drop (n : nat) (s : string) : string :=
  String.substring n (String.length s - n) s.

(** [re.search]: the first place where [kw] stands and [k] accepts what
    follows it *)
Fixpoint search {A} (kw : string) (k : string -> option A) (s : string) : option A :=
  let here :=
    if PyStr.startswith kw s then k (drop (String.length kw) s) else None in
  match here with
  | Some a => Some a
  | None => match s with
            | EmptyString => None
            | String _ r => search kw k r
            end
  end.

Definition _handle_journal_log (self : t) (suggestion : Suggestion.t) (dry_run : bool)
    (w : World.t) : outcome ActionResult.t * World.t :=
  match Suggestion.data suggestion with
  | DDict vacuum_params =>
      let target_size := default PNone (PyVal.get "target_size" vacuum_params) in
      let target_age := default PNone (PyVal.get "target_age" vacuum_params) in
      match target_size, target_age with
      | PNone, PNone =>
          (Return (result suggestion false
                     "No target size or age specified for journal vacuum." 0 dry_run), w)
      | PNone, _ =>
          (Return (result suggestion false
                     "Journal vacuuming by age not yet supported." 0 dry_run), w)
      | _, _ =>
          let command := ["sudo"; "journalctl"] ++ ["--vacuum-size"; PyVal.str target_size] in
          if dry_run then
            (Return (result suggestion true "Simulated journal vacuum." 0 true), w)
          else
            let '(r, w) := World.run_command command w in
            if World.returncode r =? 0 then
              let freed_match :=
                search "freed" (fun rest => fst <$> size_token rest) (World.stdout r) in
              let bytes_freed :=
                match freed_match with
                | Some g => default 0 (Helpers.parse_size g)
                | None => 0
                end in
              let message := "Successfully vacuumed journal logs. Freed approx "
                             +:+ Helpers.human_readable_size bytes_freed +:+ "." in
              (Return (result suggestion true message bytes_freed false), w)
            else
              (Return (result suggestion false
                         ("Failed to vacuum journal: " +:+ error_msg "journalctl" r) 0 false), w)
      end
  | _ => (Return (result suggestion false "Invalid data type for JOURNAL_LOG" 0 dry_run), w)
  end.

(** [getattr(self, f"_handle_{suggestion_type.lower()}", None)] *)
Definition handler_for (suggestion_type : string)
  : option (t -> Suggestion.t -> bool -> World.t -> outcome ActionResult.t * World.t) :=
  let n := PyStr.lower suggestion_type in
  if String.eqb n "old_file" then Some _handle_old_file
  else if String.eqb n "large_file" then Some _handle_large_file
  else if String.eqb n "orphan_package" then Some _handle_orphan_package
  else if String.eqb n "duplicate_set" then Some _handle_duplicate_set
  else if String.eqb n "pacman_cache" then Some _handle_pacman_cache
  else if String.eqb n "journal_log" then Some _handle_journal_log
  else None.

Definition execute_suggestion (self : t) (suggestion : Suggestion.t) (dry_run : bool)
    (w : World.t) : ActionResult.t * World.t :=
  match handler_for (Suggestion.suggestion_type suggestion) with
  | Some handler_method =>
      let '(o, w) := handler_method self suggestion dry_run w in
      match o with
      | Return r => (r, w)
      | Raise e =>
          (result suggestion false ("Execution error: " +:+ exn_str e) 0 dry_run, w)
      end
  | None =>
      (result suggestion false
         ("Unsupported suggestion type: " +:+ Suggestion.suggestion_type suggestion)
         0 dry_run, w)
  end.

End ExecutionHandler.

(* ===================================================================== *)
(** * modules/learning.py *)
(* ===================================================================== *)

Module LearningModule.

Record t : Type := Make {
  config : ConfigManager.t;
  learning_enabled : bool
}.

Definition init (config : ConfigManager.t) : t :=
  Make config (ConfigManager.learning_enabled config).

(** The feedback object is built with the four fields the dataclass has
    and handed to the store; whatever [add_feedback] raises is caught and
    logged here. *)
Definition record_feedback (self : t) (suggestion : Suggestion.t) (action_taken : string)
    (user_comment : option string) (w : World.t) : World.t :=
  if negb (learning_enabled self) then w
  else
    let item_details := Suggestion.details suggestion in
    let feedback :=
      ActionFeedback.Make (Suggestion.id suggestion) action_taken (World.clock w)
        user_comment in
    let '(o, d) := Database.add_feedback feedback (World.db w) in
    match o with
    | Return _ => World.with_db d w
    | Raise _ => World.with_db d w
    end.

End LearningModule.

(* ===================================================================== *)
(** * utils/helpers.py: path exclusion *)
(* ===================================================================== *)

Module Fnmatch.

(** One item of a bracket expression: a character or a range. *)
Definition in_range (lo hi c : ascii) : bool :=
  (PyStr.byte_of lo <=? PyStr.byte_of c) && (PyStr.byte_of c <=? PyStr.byte_of hi).

(** membership of [c] in the items written between the brackets *)
Fixpoint in_class (c : ascii) (items : string) : bool :=
  match items with
  | String lo (String "-"%char (String hi r)) => in_range lo hi c || in_class c r
  | String x r => Ascii.eqb x c || in_class c r
  | EmptyString => false
  end.

(** the items up to the closing bracket, and what follows it; a bracket
    directly after the opening one (or after [!]) is an item *)
Fixpoint until_close (first : bool) (p : string) : option (string * string) :=
  match p with
  | EmptyString => None
  | String c r =>
      if Ascii.eqb c "]"%char && negb first then Some (EmptyString, r)
      else match until_close false r with
           | Some (items, rest) => Some (String c items, rest)
           | None => None
           end
  end.

Definition bracket (p : string) : option (bool * string * string) :=
  match p with
  | String "!"%char r =>
      match until_close true r with
      | Some (items, rest) => Some (true, items, rest)
      | None => None
      end
  | _ =>
      match until_close true p with
      | Some (items, rest) => Some (false, items, rest)
      | None => None
      end
  end.

(** [fnmatch.fnmatchcase]: [*] any text, [?] any character, [[seq]] and
    [[!seq]] a character class, anything else itself *)
Fixpoint matches (fuel : nat) (pat s : string) : bool :=
  match fuel with
  | O => false
  | S fuel =>
      match pat with
      | EmptyString => match s with EmptyString => true | _ => false end
      | String "*"%char p =>
          (fix star (s : string) : bool :=
             matches fuel p s
             || match s with String _ r => star r | EmptyString => false end) s
      | String "?"%char p =>
          match s with String _ r => matches fuel p r | EmptyString => false end
      | String c p =>
          let literal :=
            match s with
            | String d r => Ascii.eqb c d && matches fuel p r
            | EmptyString => false
            end in
          if Ascii.eqb c "["%char then
            match bracket p with
            | Some (neg, items, p') =>
                match s with
                | String d r => xorb neg (in_class d items) && matches fuel p' r
                | EmptyString => false
                end
            | None => literal
            end
          else literal
      end
  end.

Definition fnmatch (name pat : string) : bool :=
  matches (S (String.length pat)) pat name.

End Fnmatch.

Module Paths.

(** the path and its ancestors, the root left out: what the loop
    [while current != current.parent] visits *)
Fixpoint ancestors_from (seen rest : string) : list string :=
  match rest with
  | EmptyString =>
      if String.eqb seen EmptyString || String.eqb seen "/" then [] else [seen]
  | String c r =>
      let here :=
        if Ascii.eqb c "/"%char
        then match seen with EmptyString => [] | _ => [seen] end
        else [] in
      ancestors_from (seen +:+ String c EmptyString) r ++ here
  end.
Definition ancestors (p : string) : list string := ancestors_from EmptyString p.

(** [pattern.endswith('/*')] and [pattern[:-2]] *)
Definition base_pattern (pattern : string) : option string :=
  RecommendationEngine.remove_suffix "/*" pattern.

Definition is_path_excluded (path : string) (exclude_patterns : list string) : bool :=
  existsb (fun pattern =>
             Fnmatch.fnmatch path pattern
             || match base_pattern pattern with
                | Some base => existsb (fun current => Fnmatch.fnmatch current base)
                                 (ancestors path)
                | None => false
                end)
          exclude_patterns.

(** [sub in s] *)
Fixpoint contains (sub s : string) : bool :=
  PyStr.startswith sub s
  || match s with String _ r => contains sub r | EmptyString => false end.

(** [Path.parts] without the root *)
Fixpoint parts_from (cur rest : string) : list string :=
  match rest with
  | EmptyString => match cur with EmptyString => [] | _ => [cur] end
  | String c r =>
      if Ascii.eqb c "/"%char
      then match cur with EmptyString => parts_from EmptyString r
                        | _ => cur :: parts_from EmptyString r end
      else parts_from (cur +:+ String c EmptyString) r
  end.
Definition parts (p : string) : list string := parts_from EmptyString p.

(** [s.split(sep)] on a one-character separator *)
Fixpoint split_from (sep : ascii) (cur rest : string) : list string :=
  match rest with
  | EmptyString => [cur]
  | String c r =>
      if Ascii.eqb c sep then cur :: split_from sep EmptyString r
      else split_from sep (cur +:+ String c EmptyString) r
  end.
Definition split (sep : ascii) (s : string) : list string := split_from sep EmptyString s.

(** [s.split(sep, 1)] when [sep] occurs in [s] *)
Fixpoint split_once_from (sep : ascii) (cur rest : string) : option (string * string) :=
  match rest with
  | EmptyString => None
  | String c r =>
      if Ascii.eqb c sep then Some (cur, r)
      else split_once_from sep (cur +:+ String c EmptyString) r
  end.
Definition split_once (sep : ascii) (s : string) : option (string * string) :=
  split_once_from sep EmptyString s.

(** [s.split()]: the words between runs of white space *)
Fixpoint words_from (cur rest : string) : list string :=
  match rest with
  | EmptyString => match cur with EmptyString => [] | _ => [cur] end
  | String c r =>
      if PyStr.is_space c
      then match cur with EmptyString => words_from EmptyString r
                        | _ => cur :: words_from EmptyString r end
      else words_from (cur +:+ String c EmptyString) r
  end.
Definition words (s : string) : list string := words_from EmptyString s.

End Paths.

(* ===================================================================== *)
(** * modules/collection.py *)
(* ===================================================================== *)

Module DataCollector.

Record t : Type := Make { config : ConfigManager.t }.

Definition init (config : ConfigManager.t) : t := Make config.

(** [start_collection]: the new scan id, [None] where the method returns
    [False] *)
Definition start_collection (self : t) (w : World.t) : option Z * World.t :=
  let '(sid, d) := Database.start_scan (World.clock w) (World.db w) in
  match sid with
  | None => (None, World.with_db d w)
  | Some id =>
      if id =? 0 then (None, World.with_db d w)
      else (Some id, World.with_db (Database.clear_scan_data id d) w)
  end.

Definition finish_collection (self : t) (current_scan_id : Z) (items_found : Z)
    (errors : option string) (w : World.t) : outcome unit * World.t :=
  let '(o, d) :=
    Database.end_scan (World.clock w) current_scan_id items_found errors (World.db w) in
  (o, World.with_db d w).

(** ** Walking the file system *)

Definition _process_path (self : t) (path : string) (calculate_hashes : bool)
    (min_hash_size : Z) (w : World.t) : option ScannedItem.t :=
  match World.stat path w with
  | Raise _ => None
  | Return (size, access_time, mod_time) =>
      let is_dir := World.is_dir path w in
      let item_type := if is_dir then ITEM_TYPE_DIR else ITEM_TYPE_FILE in
      let lname := PyStr.lower (World.name path) in
      let item_type := if Paths.contains ".log" lname then ITEM_TYPE_LOG else item_type in
      let item_type :=
        if bool_decide (".cache" ∈ Paths.parts path) || Paths.contains "cache" lname
        then ITEM_TYPE_CACHE else item_type in
      let extra_info :=
        if negb is_dir && calculate_hashes && (min_hash_size <=? size) then
          match World.files w !! path with
          | Some (World.File _ _ _ h) =>
              if String.eqb h EmptyString then [] else [("hash", JStr h)]
          | _ => []
          end
        else [] in
      Some (ScannedItem.Make path size access_time mod_time item_type extra_info)
  end.

(** [os.walk] reaches a file below [start] when none of the directories
    between [start] and the file was pruned *)
Definition reached (start file : string) (exclude_patterns : list string) : bool :=
  World.below start file
  && forallb (fun d => negb (World.below start d && Paths.is_path_excluded d exclude_patterns))
             (tail (Paths.ancestors file)).

Definition visit (self : t) (exclude_patterns : list string) (calculate_hashes : bool)
    (min_hash_size : Z) (w : World.t) (acc : list ScannedItem.t * list string)
    (file_path : string) : list ScannedItem.t * list string :=
  let '(items, processed_paths) := acc in
  if bool_decide (file_path ∈ processed_paths) then acc
  else if Paths.is_path_excluded file_path exclude_patterns then acc
  else match _process_path self file_path calculate_hashes min_hash_size w with
       | Some item => (items ++ [item], file_path :: processed_paths)
       | None => acc
       end.

Fixpoint scan_paths (self : t) (paths_to_scan : list string) (exclude_patterns : list string)
    (calculate_hashes : bool) (min_hash_size : Z)
    (acc : list ScannedItem.t * list string) (w : World.t)
  : list ScannedItem.t * World.t :=
  match paths_to_scan with
  | [] => (acc.1, w)
  | start_path :: rest =>
      if negb (World.path_exists start_path w) then
        scan_paths self rest exclude_patterns calculate_hashes min_hash_size acc w
      else if World.is_file start_path w then
        scan_paths self rest exclude_patterns calculate_hashes min_hash_size
          (visit self exclude_patterns calculate_hashes min_hash_size w acc start_path) w
      else
        let files :=
          List.filter (fun p => World.is_file p w && reached start_path p exclude_patterns)
            (map fst (map_to_list (World.files w))) in
        let acc :=
          fold_left (visit self exclude_patterns calculate_hashes min_hash_size w) files acc in
        scan_paths self rest exclude_patterns calculate_hashes min_hash_size acc
          (World.with_listed (World.listed w ++ [start_path]) w)
  end.

Definition _scan_filesystem (self : t) (paths_to_scan : list string)
    (exclude_patterns : list string) (calculate_hashes : bool) (min_hash_size : Z)
    (w : World.t) : list ScannedItem.t * World.t :=
  scan_paths self paths_to_scan exclude_patterns calculate_hashes min_hash_size ([], []) w.

(** ** Packages *)

(** What [_parse_pacman_qi] stores under a key. *)
Inductive qi_value : Type :=
  | QList (l : list string)
  | QDict
  | QSize (n : Z)
  | QDate (d : option Q)
  | QText (s : option string).

Definition key_map (key_str : string) : option string :=
  Json.get key_str
    [("Name", JStr "name"); ("Version", JStr "version");
     ("Description", JStr "description"); ("Architecture", JStr "arch");
     ("URL", JStr "url"); ("Licenses", JStr "licenses"); ("Groups", JStr "groups");
     ("Provides", JStr "provides"); ("Depends On", JStr "depends_on");
     ("Optional Deps", JStr "optional_deps"); ("Required By", JStr "required_by");
     ("Optional For", JStr "optional_for"); ("Conflicts With", JStr "conflicts_with");
     ("Replaces", JStr "replaces"); ("Installed Size", JStr "size");
     ("Packager", JStr "packager"); ("Build Date", JStr "build_date");
     ("Install Date", JStr "install_date"); ("Install Reason", JStr "install_reason");
     ("Install Script", JStr "install_script"); ("Validated By", JStr "validated_by")]
  ≫= (fun j => match j with JStr s => Some s | _ => None end).

Definition list_keys : list string :=
  ["depends_on"; "provides"; "required_by"; "optional_for"; "conflicts_with";
   "replaces"; "groups"; "licenses"].
Definition dict_keys : list string := ["optional_deps"].

Fixpoint lookup (k : string) (data : list (string * qi_value)) : option qi_value :=
  match data with
  | [] => None
  | (k', v) :: r => if String.eqb k k' then Some v else lookup k r
  end.

(** [data[k] = v] *)
Fixpoint assign (k : string) (v : qi_value) (data : list (string * qi_value))
  : list (string * qi_value) :=
  match data with
  | [] => [(k, v)]
  | (k', v') :: r => if String.eqb k k' then (k, v) :: r else (k', v') :: assign k v r
  end.

(** [value.replace(" UTC", "")] *)
Fixpoint remove_utc (fuel : nat) (s : string) : string :=
  match fuel with
  | O => s
  | S fuel =>
      if PyStr.startswith " UTC" s then remove_utc fuel (ExecutionHandler.drop 4 s)
      else match s with
           | EmptyString => EmptyString
           | String c r => String c (remove_utc fuel r)
           end
  end.

Definition parse_line (w : World.t) (st : list (string * qi_value) * option string)
    (line : string) : list (string * qi_value) * option string :=
  let '(data, current_key) := st in
  match Paths.split_once ":" line with
  | Some (key_str, value) =>
      let key_str := PyStr.strip key_str in
      let value := PyStr.strip value in
      match key_map key_str with
      | None => (data, None)
      | Some k =>
          let v :=
            if bool_decide (k ∈ list_keys) then
              QList (if String.eqb value "None" then [] else Paths.words value)
            else if bool_decide (k ∈ dict_keys) then QDict
            else if String.eqb k "size" then QSize (default 0 (Helpers.parse_size value))
            else if String.eqb k "install_date" || String.eqb k "build_date" then
              QDate (World.mktime w (remove_utc (String.length value) value))
            else QText (if String.eqb value "None" then None else Some value) in
          (assign k v data, Some k)
      end
  | None =>
      match current_key with
      | Some k =>
          if bool_decide (k ∈ list_keys) && negb (String.eqb (PyStr.strip line) EmptyString) then
            match lookup k data with
            | Some (QList l) => (assign k (QList (l ++ Paths.words (PyStr.strip line))) data, current_key)
            | _ => (data, current_key)
            end
          else (data, current_key)
      | None => (data, current_key)
      end
  end.

(** the parsed fields and the derived [is_dependency] *)
Definition _parse_pacman_qi (self : t) (w : World.t) (output : string)
  : list (string * qi_value) * bool :=
  let lines := Paths.split "010" (PyStr.strip output) in
  let data := (fold_left (parse_line w) lines ([], None)).1 in
  let is_dependency :=
    match lookup "required_by" data with Some (QList (_ :: _)) => true | _ => false end
    || match lookup "install_reason" data with
       | Some (QText (Some r)) =>
           String.eqb r "Installed as a dependency for another package"
       | _ => false
       end in
  (data, is_dependency).

Fixpoint package_lines (self : t) (orphans : list string) (lines : list string)
    (w : World.t) : list PackageInfo.t * World.t :=
  match lines with
  | [] => ([], w)
  | line :: rest =>
      if String.eqb line EmptyString then package_lines self orphans rest w
      else
        match Paths.split_once " " line with
        | None => package_lines self orphans rest w   (* unpacking raises; logged *)
        | Some (name, version) =>
            let '(result_info, w) := World.run_command ["pacman"; "-Qi"; name] w in
            if negb (World.returncode result_info =? 0) then package_lines self orphans rest w
            else
              let '(pkg_data, is_dependency) :=
                _parse_pacman_qi self w (World.stdout result_info) in
              let pkg :=
                PackageInfo.Make name version
                  (match lookup "size" pkg_data with Some (QSize n) => n | _ => 0 end)
                  (match lookup "description" pkg_data with Some (QText d) => d | _ => None end)
                  (match lookup "install_date" pkg_data with Some (QDate d) => d | _ => None end)
                  None
                  (bool_decide (name ∈ orphans))
                  is_dependency
                  (match lookup "required_by" pkg_data with Some (QList l) => l | _ => [] end)
                  (match lookup "optional_for" pkg_data with Some (QList l) => l | _ => [] end) in
              let '(pkgs, w) := package_lines self orphans rest w in
              (pkg :: pkgs, w)
        end
  end.

Definition _collect_package_info (self : t) (w : World.t) : list PackageInfo.t * World.t :=
  let '(result_orphans, w) := World.run_command ["pacman"; "-Qtdq"] w in
  let orphans :=
    if (World.returncode result_orphans =? 0)
       && negb (String.eqb (World.stdout result_orphans) EmptyString)
    then Paths.split "010" (PyStr.strip (World.stdout result_orphans)) else [] in
  let '(result_list, w) := World.run_command ["pacman"; "-Q"] w in
  if negb (World.returncode result_list =? 0) then ([], w)
  else package_lines self orphans (Paths.split "010" (PyStr.strip (World.stdout result_list))) w.

(** ** The pacman cache *)

Definition cache_dir : string := "/var/cache/pacman/pkg".

(** the entries directly inside [d] *)
Definition children (d : string) (w : World.t) : list string :=
  List.filter (fun p => World.below d p
                        && negb (Paths.contains "/" (ExecutionHandler.drop (S (String.length d)) p)))
    (map fst (map_to_list (World.files w))).

Definition _collect_pacman_cache_info (self : t) (w : World.t)
  : list ScannedItem.t * World.t :=
  if negb (World.is_dir cache_dir w) then ([], w)
  else
    let exclude_patterns := ConfigManager.paths_exclude (config self) in
    let found :=
      List.filter (fun p => Fnmatch.fnmatch (World.name p) "*.pkg.tar.*") (children cache_dir w) in
    (omap (fun item_path =>
             if World.is_file item_path w then
               if Paths.is_path_excluded item_path exclude_patterns then None
               else match World.stat item_path w with
                    | Return (size, atime, mtime) =>
                        Some (ScannedItem.Make item_path size atime mtime
                                ITEM_TYPE_PACMAN_CACHE [])
                    | Raise _ => None
                    end
             else None) found,
     World.with_listed (World.listed w ++ [cache_dir]) w).

(** ** The journal *)

(** A generator that has run: what it yielded and, when it stopped on an
    exception, the exception ([list(generator)] then raises it). *)
Definition generated (A : Type) : Type := list A * option exn.

(** [take up\\s+([\\d.]+[BKMGT])\\s+on disk], group 1 *)
Definition disk_usage_match (out : string) : option string :=
  ExecutionHandler.search "take up"
    (fun rest =>
       match ExecutionHandler.size_token rest with
       | Some (g, rest) =>
           let '(sp, rest) := Helpers.span PyStr.is_space rest in
           match sp with
           | EmptyString => None
           | _ => if PyStr.startswith "on disk" rest then Some g else None
           end
       | None => None
       end) out.

(** [sum(f.stat().st_size for f in journal_path.glob('**/*') if f.is_file())] *)
Fixpoint sum_sizes (paths : list string) (w : World.t) : outcome Z :=
  match paths with
  | [] => Return 0
  | f :: rest =>
      if World.is_file f w then
        match World.stat f w with
        | Raise e => Raise e
        | Return (size, _, _) =>
            match sum_sizes rest w with
            | Return n => Return (size + n)
            | Raise e => Raise e
            end
        end
      else sum_sizes rest w
  end.

(** The local variable [match] is assigned in one branch only.  It is
    modelled as [None] while unbound, [Some m] once assigned ([m] being
    the result of [re.search]); reading it unbound raises
    [UnboundLocalError]. *)
Definition _collect_journal_info (self : t) (w : World.t)
  : generated ScannedItem.t * World.t :=
  let journal_dir_persistent := "/var/log/journal" in
  let journal_dir_volatile := "/run/log/journal" in
  let journal_path :=
    if World.is_dir journal_dir_persistent w then Some journal_dir_persistent
    else if World.is_dir journal_dir_volatile w then Some journal_dir_volatile
    else None in
  match journal_path with
  | None => (([], None), w)
  | Some journal_path =>
      let '(r, w) := World.run_command ["journalctl"; "--disk-usage"] w in
      let '(total_size, match_var, w) :=
        if (World.returncode r =? 0) && negb (String.eqb (World.stdout r) EmptyString) then
          let m := disk_usage_match (World.stdout r) in
          let total_size :=
            match m with
            | Some size_str => default 0 (Helpers.parse_size size_str)
            | None => 0
            end in
          (total_size, Some m, w)
        else
          let w := World.with_listed (World.listed w ++ [journal_path]) w in
          let files :=
            List.filter (fun p => World.below journal_path p)
              (map fst (map_to_list (World.files w))) in
          match sum_sizes files w with
          | Return n => (n, None, w)
          | Raise _ => (-1, None, w)
          end in
      if 0 <=? total_size then
        match World.stat journal_path w with
        | Raise _ => (([], None), w)
        | Return (_, atime, mtime) =>
            match match_var with
            | None => (([], Some (UnboundLocalError "match")), w)
            | Some m =>
                let source := match m with Some _ => "journalctl" | None => "scan" end in
                (([ScannedItem.Make journal_path total_size atime mtime
                     ITEM_TYPE_JOURNAL_LOG [("source", JStr source)]], None), w)
            end
        end
      else (([], None), w)
  end.

(** ** Duplicates *)

Definition _mark_duplicates_in_db (self : t) (min_size : Z) (w : World.t) : World.t :=
  let '(potential_dups, d) := Database.find_potential_duplicates min_size (World.db w) in
  let w := World.with_db d w in
  match potential_dups with
  | [] => w
  | _ =>
      if negb (Database.conn (World.db w)) then w
      else
        World.with_db
          (fold_left (fun d g => if String.eqb g.1.1 EmptyString then d
                                 else Database.mark_duplicates g.1.1 d)
             potential_dups (World.db w)) w
  end.


(** [collect_all].  [errors] gathers the messages of the
    sub-collections that raised, each inside its own [try]; the scan ends
    with [finish_collection], whose commit is not guarded. *)
Definition collect_all (self : t) (force_rescan : bool)
    (target_directory : option string) (w : World.t) : outcome unit * World.t :=
  let cfg := config self in
  match start_collection self w with
  | (None, w) => (Return tt, w)
  | (Some current_scan_id, w) =>
      let target :=
        match target_directory with
        | Some d => if String.eqb d EmptyString then None else Some d
        | None => None
        end in
      let invalid_target :=
        match target with
        | Some target_path => negb (World.is_dir target_path w)
        | None => false
        end in
      if invalid_target then
        finish_collection self current_scan_id 0
          (Some ("Target directory not valid: " +:+ default EmptyString target)) w
      else
        let '(scan_paths, is_targeted_scan) :=
          match target with
          | Some target_path => ([target_path], true)
          | None => (ConfigManager.paths_scan cfg, false)
          end in
        let exclude_patterns := ConfigManager.paths_exclude cfg in
        let should_hash := ConfigManager.duplicates_enabled cfg in
        let min_hash_size_str := ConfigManager.duplicates_min_size cfg in
        let min_hash_size :=
          if String.eqb min_hash_size_str EmptyString then Some (1024 * 1024)
          else Helpers.parse_size min_hash_size_str in
        let min_hash := default 0 min_hash_size in
        (* 1. the file system *)
        let '(total_items_found, errors, w) :=
          match scan_paths with
          | [] => (0, [], w)
          | _ =>
              let '(items, w) :=
                _scan_filesystem self scan_paths exclude_patterns
                  should_hash min_hash w in
              match items with
              | [] => (0, [], w)
              | _ =>
                  match Database.add_scanned_items_batch items current_scan_id (World.db w) with
                  | (Return _, d) => (Z.of_nat (length items), [], World.with_db d w)
                  | (Raise e, d) =>
                      (0, ["Filesystem Scan Error: " +:+ exn_str e], World.with_db d w)
                  end
              end
          end in
        (* 2-4. the system-wide collections *)
        let '(total_items_found, errors, w) :=
          if negb is_targeted_scan then
            let '(packages, w) := _collect_package_info self w in
            let '(errors, w) :=
              match packages with
              | [] => (errors, w)
              | _ =>
                  match Database.add_packages_batch packages current_scan_id (World.db w) with
                  | (Return _, d) => (errors, World.with_db d w)
                  | (Raise e, d) =>
                      (errors ++ ["Package Info Error: " +:+ exn_str e], World.with_db d w)
                  end
              end in
            let '(total_items_found, errors, w) :=
              if ConfigManager.arch_clean_pacman_cache cfg then
                let '(cache_items, w) := _collect_pacman_cache_info self w in
                match cache_items with
                | [] => (total_items_found, errors, w)
                | _ =>
                    match Database.add_scanned_items_batch cache_items current_scan_id
                            (World.db w) with
                    | (Return _, d) =>
                        (total_items_found + Z.of_nat (length cache_items), errors,
                         World.with_db d w)
                    | (Raise e, d) =>
                        (total_items_found, errors ++ ["Pacman Cache Error: " +:+ exn_str e],
                         World.with_db d w)
                    end
                end
              else (total_items_found, errors, w) in
            if ConfigManager.arch_clean_journal cfg then
              let '((journal_items, raised), w) := _collect_journal_info self w in
              match raised with
              | Some e =>
                  (total_items_found, errors ++ ["Journal Info Error: " +:+ exn_str e], w)
              | None =>
                  match journal_items with
                  | [] => (total_items_found, errors, w)
                  | _ =>
                      match Database.add_scanned_items_batch journal_items current_scan_id
                              (World.db w) with
                      | (Return _, d) =>
                          (total_items_found + Z.of_nat (length journal_items), errors,
                           World.with_db d w)
                      | (Raise e, d) =>
                          (total_items_found,
                           errors ++ ["Journal Info Error: " +:+ exn_str e],
                           World.with_db d w)
                      end
                  end
              end
            else (total_items_found, errors, w)
          else (total_items_found, errors, w) in
        (* 5. duplicates *)
        let w :=
          if should_hash then _mark_duplicates_in_db self min_hash w else w in
        finish_collection self current_scan_id total_items_found
          (match errors with [] => None | _ => Some (PyStr.join (String "010" EmptyString) errors) end)
          w
  end.

End DataCollector.

(* ===================================================================== *)
(** * core/controller.py *)
(* ===================================================================== *)

Module CoreController.

Record t : Type := Make {
  config : ConfigManager.t;
  collector : DataCollector.t;
  analyzer : AnalysisEngine.t;
  recommender : RecommendationEngine.t;
  executor : ExecutionHandler.t;
  learner : LearningModule.t
}.

Definition init (config : ConfigManager.t) (HAS_TRASH_CLI : bool) : t :=
  Make config (DataCollector.init config) (AnalysisEngine.init config)
    (RecommendationEngine.init config) (ExecutionHandler.init config HAS_TRASH_CLI)
    (LearningModule.init config).

(** ** [scan]

    The first call of [collect_all] is made without the directory; the
    call that hands it over stands in the handler of the first [except]
    clause.  What the handler raises leaves [scan]: the second [except]
    clause of the same [try] does not cover it. *)
Definition scan (self : t) (force : bool) (directory : option string) (w : World.t)
  : outcome unit * World.t :=
  match DataCollector.collect_all (collector self) force None w with
  | (Return _, w) => (Return tt, w)
  | (Raise _, w) => DataCollector.collect_all (collector self) force directory w
  end.

(** ** The suggestion artifact *)

Definition encode_elem (e : pyelem) : json :=
  match e with
  | EPackage p => PackageInfo.to_dict p
  | EPath p => JStr p
  | EJson j => j
  end.

(** what [json.dump] with [suggestion_encoder] writes for the [data] field *)
Definition encode_data (d : pydata) : json :=
  match d with
  | DNone => JNull
  | DItem i => ScannedItem.to_dict i
  | DPackage p => PackageInfo.to_dict p
  | DDupSet s => DuplicateSet.to_dict s
  | DList l => JArr (map encode_elem l)
  | DDict f => JObj (map (fun kv => (kv.1, PyVal.to_json kv.2)) f)
  end.

(** [s.__dict__] *)
Definition encode (s : Suggestion.t) : json :=
  JObj [("id", JStr (Suggestion.id s));
        ("suggestion_type", JStr (Suggestion.suggestion_type s));
        ("description", JStr (Suggestion.description s));
        ("details", JStr (Suggestion.details s));
        ("estimated_size_bytes", JInt (Suggestion.estimated_size_bytes s));
        ("confidence", JFloat (Suggestion.confidence s));
        ("rationale", JStr (Suggestion.rationale s));
        ("data", encode_data (Suggestion.data s))].

Definition _save_suggestions_to_file (self : t) (suggestions : list Suggestion.t)
    (w : World.t) : World.t :=
  World.with_suggestions_file (World.Stored (JArr (map encode suggestions))) w.

(** *** Reading a record back

    [d.get(key, default)] read at the type the dataclass declares for the
    field; a value of another type is [Unmodelled]. *)

Definition get_str (k dflt : string) (d : list (string * json)) : outcome string :=
  match Json.get k d with
  | None => Return dflt
  | Some (JStr s) => Return s
  | Some _ => Raise (Unmodelled k)
  end.
Definition get_int (k : string) (dflt : Z) (d : list (string * json)) : outcome Z :=
  match Json.get k d with
  | None => Return dflt
  | Some (JInt n) => Return n
  | Some _ => Raise (Unmodelled k)
  end.
Definition get_num (k : string) (dflt : Q) (d : list (string * json)) : outcome Q :=
  match Json.get k d with
  | None => Return dflt
  | Some (JFloat q) => Return q
  | Some (JInt n) => Return (inject_Z n)
  | Some _ => Raise (Unmodelled k)
  end.
Definition get_bool (k : string) (dflt : bool) (d : list (string * json)) : outcome bool :=
  match Json.get k d with
  | None => Return dflt
  | Some (JBool b) => Return b
  | Some _ => Raise (Unmodelled k)
  end.
Definition get_opt_str (k : string) (d : list (string * json)) : outcome (option string) :=
  match Json.get k d with
  | None | Some JNull => Return None
  | Some (JStr s) => Return (Some s)
  | Some _ => Raise (Unmodelled k)
  end.
Definition get_opt_num (k : string) (d : list (string * json)) : outcome (option Q) :=
  match Json.get k d with
  | None | Some JNull => Return None
  | Some (JFloat q) => Return (Some q)
  | Some (JInt n) => Return (Some (inject_Z n))
  | Some _ => Raise (Unmodelled k)
  end.
Fixpoint str_list (l : list json) : option (list string) :=
  match l with
  | [] => Some []
  | JStr s :: r => cons s <$> str_list r
  | _ :: _ => None
  end.
Definition get_str_list (k : string) (d : list (string * json)) : outcome (list string) :=
  match Json.get k d with
  | None => Return []
  | Some (JArr l) => match str_list l with Some r => Return r | None => Raise (Unmodelled k) end
  | Some _ => Raise (Unmodelled k)
  end.
Definition get_obj (k : string) (d : list (string * json))
  : outcome (list (string * json)) :=
  match Json.get k d with
  | None => Return []
  | Some (JObj f) => Return f
  | Some _ => Raise (Unmodelled k)
  end.

Definition item_types : list string :=
  ["OLD_FILE"; "LARGE_FILE"; "CACHE_FILE"; "LOG_FILE"; "PACMAN_CACHE_FILE"; "JOURNAL_LOG"].

Definition reconstruct_item (data_field : list (string * json)) : outcome pydata :=
  path ←
    match Json.get "path" data_field with
    | None => Return "."
    | Some j =>
        if Json.truthy j then
          match j with
          | JStr s => Return s
          | _ => Raise (TypeError "expected str, bytes or os.PathLike object")
          end
        else Return "."
    end;
  size_bytes ← get_int "size_bytes" 0 data_field;
  last_accessed ← get_num "last_accessed" 0 data_field;
  last_modified ← get_num "last_modified" 0 data_field;
  item_type ← get_str "item_type" "unknown" data_field;
  extra_info ← get_obj "extra_info" data_field;
  Return (DItem (ScannedItem.Make path size_bytes last_accessed last_modified
                   item_type extra_info)).

Definition reconstruct_package (data_field : list (string * json)) : outcome pydata :=
  name ← get_str "name" "unknown" data_field;
  version ← get_str "version" "unknown" data_field;
  size_bytes ← get_int "size_bytes" 0 data_field;
  description ← get_opt_str "description" data_field;
  install_date ← get_opt_num "install_date" data_field;
  is_orphan ← get_bool "is_orphan" true data_field;
  is_dependency ← get_bool "is_dependency" false data_field;
  required_by ← get_str_list "required_by" data_field;
  optional_for ← get_str_list "optional_for" data_field;
  Return (DPackage (PackageInfo.Make name version size_bytes description install_date
                      None is_orphan is_dependency required_by optional_for)).

(** [DuplicateSet(file_hash=..., size_bytes=..., paths=...)]: the call
    leaves out the required [total_size_bytes] *)
Definition reconstruct_duplicates (data_field : list (string * json)) : outcome pydata :=
  Raise (TypeError "DuplicateSet.__init__() missing 1 required positional argument: 'total_size_bytes'").

(** One record of the file: the suggestion, [None] where the record is
    skipped (the [continue], or a [TypeError] caught by the inner
    [except]), or the exception that leaves the loop. *)
Definition load_record (sugg_data : json) : outcome (option Suggestion.t) :=
  match sugg_data with
  | JObj fields =>
      let data_field := default JNull (Json.get "data" fields) in
      let suggestion_type := default JNull (Json.get "suggestion_type" fields) in
      let is_type (ty : string) :=
        match suggestion_type with JStr s => String.eqb s ty | _ => false end in
      let reconstructed : outcome (option pydata) :=
        if Json.truthy data_field then
          match data_field with
          | JObj d =>
              if existsb is_type item_types then x ← reconstruct_item d; Return (Some x)
              else if is_type "ORPHAN_PACKAGE" then x ← reconstruct_package d; Return (Some x)
              else if is_type "DUPLICATE_FILES" then x ← reconstruct_duplicates d; Return (Some x)
              else Return (Some DNone)
          | _ => Return None
          end
        else Return (Some DNone) in
      let built : outcome (option Suggestion.t) :=
        r ← reconstructed;
        match r with
        | None => Return None
        | Some reconstructed_data =>
            id ← get_str "id" "unknown" fields;
            ty ← (if Json.truthy suggestion_type
                   then match suggestion_type with
                        | JStr s => Return s
                        | _ => Raise (Unmodelled "suggestion_type")
                        end
                   else Return "unknown");
            description ← get_str "description" EmptyString fields;
            details ← match Json.get "details" fields with
                       | Some (JStr s) => Return s
                       | _ => Raise (Unmodelled "details")
                       end;
            estimated_size_bytes ← get_int "estimated_size_bytes" 0 fields;
            confidence ← get_num "confidence" 0 fields;
            Return (Some (Suggestion.Make id ty description details estimated_size_bytes
                            confidence EmptyString reconstructed_data))
        end in
      match built with
      | Raise (TypeError _) => Return None
      | o => o
      end
  | _ => Raise (AttributeError "get")
  end.

Fixpoint load_records (l : list json) : outcome (list Suggestion.t) :=
  match l with
  | [] => Return []
  | j :: r =>
      o ← load_record j;
      rest ← load_records r;
      Return (match o with Some s => s :: rest | None => rest end)
  end.

(** [get_last_suggestions]: an absent or undecodable file gives the
    empty list. *)
Definition get_last_suggestions (self : t) (w : World.t) : outcome (list Suggestion.t) :=
  match World.suggestions_file w with
  | World.Absent => Return []
  | World.Unreadable => Return []
  | World.Stored (JArr l) => load_records l
  | World.Stored (JObj []) => Return []
  | World.Stored (JObj (_ :: _)) => Raise (AttributeError "get")
  | World.Stored (JStr s) =>
      if String.eqb s EmptyString then Return [] else Raise (AttributeError "get")
  | World.Stored _ => Raise (TypeError "object is not iterable")
  end.

(** ** [suggest] *)

(** [analyze_all], [generate_suggestions] and [_save_suggestions_to_file]
    are total here (the store answers every query and the writer catches
    its own errors), so the [except] branch of the source, which saves
    the empty list and returns it, has no counterpart. *)
Definition suggest (self : t) (limit : option Z) (w : World.t)
  : list Suggestion.t * World.t :=
  let '(analysis_results, w) := AnalysisEngine.analyze_all (analyzer self) w in
  let _last_suggestions :=
    RecommendationEngine.generate_suggestions (World.ctime w) (recommender self)
      (World.clock w) analysis_results in
  let w := _save_suggestions_to_file self _last_suggestions w in
  match limit with
  | Some n => if 0 <? n then (firstn (Z.to_nat n) _last_suggestions, w)
              else (_last_suggestions, w)
  | None => (_last_suggestions, w)
  end.

(** ** [apply] *)

(** [{s.id: s for s in suggestions_from_file}]: a later record takes the
    place of an earlier one with the same id *)
Definition suggestion_map (l : list Suggestion.t) : gmap string Suggestion.t :=
  fold_left (fun m s => <[Suggestion.id s := s]> m) l ∅.

(** the suggestions picked by the ids, in the order of the ids *)
Definition select (m : gmap string Suggestion.t) (suggestion_ids : list string)
  : list Suggestion.t :=
  omap (fun sugg_id => m !! sugg_id) suggestion_ids.

Fixpoint apply_loop (self : t) (suggestions_from_file to_apply : list Suggestion.t)
    (dry_run : bool) (w : World.t) : list ActionResult.t * World.t :=
  match to_apply with
  | [] => ([], w)
  | suggestion :: rest =>
      let '(action_result, w) :=
        ExecutionHandler.execute_suggestion (executor self) suggestion dry_run w in
      let w :=
        if negb dry_run then
          let action_taken :=
            if ActionResult.success action_result then "APPROVED" else "EXECUTION_FAILED" in
          match List.find (fun s => String.eqb (Suggestion.id s) (Suggestion.id suggestion))
                  suggestions_from_file with
          | Some original_suggestion =>
              LearningModule.record_feedback (learner self) original_suggestion
                action_taken None w
          | None => w
          end
        else w in
      let '(results, w) := apply_loop self suggestions_from_file rest dry_run w in
      (action_result :: results, w)
  end.

Definition apply (self : t) (suggestion_ids : option (list string)) (dry_run : bool)
    (w : World.t) : outcome (list ActionResult.t) * World.t :=
  match get_last_suggestions self w with
  | Raise e => (Raise e, w)
  | Return [] => (Return [], w)
  | Return suggestions_from_file =>
      let suggestions_to_apply :=
        match suggestion_ids with
        | Some ((_ :: _) as ids) => select (suggestion_map suggestions_from_file) ids
        | _ => suggestions_from_file
        end in
      let '(results, w) := apply_loop self suggestions_from_file suggestions_to_apply dry_run w in
      (Return results, w)
  end.

(** ** [run_auto] *)

Definition run_auto (self : t) (dry_run : bool) (w : World.t)
  : outcome (list ActionResult.t) * World.t :=
  match scan self false None w with
  | (Raise e, w) => (Raise e, w)
  | (Return _, w) =>
      let '(suggestions, w) := suggest self None w in
      match suggestions with
      | [] => (Return [], w)
      | _ =>
          let min_confidence := ConfigManager.automation_min_confidence (config self) in
          let suggestions_to_apply :=
            List.filter (fun s => negb (Qltb (Suggestion.confidence s) min_confidence))
              suggestions in
          match suggestions_to_apply with
          | [] => (Return [], w)
          | _ => apply self (Some (map Suggestion.id suggestions_to_apply)) dry_run w
          end
      end
  end.

End CoreController.

(* ===================================================================== *)
(** * db/database.py: [get_feedback] *)
(* ===================================================================== *)

Module DatabaseFeedback.
Import Database.

(** The order of SQLite on stored values: NULL first, then the numbers by
    value, then the texts byte by byte. *)
Definition sql_ltb (a b : sqlval) : bool :=
  match a, b with
  | VNull, VNull => false
  | VNull, _ => true
  | _, VNull => false
  | VInt x, VInt y => x <? y
  | VInt x, VReal y => Qltb (inject_Z x) y
  | VReal x, VInt y => Qltb x (inject_Z y)
  | VReal x, VReal y => Qltb x y
  | VText x, VText y => PyStr.ltb x y
  | VText _, _ => false
  | _, VText _ => true
  end.

(** [LIMIT ?]: a negative limit is no limit *)
Definition limit_rows {A} (limit : Z) (rows : list A) : list A :=
  if limit <? 0 then rows else firstn (Z.to_nat limit) rows.

(** [get_feedback]: the rows come back newest first; each is handed to
    [ActionFeedback(...)] with the keywords [suggestion_type] and
    [item_details], which the dataclass does not take, so the first row
    raises [TypeError] out of the method. *)
Definition get_feedback (limit : Z) (db : t) : outcome (list ActionFeedback.t) * t :=
  if negb (conn db) then (Return [], db)
  else
    let '(cursor, db) :=
      execute_sql SelectFeedback
        (fun db => Some (limit_rows limit
                           (sort_desc f_timestamp sql_ltb (action_feedback db)), db)) db in
    match cursor with
    | None => (Return [], db)
    | Some [] => (Return [], db)
    | Some (_ :: _) =>
        (Raise (TypeError "ActionFeedback.__init__() got an unexpected keyword argument 'suggestion_type'"),
         db)
    end.

End DatabaseFeedback.

(* ===================================================================== *)
(** * core/controller.py: [generate_report] *)
(* ===================================================================== *)

Module Reporting.
Import CoreController.

(** The dictionary [generate_report] returns: the recent actions and the
    estimate, or the text of the exception under the key [error]. *)
Inductive report : Type :=
  | Report (recent_actions : list ActionFeedback.t) (total_saved_estimate : string)
  | ReportError (error : string).

Definition generate_report (self : t) (w : World.t) : report * World.t :=
  let feedback_limit := 20 in
  let '(o, d) := DatabaseFeedback.get_feedback feedback_limit (World.db w) in
  match o with
  | Return recent_actions => (Report recent_actions "Not implemented", World.with_db d w)
  | Raise e => (ReportError (exn_str e), World.with_db d w)
  end.

End Reporting.

(* ===================================================================== *)
(** * ui/cli.py *)
(* ===================================================================== *)

Module Cli.

(** [handle_apply].  [suggestion_ids], [dry_run] and [yes] are the parsed
    arguments ([suggestion_ids] empty when none is given); [confirm] is the
    answer [Confirm.ask] gets when it is asked.  The result is what
    [display_results] is given, [None] where the handler returns before
    applying anything. *)
Definition handle_apply (suggestion_ids : list string) (dry_run yes confirm : bool)
    (controller : CoreController.t) (w : World.t)
  : outcome (option (list ActionResult.t)) * World.t :=
  match CoreController.get_last_suggestions controller w with
  | Raise e => (Raise e, w)
  | Return [] => (Return None, w)
  | Return suggestions_to_consider =>
      let suggestions_to_apply :=
        match suggestion_ids with
        | [] => suggestions_to_consider
        | _ :: _ =>
            CoreController.select (CoreController.suggestion_map suggestions_to_consider)
              suggestion_ids
        end in
      match suggestions_to_apply with
      | [] => (Return None, w)
      | _ :: _ =>
          let ids := map Suggestion.id suggestions_to_apply in
          let run (dry_run : bool) :=
            let '(o, w) := CoreController.apply controller (Some ids) dry_run w in
            (match o with Return results => Return (Some results) | Raise e => Raise e end, w) in
          if dry_run then run true
          else if negb yes && negb confirm then (Return None, w)
          else run false
      end
  end.

End Cli.

(* ===================================================================== *)
(** * modules/config_manager.py: the dictionary [self.config] *)
(* ===================================================================== *)

(** The configuration as [ConfigManager] holds it: a dictionary of
    sections read from TOML, laid over [DEFAULT_CONFIG]. *)
Module ConfigTree.

Definition DEFAULT_CONFIG : list (string * json) :=
  [("general", JObj [("aggressiveness", JInt 2)]);
   ("safety", JObj [("use_trash", JBool true); ("default_dry_run", JBool false)]);
   ("paths",
    JObj [("scan", JArr [JStr "~/.cache"; JStr "~/Downloads"; JStr "~/.local/share"]);
          ("exclude", JArr [JStr "*/.git/*"; JStr "*/node_modules/*"; JStr "*/__pycache__/*";
                            JStr "*.important"; JStr "~/.config/*"])]);
   ("thresholds", JObj [("old_file", JStr "3m"); ("large_file", JStr "500M")]);
   ("arch",
    JObj [("clean_pacman_cache", JBool true); ("pacman_cache_keep", JInt 1);
          ("clean_uninstalled_cache", JBool false); ("remove_orphans", JBool true);
          ("clean_journal", JBool true); ("journal_max_disk_size", JStr "500M");
          ("journal_max_age", JNull)]);
   ("duplicates",
    JObj [("enabled", JBool true); ("min_size", JStr "1M"); ("scan_paths", JArr [])]);
   ("automation",
    JObj [("enabled", JBool false); ("schedule", JStr "weekly");
          ("free_space_threshold", JStr "10%"); ("min_confidence", JFloat (8 # 10))]);
   ("learning", JObj [("enabled", JBool true); ("feedback_history_limit", JInt 1000)])].

(** [d[k] = v]: a key that is there keeps its place, a new one goes last *)
Fixpoint set (k : string) (v : json) (d : list (string * json)) : list (string * json) :=
  match d with
  | [] => [(k, v)]
  | (k', v') :: r => if String.eqb k k' then (k, v) :: r else (k', v') :: set k v r
  end.

(** one round of the loop of [_deep_merge_dicts], [rec] being the method
    itself *)
Definition merge_step (rec : list (string * json) -> json -> list (string * json))
    (merged : list (string * json)) (kv : string * json) : list (string * json) :=
  match kv.2, Json.get kv.1 merged with
  | JObj _, Some (JObj sub) => set kv.1 (JObj (rec sub kv.2)) merged
  | _, _ => set kv.1 kv.2 merged
  end.

(** the merge of the dictionary [overlay] into [base] *)
Fixpoint merge (base : list (string * json)) (overlay : json) {struct overlay}
  : list (string * json) :=
  match overlay with
  | JObj fields => fold_left (merge_step merge) fields base
  | _ => base
  end.

Definition _deep_merge_dicts (base overlay : list (string * json)) : list (string * json) :=
  merge base (JObj overlay).

(** the loop of [get] over the keys: [None] where it leaves through
    [KeyError] or meets a value that is not a dictionary *)
Fixpoint walk (keys : list string) (value : json) : option json :=
  match keys with
  | [] => Some value
  | key :: rest =>
      match value with
      | JObj d =>
          match Json.get key d with
          | Some v => walk rest v
          | None => None
          end
      | _ => None
      end
  end.

Definition get (config : list (string * json)) (key_path : string) (default : json) : json :=
  match walk (Paths.split "." key_path) (JObj config) with
  | Some value => value
  | None => default
  end.

End ConfigTree.

(* ===================================================================== *)
(** * Concrete machines used in the examples below *)
(* ===================================================================== *)

Module Scenario.

Definition ok : World.CompletedProcess := World.Build_CompletedProcess 0 "" "".
Definition failed (rc : Z) (err : string) : World.CompletedProcess :=
  World.Build_CompletedProcess rc "" err.

(** every command succeeds, prints nothing and changes nothing *)
Definition quiet (command : list string) (fs : gmap string World.node)
  : World.CompletedProcess * gmap string World.node := (ok, fs).

(** [journalctl] exits with code 1, the other commands as in [quiet] *)
Definition journalctl_fails (command : list string) (fs : gmap string World.node)
  : World.CompletedProcess * gmap string World.node :=
  match command with
  | "journalctl" :: _ => (failed 1 "No journal files were opened", fs)
  | _ => (ok, fs)
  end.

Definition healthy (s : Database.stmt) : bool := false.

(** an open store with one finished scan and nothing else *)
Definition store : Database.t :=
  Database.Make true healthy
    [Database.Build_ScanRow 1 900 (Some (901 # 1)) (Some (1 # 1)) (Some 0) None]
    2 ∅ ∅ [] [].

Definition machine (fs : gmap string World.node)
    (exec : list string -> gmap string World.node -> World.CompletedProcess * gmap string World.node)
    (d : Database.t) : World.t :=
  World.Make fs exec [] [] (fun _ => false) d World.Absent 1000
    (fun _ => "Thu Jan  1 00:16:40 1970") (fun _ => None).

Definition config : ConfigManager.t :=
  ConfigManager.Make true ["/home/u/Downloads"] ["*/.git/*"] "1s" "500M" true "1K"
    true true 1 true (Some "500M") None (8 # 10) true.

Definition controller : CoreController.t := CoreController.init config false.

Definition file (size : Z) (atime : Q) : World.node := World.File size atime atime "".

(** a home directory, a directory to be scanned on request, the package
    cache and a journal *)
Definition disk : gmap string World.node :=
  list_to_map
    [("/home/u/Downloads", World.Dir 4096 990 990);
     ("/home/u/Downloads/old.iso", file 2048 998);
     ("/srv/data", World.Dir 4096 990 990);
     ("/srv/data/report.txt", file 100 990);
     ("/var/cache/pacman/pkg", World.Dir 4096 990 990);
     ("/var/cache/pacman/pkg/pkg-1.0-1-x86_64.pkg.tar.zst", file 500 990);
     ("/var/log/journal", World.Dir 4096 990 990);
     ("/var/log/journal/m", World.Dir 4096 990 990);
     ("/var/log/journal/m/system.journal", file 4096 999)].

(** the old file of the home directory and the suggestion made for it at
    time 1000 *)
Definition old_iso : ScannedItem.t :=
  ScannedItem.Make "/home/u/Downloads/old.iso" 2048 998 998 "file" [].

Definition old_iso_suggestion : Suggestion.t :=
  RecommendationEngine.old_file_suggestion (fun _ => "Thu Jan  1 00:16:38 1970") 1000 old_iso.

(** the same suggestion as [get_last_suggestions] gives it back: the
    rationale is not read from the file *)
Definition old_iso_loaded : Suggestion.t :=
  Suggestion.Make "fe6865e4a6" "OLD_FILE" "Remove old file not accessed in 0 days (2.0 KB)"
    "/home/u/Downloads/old.iso" 2048 (18250 # 36500) "" (DItem old_iso).

(** the example machine after [suggest] has saved the list [l] *)
Definition after_suggest (l : list Suggestion.t) : World.t :=
  CoreController._save_suggestions_to_file controller l (machine disk quiet store).



Definition libfoo : PackageInfo.t :=
  PackageInfo.Make "libfoo" "1.0-1" 12345 None None None true true [] [].

(** One orphan package, nothing else. *)
Definition one_orphan : AnalysisEngine.results :=
  AnalysisEngine.Build_results [] []
    [libfoo] [] [] [].

(** findings of every kind: an old file, a large file, an orphan package,
    two copies of one content, two versions of a cached package and a
    journal above its limit *)
Definition findings : AnalysisEngine.results :=
  AnalysisEngine.Build_results
    [old_iso]
    [ScannedItem.Make "/home/u/Downloads/big.img" 600000000 999 999 "file" []]
    [libfoo]
    [DuplicateSet.Make "9f86d081884c7d65" ["/srv/data/a.bin"; "/srv/data/b.bin"] 4096 8192]
    [ScannedItem.Make "/var/cache/pacman/pkg/pkg-1.0-1-x86_64.pkg.tar.zst" 500 990 990
       "pacman_cache" [];
     ScannedItem.Make "/var/cache/pacman/pkg/pkg-1.1-1-x86_64.pkg.tar.zst" 700 990 990
       "pacman_cache" []]
    [ScannedItem.Make "/var/log/journal" 600000000 990 990 "journal_log"
       [("source", JStr "journalctl")]].

(** the suggestion the engine makes for the two copies *)
Definition copies_suggestion : Suggestion.t :=
  Suggestion.Make "656126b022" "DUPLICATE_SET" "Remove 1 duplicate files (Save 4.0 KB)"
    "2 files (4.0 KB each). Hash: 9f86d081... Locations: a.bin, b.bin" 4096 (7 # 10)
    "Found 2 identical files based on content hash. Keeping one copy is usually sufficient."
    (DDupSet (DuplicateSet.Make "9f86d081884c7d65" ["/srv/data/a.bin"; "/srv/data/b.bin"]
                4096 8192)).

(** the suggestions the engine makes of them, largest saving first *)
Definition all_six : list Suggestion.t :=
  RecommendationEngine.generate_suggestions (fun _ => "Thu Jan  1 00:16:38 1970")
    (RecommendationEngine.init config) 1000 findings.

(** a suggestion to remove the one orphan of the example *)
Definition orphan_suggestion : Suggestion.t :=
  Suggestion.Make "10b51ee978" "ORPHAN_PACKAGE" "Remove 1 orphan packages (12.1 KB)"
    "libfoo" 12345 (8 # 10) EmptyString (DList (map EPackage [libfoo])).

(** two files of the example taken for copies of one content, and a
    suggestion to remove the second *)
Definition two_copies : DuplicateSet.t :=
  DuplicateSet.Make "9f86d081884c7d65" ["/srv/data/report.txt"; "/home/u/Downloads/old.iso"]
    100 200.

Definition two_copies_suggestion : Suggestion.t :=
  Suggestion.Make "656126b022" "DUPLICATE_SET" EmptyString EmptyString 100 (7 # 10)
    EmptyString (DDupSet two_copies).

(** two files with one content, and the example store after a scan has
    stored them *)
Definition twins : list ScannedItem.t :=
  [ScannedItem.Make "/srv/data/a.bin" 4096 990 990 "file" [("hash", JStr "abc")];
   ScannedItem.Make "/srv/data/b.bin" 4096 990 990 "file" [("hash", JStr "abc")]].

Definition store_with_twins : Database.t :=
  (Database.add_scanned_items_batch twins 1 store).2.

(** the example store holding the old file of the home directory *)
Definition store_with_old_iso : Database.t :=
  (Database.add_scanned_items_batch [old_iso] 1 store).2.

(** a store without a connection *)
Definition closed_store : Database.t :=
  Database.Make false healthy [] 1 ∅ ∅ [] [].

(** a journal above the limit of 500M *)
Definition big_journal : ScannedItem.t :=
  ScannedItem.Make "/var/log/journal" 600000000 990 990 "journal_log"
    [("source", JStr "journalctl")].

End Scenario.

(* ===================================================================== *)
(** * Vocabulary of the properties *)
(* ===================================================================== *)

(** What a handler owes in a dry run: a result, flagged as a dry run, and
    the machine as it found it. *)
Definition simulated (x : outcome ActionResult.t * World.t) (w : World.t) : Prop :=
  x.2 = w /\ exists r, x.1 = Return r /\ ActionResult.dry_run r = true.

(** The result of a handler is about the suggestion it was given. *)
Definition about (s : Suggestion.t) (x : outcome ActionResult.t * World.t) : Prop :=
  forall r, x.1 = Return r -> ActionResult.suggestion r = s.

(** the suggestion [get_last_suggestions] rebuilds from a record of the
    artifact, [None] for a record it drops *)
Definition rebuilt (record : json) : option Suggestion.t :=
  match CoreController.load_record record with
  | Return o => o
  | Raise _ => None
  end.

(** [i] is the id of one of the suggestions [l] *)
Definition known (l : list Suggestion.t) (i : string) : bool :=
  existsb (fun s => String.eqb (Suggestion.id s) i) l.

(** every value of every row can be bound *)
Definition all_bind (rows : list (list Database.param)) : Prop :=
  Forall (fun row => Database.bind row = Return true) rows.


(** ** Texts *)

(** every character of [s] satisfies [p] *)
Fixpoint all_chars (p : ascii -> bool) (s : string) : bool :=
  match s with
  | EmptyString => true
  | String c r => p c && all_chars p r
  end.


(** a digit, or a letter from [a] to [f] *)
Definition is_hex (c : ascii) : bool :=
  PyStr.is_digit c || ((97 <=? PyStr.byte_of c) && (PyStr.byte_of c <=? 102)).

(** [s] is empty or begins with a character that fails [p] *)
Definition head_fails (p : ascii -> bool) (s : string) : bool :=
  match s with
  | EmptyString => true
  | String c _ => negb (p c)
  end.

(** [s] does not begin with a full stop *)
Definition not_dot (s : string) : bool :=
  match s with
  | String "."%char _ => false
  | _ => true
  end.


(** ** Orders *)

(** [a] stands before [b] in a list sorted by [key], the largest first *)
Definition above {A : Type} (key : A -> Z) (a b : A) : Prop := key b <= key a.

(** ** Values handed to the store *)

(** the integer fits the 64 bits of an SQLite INTEGER *)
Definition int64 (n : Z) : bool := (- 2 ^ 63 <=? n) && (n <? 2 ^ 63).

(** the threshold for duplicates, where there is one, fits 64 bits *)
Definition bindable_threshold (self : AnalysisEngine.t) : bool :=
  match AnalysisEngine.duplicate_min_bytes self with
  | Some n => int64 n
  | None => true
  end.

(** ** The configuration *)

(** the value a key has after one round of the merge *)
Definition laid_over (v : json) (below : option json) : json :=
  match v, below with
  | JObj o, Some (JObj b) => JObj (ConfigTree._deep_merge_dicts b o)
  | _, _ => v
  end.

(** ** The store *)

(** A store whose connection is open and whose engine accepts the
    deletions and the commits. *)
Definition accepts_deletions (db : Database.t) : Prop :=
  Database.conn db = true
  /\ Database.faulty db Database.DeletePackage = false
  /\ Database.faulty db Database.DeleteItem = false
  /\ Database.faulty db Database.Commit = false.

(** [g] is the group of the hash and size [k] *)
Definition same_group (k : string * Z) (g : string * Z) : bool :=
  String.eqb g.1 k.1 && (g.2 =? k.2).

(** how often the key [k] occurs among [keys] *)
Definition occurrences (k : string * Z) (keys : list (string * Z)) : Z :=
  Z.of_nat (length (List.filter (same_group k) keys)).

(** the count a list of groups holds for [k], 0 when it has no group for it *)
Fixpoint counted (k : string * Z) (acc : list (string * Z * Z)) : Z :=
  match acc with
  | [] => 0
  | (h, sz, c) :: r => if same_group k (h, sz) then c else counted k r
  end.

(** no group occurs twice and every count is at least one *)
Definition groups_ok (acc : list (string * Z * Z)) : Prop :=
  List.NoDup (map fst acc) /\ Forall (fun g => 1 <= g.2) acc.

(** ** Scanning and analysis *)




(** ** The artifact *)

(** the suggestion as the loader gives it back: the rationale is not read *)
Definition reloaded (s : Suggestion.t) : Suggestion.t :=
  Suggestion.Make (Suggestion.id s) (Suggestion.suggestion_type s) (Suggestion.description s)
    (Suggestion.details s) (Suggestion.estimated_size_bytes s) (Suggestion.confidence s)
    EmptyString (Suggestion.data s).

(** a suggestion about one file: of type OLD_FILE or LARGE_FILE, with the
    scanned item as its data *)
Definition file_suggestion (s : Suggestion.t) : Prop :=
  (Suggestion.suggestion_type s = SUGGESTION_OLD_FILE
   \/ Suggestion.suggestion_type s = SUGGESTION_LARGE_FILE)
  /\ exists i, Suggestion.data s = DItem i /\ ScannedItem.path i <> EmptyString.

(* ===================================================================== *)
(** * Properties *)
(* ===================================================================== *)

(** ** The library models agree with known values *)

Example sha1_abc : Sha1.hexdigest "abc" = "a9993e364706816aba3e25717850c26c9cd0d89d".
Proof. vm_compute. reflexivity. Qed.

Example sha1_empty : Sha1.hexdigest "" = "da39a3ee5e6b4b0d3255bfef95601890afd80709".
Proof. vm_compute. reflexivity. Qed.

Example sha1_two_blocks :
  Sha1.hexdigest "abcdbcdecdefdefgefghfghighijhijkijkljklmklmnlmnomnopnopq"
  = "84983e441c3bd26ebaae4aa1f95129e5e54670f1".
Proof. vm_compute. reflexivity. Qed.

(** [os.fsdecode(b'caf\xe9').encode()] *)
Example encode_latin1_name :
  Utf8.encode_error ("caf" +:+ String "233"%char EmptyString)
  = Some "'utf-8' codec can't encode character '\udce9' in position 3: surrogates not allowed".
Proof. vm_compute. reflexivity. Qed.

(** [os.fsdecode(b'\xc3\xa9\x80\x81z').encode()] *)
Example encode_two_lone_bytes :
  Utf8.encode_error
    (String "195"%char (String "169"%char (String "128"%char (String "129"%char "z"))))
  = Some "'utf-8' codec can't encode characters in position 1-2: surrogates not allowed".
Proof. vm_compute. reflexivity. Qed.

(** [os.fsdecode(b'\xed\xa0\x80').encode()]: the bytes of an encoded
    surrogate are not well formed *)
Example encode_surrogate_bytes :
  Utf8.encode_error (String "237"%char (String "160"%char (String "128"%char EmptyString)))
  = Some "'utf-8' codec can't encode characters in position 0-2: surrogates not allowed".
Proof. vm_compute. reflexivity. Qed.

(** a text of two characters, of two and of four bytes *)
Example encode_text :
  Utf8.encodable
    (String "195"%char (String "169"%char
       (String "240"%char (String "159"%char (String "152"%char (String "128"%char
          EmptyString))))))
  = true.
Proof. vm_compute. reflexivity. Qed.

Example parse_duration_1s : Helpers.parse_duration "1s" = Some 1.
Proof. vm_compute. reflexivity. Qed.

Example parse_duration_3m : Helpers.parse_duration "3m" = Some 180.
Proof. vm_compute. reflexivity. Qed.

Example parse_duration_invalid : Helpers.parse_duration "5 fortnights" = None.
Proof. vm_compute. reflexivity. Qed.

Example parse_size_mb : Helpers.parse_size "1.5MB" = Some 1572864.
Proof. vm_compute. reflexivity. Qed.

Example parse_size_no_unit : Helpers.parse_size "10.5" = None.
Proof. vm_compute. reflexivity. Qed.

Example human_readable_size_mb : Helpers.human_readable_size 1500000 = "1.4 MB".
Proof. vm_compute. reflexivity. Qed.

Example parse_pkg_filename_dashes :
  RecommendationEngine._parse_pkg_filename "gtk-3-3.24-2-x86_64.pkg.tar.zst"
  = (Some "gtk", Some "3-3.24-2", Some "x86_64").
Proof. vm_compute. reflexivity. Qed.

(** ** Arithmetic and lists *)

Lemma Qltb_lt (a b : Q) : Qltb a b = true <-> (a < b)%Q.
Proof. unfold Qltb, Qlt. apply Z.ltb_lt. Qed.

Lemma Qltb_ge (a b : Q) : Qltb a b = false <-> (b <= a)%Q.
Proof. unfold Qltb, Qle. rewrite Z.ltb_ge. reflexivity. Qed.

Lemma Qltb_compat (a a' b b' : Q) : (a == a')%Q -> (b == b')%Q -> Qltb a b = Qltb a' b'.
Proof.
  intros Ha Hb.
  destruct (Qltb a' b') eqn:E.
  - apply Qltb_lt. apply Qltb_lt in E. rewrite Ha, Hb. exact E.
  - apply Qltb_ge. apply Qltb_ge in E. rewrite Ha, Hb. exact E.
Qed.

Section SortingFacts.
Context {A K : Type} (key : A -> K) (lt : K -> K -> bool).

Lemma In_insert_desc (x y : A) (l : list A) :
  In y (insert_desc key lt x l) <-> y = x \/ In y l.
Proof.
  induction l as [|z l IH]; simpl.
  - intuition.
  - destruct (lt (key x) (key z)); simpl; rewrite ?IH; intuition.
Qed.

Lemma In_sort_desc (y : A) (l : list A) : In y (sort_desc key lt l) <-> In y l.
Proof.
  induction l as [|x l IH]; simpl.
  - reflexivity.
  - rewrite In_insert_desc, IH. intuition.
Qed.

Lemma length_insert_desc (x : A) (l : list A) :
  length (insert_desc key lt x l) = S (length l).
Proof.
  induction l as [|z l IH]; simpl; [reflexivity|].
  destruct (lt (key x) (key z)); simpl; [rewrite IH|]; reflexivity.
Qed.

Lemma length_sort_desc (l : list A) : length (sort_desc key lt l) = length l.
Proof.
  induction l as [|x l IH]; simpl; [reflexivity|].
  rewrite length_insert_desc, IH. reflexivity.
Qed.
End SortingFacts.

(** [int] of a quotient that lies in [0, 1) is 0 *)
Lemma int_of_Q_unit (x : Q) : (0 <= x)%Q -> (x < 1)%Q -> Helpers.int_of_Q x = 0.
Proof.
  destruct x as [n d]. unfold Qle, Qlt, Helpers.int_of_Q. simpl. intros H0 H1.
  apply Z.quot_small. lia.
Qed.

(** ** The old-file rule (C9) *)

(** The constructor always sets a threshold: a text that does not parse
    gives 90 days. *)
Lemma init_old_file_seconds (cfg : ConfigManager.t) :
  exists secs, AnalysisEngine.old_file_seconds (AnalysisEngine.init cfg) = Some secs.
Proof.
  unfold AnalysisEngine.init. simpl.
  destruct (Helpers.parse_duration (ConfigManager.thresholds_old_file cfg)); eauto.
Qed.

(** C9. For every scanned file the old-file classification is the strict
    comparison [last_accessed < now - old_file_seconds]: a file is returned
    by [_find_old_files] exactly when it is among the files given and its
    access time is strictly below the cutoff; in particular a file whose
    access time equals the cutoff is not classified old. *)
Theorem C9_old_file_rule_is_strict
    (self : AnalysisEngine.t) (now : Q) (secs : Z)
    (files : list ScannedItem.t) (f : ScannedItem.t) :
  AnalysisEngine.old_file_seconds self = Some secs ->
  (In f (AnalysisEngine._find_old_files self now files)
   <-> In f files /\ (ScannedItem.last_accessed f < now - inject_Z secs)%Q)
  /\ ((ScannedItem.last_accessed f == now - inject_Z secs)%Q ->
      ~ In f (AnalysisEngine._find_old_files self now files)).
Proof.
  intros Hsecs. unfold AnalysisEngine._find_old_files. rewrite Hsecs.
  assert (Hiff : In f (List.filter
                         (fun f0 => Qltb (ScannedItem.last_accessed f0) (now - inject_Z secs))
                         files)
                 <-> In f files /\ (ScannedItem.last_accessed f < now - inject_Z secs)%Q).
  { rewrite filter_In, Qltb_lt. reflexivity. }
  split; [exact Hiff|].
  intros Heq Hin. apply Hiff in Hin. destruct Hin as [_ Hlt].
  rewrite Heq in Hlt. exact (Qlt_irrefl _ Hlt).
Qed.

(** The rule at work under the default threshold ["3m"], which the unit
    table reads as three minutes: at time 1000 the cutoff is 820. *)
Lemma C9_old_file_rule_witness :
  AnalysisEngine.old_file_seconds (AnalysisEngine.init ConfigManager.DEFAULT_CONFIG) = Some 180
  /\ ((In (ScannedItem.Make "/a" 1 820 820 "file" [])
         (AnalysisEngine._find_old_files (AnalysisEngine.init ConfigManager.DEFAULT_CONFIG) 1000
            [ScannedItem.Make "/a" 1 820 820 "file" []; ScannedItem.Make "/b" 1 819 819 "file" []])
       <-> In (ScannedItem.Make "/a" 1 820 820 "file" [])
             [ScannedItem.Make "/a" 1 820 820 "file" []; ScannedItem.Make "/b" 1 819 819 "file" []]
           /\ (820 < 1000 - inject_Z 180)%Q)
      /\ ((820 == 1000 - inject_Z 180)%Q ->
          ~ In (ScannedItem.Make "/a" 1 820 820 "file" [])
              (AnalysisEngine._find_old_files (AnalysisEngine.init ConfigManager.DEFAULT_CONFIG) 1000
                 [ScannedItem.Make "/a" 1 820 820 "file" [];
                  ScannedItem.Make "/b" 1 819 819 "file" []]))).
Proof.
  split; [vm_compute; reflexivity|].
  apply (C9_old_file_rule_is_strict
           (AnalysisEngine.init ConfigManager.DEFAULT_CONFIG) 1000 180
           [ScannedItem.Make "/a" 1 820 820 "file" []; ScannedItem.Make "/b" 1 819 819 "file" []]
           (ScannedItem.Make "/a" 1 820 820 "file" [])).
  vm_compute. reflexivity.
Defined.

Example old_file_boundary :
  AnalysisEngine._find_old_files (AnalysisEngine.init ConfigManager.DEFAULT_CONFIG) 1000
    [ScannedItem.Make "/a" 1 820 820 "file" []; ScannedItem.Make "/b" 1 819 819 "file" []]
  = [ScannedItem.Make "/b" 1 819 819 "file" []].
Proof. vm_compute. reflexivity. Qed.

(** ** The confidence of an old file (C8) *)

(** A file accessed less than a day before the suggestion is made has an
    age of 0 whole days. *)
Lemma age_days_recent (now item_time : Q) :
  (item_time <= now)%Q -> (now - item_time < 86400)%Q ->
  Helpers.int_of_Q (Helpers.get_age_seconds now item_time / inject_Z 86400) = 0.
Proof.
  intros Hle Hlt. unfold Helpers.get_age_seconds.
  apply int_of_Q_unit.
  - apply Qle_shift_div_l; [reflexivity|].
    rewrite Qmult_0_l. rewrite <- (Qplus_opp_r item_time).
    apply Qplus_le_l. exact Hle.
  - apply Qlt_shift_div_r; [reflexivity|].
    rewrite Qmult_1_l. exact Hlt.
Qed.

Lemma old_file_confidence_recent (ctime : Q -> string) (now : Q) (item : ScannedItem.t) :
  (ScannedItem.last_accessed item <= now)%Q ->
  (now - ScannedItem.last_accessed item < 86400)%Q ->
  Suggestion.confidence (RecommendationEngine.old_file_suggestion ctime now item) = (18250 # 36500)%Q.
Proof.
  intros Hle Hlt. unfold RecommendationEngine.old_file_suggestion. simpl.
  rewrite (age_days_recent _ _ Hle Hlt). vm_compute. reflexivity.
Qed.

(** The confidence of an old-file suggestion never leaves [0.5, 0.9] when
    the access time is not in the future. *)
Lemma old_file_confidence_bounds (ctime : Q -> string) (now : Q) (item : ScannedItem.t) :
  (ScannedItem.last_accessed item <= now)%Q ->
  let c := Suggestion.confidence (RecommendationEngine.old_file_suggestion ctime now item) in
  (5 # 10 <= c)%Q /\ (c <= 9 # 10)%Q.
Proof.
  intros Hle. unfold RecommendationEngine.old_file_suggestion. simpl.
  set (d := Helpers.int_of_Q _).
  assert (Hd : 0 <= d).
  { unfold d, Helpers.int_of_Q, Helpers.get_age_seconds.
    apply Z.quot_pos; [|lia].
    assert (H0 : (0 <= (now - ScannedItem.last_accessed item) / inject_Z 86400)%Q).
    { apply Qle_shift_div_l; [reflexivity|]. rewrite Qmult_0_l.
      rewrite <- (Qplus_opp_r (ScannedItem.last_accessed item)).
      apply Qplus_le_l. exact Hle. }
    revert H0. generalize ((now - ScannedItem.last_accessed item) / inject_Z 86400)%Q.
    intros [n dn]. unfold Qle. simpl. lia. }
  assert (Hbase : (5 # 10 <= (5 # 10) + inject_Z d / inject_Z 365 * (4 # 10))%Q).
  { rewrite <- (Qplus_0_r (5 # 10)) at 1. apply Qplus_le_r.
    apply Qmult_le_0_compat; [|discriminate].
    apply Qle_shift_div_l; [reflexivity|]. rewrite Qmult_0_l.
    unfold Qle. simpl. lia. }
  unfold RecommendationEngine.Qmin.
  destruct (Qltb (9 # 10) ((5 # 10) + inject_Z d / inject_Z 365 * (4 # 10))) eqn:E.
  - split; [discriminate | apply Qle_refl].
  - apply Qltb_ge in E. split; assumption.
Qed.

(** C8 (as the code has it). With the old_file threshold ["1s"] and a file
    last accessed 2 seconds before the analysis reads the clock, the file
    is classified old; the OLD_FILE suggestion generated for it less than a
    day after the access has confidence exactly 0.5, the age being counted
    in whole days, hence strictly less than 0.9. *)
Theorem C8_recent_old_file_confidence
    (ctime : Q -> string) (cfg : ConfigManager.t) (now now' : Q) (f : ScannedItem.t) :
  ConfigManager.thresholds_old_file cfg = "1s" ->
  (ScannedItem.last_accessed f == now - 2)%Q ->
  (now <= now')%Q ->
  (now' < now + 86398)%Q ->
  AnalysisEngine._find_old_files (AnalysisEngine.init cfg) now [f] = [f]
  /\ exists s,
       RecommendationEngine._generate_old_file_suggestions ctime now' [f] = [s]
       /\ Suggestion.suggestion_type s = SUGGESTION_OLD_FILE
       /\ (Suggestion.confidence s == 1 # 2)%Q
       /\ (Suggestion.confidence s < 9 # 10)%Q.
Proof.
  intros Hthr Hacc Hle Hlt. split.
  - unfold AnalysisEngine._find_old_files, AnalysisEngine.init. simpl.
    rewrite Hthr.
    replace (Helpers.parse_duration "1s") with (Some 1) by (vm_compute; reflexivity).
    simpl.
    assert (Hold : Qltb (ScannedItem.last_accessed f) (now - inject_Z 1) = true).
    { apply Qltb_lt. rewrite Hacc.
      unfold Qminus. apply Qplus_lt_r. reflexivity. }
    rewrite Hold. reflexivity.
  - exists (RecommendationEngine.old_file_suggestion ctime now' f).
    split; [reflexivity|]. split; [reflexivity|].
    assert (Hc : Suggestion.confidence (RecommendationEngine.old_file_suggestion ctime now' f)
                 = (18250 # 36500)%Q).
    { apply old_file_confidence_recent.
      - rewrite Hacc. apply Qle_trans with now; [|exact Hle].
        rewrite <- (Qplus_0_r now) at 2. unfold Qminus. apply Qplus_le_r. discriminate.
      - rewrite Hacc.
        apply Qlt_le_trans with (now + 86398 - (now - 2))%Q.
        + unfold Qminus. apply Qplus_lt_l. exact Hlt.
        + unfold Qle. destruct now as [n d]. simpl. nia. }
    rewrite Hc. split; reflexivity.
Qed.

Lemma C8_recent_old_file_confidence_witness :
  ConfigManager.thresholds_old_file Scenario.config = "1s"
  /\ (998 == 1000 - 2)%Q /\ (1000 <= 1000)%Q /\ (1000 < 1000 + 86398)%Q
  /\ AnalysisEngine._find_old_files (AnalysisEngine.init Scenario.config) 1000
       [ScannedItem.Make "/home/u/Downloads/old.iso" 2048 998 998 "file" []]
     = [ScannedItem.Make "/home/u/Downloads/old.iso" 2048 998 998 "file" []]
  /\ exists s,
       RecommendationEngine._generate_old_file_suggestions (fun _ => EmptyString) 1000
         [ScannedItem.Make "/home/u/Downloads/old.iso" 2048 998 998 "file" []] = [s]
       /\ Suggestion.suggestion_type s = SUGGESTION_OLD_FILE
       /\ (Suggestion.confidence s == 1 # 2)%Q
       /\ (Suggestion.confidence s < 9 # 10)%Q.
Proof.
  split; [reflexivity|]. split; [reflexivity|].
  split; [discriminate|]. split; [reflexivity|].
  apply (C8_recent_old_file_confidence (fun _ => EmptyString) Scenario.config 1000 1000
           (ScannedItem.Make "/home/u/Downloads/old.iso" 2048 998 998 "file" [])).
  - reflexivity.
  - reflexivity.
  - discriminate.
  - reflexivity.
Defined.

(** The scenario of the specification: threshold ["1s"], clock at 1000, a
    file accessed at 998.  The file is old, and the confidence of its
    suggestion is not strictly greater than 0.5. *)
Lemma C8_confidence_not_above_half :
  AnalysisEngine._find_old_files (AnalysisEngine.init Scenario.config) 1000
    [ScannedItem.Make "/home/u/Downloads/old.iso" 2048 998 998 "file" []]
  = [ScannedItem.Make "/home/u/Downloads/old.iso" 2048 998 998 "file" []]
  /\ exists s,
       RecommendationEngine._generate_old_file_suggestions (fun _ => EmptyString) 1000
         [ScannedItem.Make "/home/u/Downloads/old.iso" 2048 998 998 "file" []] = [s]
       /\ Suggestion.suggestion_type s = SUGGESTION_OLD_FILE
       /\ ~ (1 # 2 < Suggestion.confidence s)%Q.
Proof.
  split; [vm_compute; reflexivity|].
  eexists. split; [reflexivity|]. split; [reflexivity|].
  vm_compute. intros H. discriminate H.
Qed.

(** ** Suggestion ids (C2) *)

(** Every suggestion the engine generates comes from one of the six
    generators. *)
Lemma In_generate_suggestions (ctime : Q -> string) (self : RecommendationEngine.t) (now : Q)
    (r : AnalysisEngine.results) (s : Suggestion.t) :
  In s (RecommendationEngine.generate_suggestions ctime self now r) <->
  In s (RecommendationEngine._generate_old_file_suggestions ctime now (AnalysisEngine.old_files r))
  \/ In s (RecommendationEngine._generate_large_file_suggestions ctime (AnalysisEngine.large_files r))
  \/ In s (RecommendationEngine._generate_orphan_package_suggestions (AnalysisEngine.orphan_packages r))
  \/ In s (RecommendationEngine._generate_duplicate_set_suggestions (AnalysisEngine.duplicate_sets r))
  \/ In s (RecommendationEngine._generate_pacman_cache_suggestions self (AnalysisEngine.pacman_cache_files r))
  \/ In s (RecommendationEngine._generate_journal_log_suggestions self (AnalysisEngine.journal_logs r)).
Proof.
  unfold RecommendationEngine.generate_suggestions.
  rewrite In_sort_desc. rewrite !in_app_iff. reflexivity.
Qed.

(** C2 (as the code has it). The id of every generated suggestion of a
    type other than ORPHAN_PACKAGE is the first ten hexadecimal digits of
    the SHA-1 digest of its suggestion_type followed by a key that depends
    on the type: the details (the path) for OLD_FILE and LARGE_FILE, the
    content hash of the set for DUPLICATE_SET, and the fixed words
    "older_versions" and "vacuum_size" for PACMAN_CACHE and JOURNAL_LOG. *)
Theorem C2_suggestion_id_from_type_and_key
    (ctime : Q -> string) (self : RecommendationEngine.t) (now : Q)
    (r : AnalysisEngine.results) (s : Suggestion.t) :
  In s (RecommendationEngine.generate_suggestions ctime self now r) ->
  Suggestion.suggestion_type s <> SUGGESTION_ORPHAN_PACKAGE ->
  (Suggestion.suggestion_type s = SUGGESTION_OLD_FILE
   /\ Suggestion.id s
      = RecommendationEngine._generate_suggestion_id SUGGESTION_OLD_FILE (Suggestion.details s))
  \/ (Suggestion.suggestion_type s = SUGGESTION_LARGE_FILE
      /\ Suggestion.id s
         = RecommendationEngine._generate_suggestion_id SUGGESTION_LARGE_FILE (Suggestion.details s))
  \/ (Suggestion.suggestion_type s = SUGGESTION_DUPLICATE_SET
      /\ exists d, Suggestion.data s = DDupSet d
           /\ Suggestion.id s
              = RecommendationEngine._generate_suggestion_id SUGGESTION_DUPLICATE_SET
                  (DuplicateSet.file_hash d))
  \/ (Suggestion.suggestion_type s = SUGGESTION_PACMAN_CACHE
      /\ Suggestion.id s
         = RecommendationEngine._generate_suggestion_id SUGGESTION_PACMAN_CACHE "older_versions")
  \/ (Suggestion.suggestion_type s = SUGGESTION_JOURNAL_LOG
      /\ Suggestion.id s
         = RecommendationEngine._generate_suggestion_id SUGGESTION_JOURNAL_LOG "vacuum_size").
Proof.
  intros Hin Hty. apply In_generate_suggestions in Hin.
  destruct Hin as [H|[H|[H|[H|[H|H]]]]].
  - left. unfold RecommendationEngine._generate_old_file_suggestions in H.
    apply in_map_iff in H. destruct H as [item [<- _]]. split; reflexivity.
  - right; left. unfold RecommendationEngine._generate_large_file_suggestions in H.
    apply in_map_iff in H. destruct H as [item [<- _]]. split; reflexivity.
  - exfalso. apply Hty.
    unfold RecommendationEngine._generate_orphan_package_suggestions in H.
    destruct (AnalysisEngine.orphan_packages r); [contradiction|].
    destruct H as [<-|[]]. reflexivity.
  - right; right; left.
    unfold RecommendationEngine._generate_duplicate_set_suggestions in H.
    apply list_elem_of_In, list_elem_of_omap in H. destruct H as [d [_ Hd]].
    unfold RecommendationEngine.duplicate_set_suggestion in Hd.
    destruct (_ <=? 0); [discriminate|].
    injection Hd as <-. split; [reflexivity|]. exists d. split; reflexivity.
  - right; right; right; left.
    unfold RecommendationEngine._generate_pacman_cache_suggestions in H.
    destruct (AnalysisEngine.pacman_cache_files r); [contradiction|].
    match type of H with
    | In _ (match ?l with [] => _ | _ => _ end) => destruct l; [contradiction|]
    end.
    destruct H as [<-|[]]. split; reflexivity.
  - right; right; right; right.
    unfold RecommendationEngine._generate_journal_log_suggestions in H.
    destruct (AnalysisEngine.journal_logs r) as [|j js]; [contradiction|].
    destruct (RecommendationEngine.journal_max_bytes self) as [m|]; [|contradiction].
    destruct (m <? ScannedItem.size_bytes j); [|contradiction].
    destruct H as [<-|[]]. split; reflexivity.
Qed.

(** The suggestion made for the set of two copies of the example. *)
Lemma C2_suggestion_id_witness :
  In Scenario.copies_suggestion
     (RecommendationEngine.generate_suggestions (fun _ => "Thu Jan  1 00:16:38 1970")
        (RecommendationEngine.init Scenario.config) 1000 Scenario.findings)
  /\ Suggestion.suggestion_type Scenario.copies_suggestion <> SUGGESTION_ORPHAN_PACKAGE
  /\ Suggestion.id Scenario.copies_suggestion
     = RecommendationEngine._generate_suggestion_id SUGGESTION_DUPLICATE_SET "9f86d081884c7d65".
Proof.
  assert (Hin : In Scenario.copies_suggestion
                  (RecommendationEngine.generate_suggestions
                     (fun _ => "Thu Jan  1 00:16:38 1970")
                     (RecommendationEngine.init Scenario.config) 1000 Scenario.findings)).
  { vm_compute. do 3 right. left. reflexivity. }
  assert (Hty : Suggestion.suggestion_type Scenario.copies_suggestion
                <> SUGGESTION_ORPHAN_PACKAGE) by discriminate.
  split; [exact Hin|]. split; [exact Hty|].
  destruct (C2_suggestion_id_from_type_and_key _ _ _ _ _ Hin Hty)
    as [[H _]|[[H _]|[[_ [d [Hd H]]]|[[H _]|[H _]]]]].
  - discriminate H.
  - discriminate H.
  - injection Hd as <-. exact H.
  - discriminate H.
  - discriminate H.
Defined.

(** The suggestion for the pacman cache of the example: its details are a
    summary of the cache, and its id is not the digest of type and
    details. *)
Lemma C2_cache_id_not_from_details :
  exists s,
    In s (RecommendationEngine.generate_suggestions (fun _ => "Thu Jan  1 00:16:38 1970")
            (RecommendationEngine.init Scenario.config) 1000 Scenario.findings)
    /\ Suggestion.suggestion_type s = SUGGESTION_PACMAN_CACHE
    /\ Suggestion.details s = "1 older package versions. Total cache size: 1.2 KB"
    /\ Suggestion.id s = "162ad333cd"
    /\ RecommendationEngine._generate_suggestion_id
         (Suggestion.suggestion_type s) (Suggestion.details s) = "147bdb6dae"
    /\ Suggestion.id s
       <> RecommendationEngine._generate_suggestion_id
            (Suggestion.suggestion_type s) (Suggestion.details s).
Proof.
  exists (Suggestion.Make "162ad333cd" "PACMAN_CACHE"
            "Clean pacman cache: Remove 1 older versions (Save 500 B)"
            "1 older package versions. Total cache size: 1.2 KB" 500 (9 # 10)
            "Keep the latest 1 version(s) of each package and remove older ones."
            (DList [EPath "/var/cache/pacman/pkg/pkg-1.0-1-x86_64.pkg.tar.zst"])).
  split; [vm_compute; do 5 right; left; reflexivity|].
  split; [reflexivity|]. split; [reflexivity|]. split; [reflexivity|].
  split; [vm_compute; reflexivity|].
  vm_compute. discriminate.
Qed.

(** ** Dry runs (C5) *)


Lemma safe_delete_dry_run (self : ExecutionHandler.t) (path : string) (w : World.t) :
  (ExecutionHandler._safe_delete self path true w).2 = w.
Proof.
  unfold ExecutionHandler._safe_delete.
  destruct (negb (World.path_exists path w)); reflexivity.
Qed.

Lemma handle_old_file_dry_run (self : ExecutionHandler.t) (s : Suggestion.t) (w : World.t) :
  simulated (ExecutionHandler._handle_old_file self s true w) w.
Proof.
  unfold simulated, ExecutionHandler._handle_old_file.
  destruct (Suggestion.data s); try (split; [reflexivity | eexists; split; reflexivity]).
  pose proof (safe_delete_dry_run self (ScannedItem.path i) w) as Hw.
  destruct (ExecutionHandler._safe_delete self (ScannedItem.path i) true w)
    as [[success message] w1].
  simpl in Hw. subst w1. rewrite andb_false_r.
  split; [reflexivity | eexists; split; reflexivity].
Qed.

Lemma handle_orphan_package_dry_run (self : ExecutionHandler.t) (s : Suggestion.t) (w : World.t) :
  simulated (ExecutionHandler._handle_orphan_package self s true w) w.
Proof.
  unfold simulated, ExecutionHandler._handle_orphan_package.
  destruct (Suggestion.data s); try (split; [reflexivity | eexists; split; reflexivity]).
  destruct (ExecutionHandler.package_list l) as [[|p ps]|];
    split; try reflexivity; eexists; split; reflexivity.
Qed.

Lemma handle_pacman_cache_dry_run (self : ExecutionHandler.t) (s : Suggestion.t) (w : World.t) :
  simulated (ExecutionHandler._handle_pacman_cache self s true w) w.
Proof.
  unfold simulated, ExecutionHandler._handle_pacman_cache.
  destruct (Suggestion.data s); try (split; [reflexivity | eexists; split; reflexivity]).
  destruct (ExecutionHandler.path_list l) as [[|p ps]|];
    split; try reflexivity; eexists; split; reflexivity.
Qed.

Lemma handle_journal_log_dry_run (self : ExecutionHandler.t) (s : Suggestion.t) (w : World.t) :
  simulated (ExecutionHandler._handle_journal_log self s true w) w.
Proof.
  unfold simulated, ExecutionHandler._handle_journal_log.
  destruct (Suggestion.data s); try (split; [reflexivity | eexists; split; reflexivity]).
  destruct (default PNone (PyVal.get "target_size" d));
    destruct (default PNone (PyVal.get "target_age" d));
    split; try reflexivity; eexists; split; reflexivity.
Qed.

Lemma remove_duplicates_dry_run (self : ExecutionHandler.t) (size_bytes : Z)
    (paths : list string) (acc : Z * Z * list string) (w : World.t) :
  exists acc', ExecutionHandler.remove_duplicates self size_bytes true paths acc w
               = (Return acc', w).
Proof.
  revert acc. induction paths as [|path rest IH]; intros [[total count] messages]; simpl.
  - eauto.
  - pose proof (safe_delete_dry_run self path w) as Hw.
    destruct (ExecutionHandler._safe_delete self path true w) as [[success message] w1].
    simpl in Hw. subst w1. destruct success; apply IH.
Qed.

Lemma handle_duplicate_set_dry_run (self : ExecutionHandler.t) (s : Suggestion.t) (w : World.t) :
  simulated (ExecutionHandler._handle_duplicate_set self s true w) w.
Proof.
  unfold simulated, ExecutionHandler._handle_duplicate_set.
  destruct (Suggestion.data s); try (split; [reflexivity | eexists; split; reflexivity]).
  destruct (DuplicateSet.paths d) as [|keep [|p ps]];
    try (split; [reflexivity | eexists; split; reflexivity]).
  destruct (remove_duplicates_dry_run self (DuplicateSet.size_bytes d) (p :: ps) (0, 0, []) w)
    as [[[total count] messages] Hrun].
  rewrite Hrun. split; [reflexivity | eexists; split; reflexivity].
Qed.

Lemma handlers_dry_run (suggestion_type : string)
    (h : ExecutionHandler.t -> Suggestion.t -> bool -> World.t -> outcome ActionResult.t * World.t)
    (self : ExecutionHandler.t) (s : Suggestion.t) (w : World.t) :
  ExecutionHandler.handler_for suggestion_type = Some h ->
  simulated (h self s true w) w.
Proof.
  unfold ExecutionHandler.handler_for.
  repeat match goal with
         | |- context [if ?b then _ else _] => destruct b
         end; intros H; inversion H; subst.
  - apply handle_old_file_dry_run.
  - apply handle_old_file_dry_run.
  - apply handle_orphan_package_dry_run.
  - apply handle_duplicate_set_dry_run.
  - apply handle_pacman_cache_dry_run.
  - apply handle_journal_log_dry_run.
Qed.

(** The dispatcher in a dry run. *)
Lemma execute_suggestion_dry_run (self : ExecutionHandler.t) (s : Suggestion.t) (w : World.t) :
  (ExecutionHandler.execute_suggestion self s true w).2 = w
  /\ ActionResult.dry_run (ExecutionHandler.execute_suggestion self s true w).1 = true.
Proof.
  unfold ExecutionHandler.execute_suggestion.
  destruct (ExecutionHandler.handler_for (Suggestion.suggestion_type s)) as [h|] eqn:Hh.
  - destruct (handlers_dry_run _ h self s w Hh) as [Hw [r [Hr Hdry]]].
    destruct (h self s true w) as [o w']. simpl in Hw, Hr. subst.
    split; [reflexivity | exact Hdry].
  - split; reflexivity.
Qed.

(** C5. Executing any suggestion in dry-run mode leaves the machine as it
    was: the files, the store (no row inserted or deleted) and the record of
    external commands (none was run) are unchanged, and the result that is
    returned carries the dry-run flag. *)
Theorem C5_dry_run_changes_nothing
    (self : ExecutionHandler.t) (s : Suggestion.t) (w : World.t) :
  let '(r, w') := ExecutionHandler.execute_suggestion self s true w in
  w' = w
  /\ World.files w' = World.files w
  /\ World.db w' = World.db w
  /\ World.commands w' = World.commands w
  /\ ActionResult.dry_run r = true.
Proof.
  destruct (execute_suggestion_dry_run self s w) as [Hw Hdry].
  destruct (ExecutionHandler.execute_suggestion self s true w) as [r w'].
  simpl in Hw, Hdry. subst w'. repeat split. exact Hdry.
Qed.

(** The same for a whole [apply]: no feedback is recorded either. *)
Lemma apply_loop_dry_run (self : CoreController.t) (from_file to_apply : list Suggestion.t)
    (w : World.t) :
  (CoreController.apply_loop self from_file to_apply true w).2 = w
  /\ Forall (fun r => ActionResult.dry_run r = true)
       (CoreController.apply_loop self from_file to_apply true w).1.
Proof.
  induction to_apply as [|s rest IH]; simpl.
  - split; [reflexivity | constructor].
  - pose proof (execute_suggestion_dry_run (CoreController.executor self) s w) as H.
    destruct (ExecutionHandler.execute_suggestion (CoreController.executor self) s true w)
      as [r w1].
    simpl in H. destruct H as [-> Hdry].
    destruct (CoreController.apply_loop self from_file rest true w) as [results w2].
    simpl in *. destruct IH as [-> Hall]. split; [reflexivity | constructor; assumption].
Qed.

Lemma apply_dry_run (self : CoreController.t) (ids : option (list string)) (w : World.t) :
  (CoreController.apply self ids true w).2 = w.
Proof.
  unfold CoreController.apply.
  destruct (CoreController.get_last_suggestions self w) as [[|s l]|e]; try reflexivity.
  match goal with
  | |- context [CoreController.apply_loop ?a ?b ?c true w] =>
      pose proof (apply_loop_dry_run a b c w) as [H _];
      destruct (CoreController.apply_loop a b c true w)
  end.
  exact H.
Qed.

(** A dry run of a duplicate-set suggestion on the example machine. *)
Example dry_run_duplicate_set :
  let w := Scenario.machine Scenario.disk Scenario.quiet Scenario.store in
  let s := Suggestion.Make "x" "DUPLICATE_SET" "" "" 2048 (7 # 10) ""
             (DDupSet (DuplicateSet.Make "abc"
                         ["/srv/data/report.txt"; "/home/u/Downloads/old.iso"] 2048 4096)) in
  ExecutionHandler.execute_suggestion (ExecutionHandler.init Scenario.config true) s true w
  = (ActionResult.Make s true
       "Removed 1/1 duplicate files. Kept: report.txt. Simulated trash of /home/u/Downloads/old.iso"
       2048 true, w).
Proof. vm_compute. reflexivity. Qed.

(** ** Unknown ids in [apply] (C10) *)

Lemma remove_duplicates_total (self : ExecutionHandler.t) (size_bytes : Z) (dry_run : bool)
    (paths : list string) (acc : Z * Z * list string) (w : World.t) :
  exists o w', ExecutionHandler.remove_duplicates self size_bytes dry_run paths acc w = (o, w').
Proof. eexists _, _. apply surjective_pairing. Qed.


Ltac about_tac :=
  repeat first
    [ progress (intros; simpl in * )
    | match goal with
      | H : Return _ = Return _ |- _ => inversion H; subst; clear H
      | H : Raise _ = Return _ |- _ => discriminate H
      | |- ActionResult.suggestion (ExecutionHandler.result _ _ _ _ _) = _ => reflexivity
      | |- ?x = ?x => reflexivity
      | |- context [match ?x with _ => _ end] => destruct x eqn:?
      | H : context [match ?x with _ => _ end] |- _ => destruct x eqn:?
      end ].

Lemma handle_old_file_about (self : ExecutionHandler.t) (s : Suggestion.t) (d : bool) (w : World.t) :
  about s (ExecutionHandler._handle_old_file self s d w).
Proof. unfold about, ExecutionHandler._handle_old_file. about_tac. Qed.

Lemma handle_orphan_package_about (self : ExecutionHandler.t) (s : Suggestion.t) (d : bool)
    (w : World.t) : about s (ExecutionHandler._handle_orphan_package self s d w).
Proof. unfold about, ExecutionHandler._handle_orphan_package. about_tac. Qed.

Lemma handle_duplicate_set_about (self : ExecutionHandler.t) (s : Suggestion.t) (d : bool)
    (w : World.t) : about s (ExecutionHandler._handle_duplicate_set self s d w).
Proof. unfold about, ExecutionHandler._handle_duplicate_set. about_tac. Qed.

Lemma handle_pacman_cache_about (self : ExecutionHandler.t) (s : Suggestion.t) (d : bool)
    (w : World.t) : about s (ExecutionHandler._handle_pacman_cache self s d w).
Proof. unfold about, ExecutionHandler._handle_pacman_cache. about_tac. Qed.

Lemma handle_journal_log_about (self : ExecutionHandler.t) (s : Suggestion.t) (d : bool)
    (w : World.t) : about s (ExecutionHandler._handle_journal_log self s d w).
Proof. unfold about, ExecutionHandler._handle_journal_log. about_tac. Qed.

Lemma handlers_about (suggestion_type : string)
    (h : ExecutionHandler.t -> Suggestion.t -> bool -> World.t -> outcome ActionResult.t * World.t)
    (self : ExecutionHandler.t) (s : Suggestion.t) (d : bool) (w : World.t) :
  ExecutionHandler.handler_for suggestion_type = Some h -> about s (h self s d w).
Proof.
  unfold ExecutionHandler.handler_for.
  repeat match goal with
         | |- context [if ?b then _ else _] => destruct b
         end; intros H; inversion H; subst.
  - apply handle_old_file_about.
  - apply handle_old_file_about.
  - apply handle_orphan_package_about.
  - apply handle_duplicate_set_about.
  - apply handle_pacman_cache_about.
  - apply handle_journal_log_about.
Qed.

(** [execute_suggestion] always answers, with a result for its suggestion. *)
Lemma execute_suggestion_about (self : ExecutionHandler.t) (s : Suggestion.t) (d : bool)
    (w : World.t) :
  ActionResult.suggestion (ExecutionHandler.execute_suggestion self s d w).1 = s.
Proof.
  unfold ExecutionHandler.execute_suggestion.
  destruct (ExecutionHandler.handler_for (Suggestion.suggestion_type s)) as [h|] eqn:Hh;
    [|reflexivity].
  pose proof (handlers_about _ h self s d w Hh) as Hab. unfold about in Hab.
  destruct (h self s d w) as [[r|e] w']; simpl in *; [apply Hab|]; reflexivity.
Qed.

(** One result per suggestion applied, in order. *)
Lemma apply_loop_suggestions (self : CoreController.t) (from_file to_apply : list Suggestion.t)
    (d : bool) (w : World.t) :
  map ActionResult.suggestion (CoreController.apply_loop self from_file to_apply d w).1
  = to_apply.
Proof.
  revert w. induction to_apply as [|s rest IH]; intros w; simpl; [reflexivity|].
  pose proof (execute_suggestion_about (CoreController.executor self) s d w) as Hs.
  destruct (ExecutionHandler.execute_suggestion (CoreController.executor self) s d w)
    as [r w1].
  match goal with
  | |- context [CoreController.apply_loop self from_file rest d ?w2] =>
      specialize (IH w2); destruct (CoreController.apply_loop self from_file rest d w2)
  end.
  simpl in *. rewrite Hs, IH. reflexivity.
Qed.

(** The dictionary built from the file holds, under an id, a suggestion of
    the file with that id; and every id of the file is a key. *)
Lemma suggestion_map_fold (l : list Suggestion.t) (m : gmap string Suggestion.t)
    (i : string) (s : Suggestion.t) :
  fold_left (fun m s => <[Suggestion.id s := s]> m) l m !! i = Some s ->
  (In s l /\ Suggestion.id s = i) \/ m !! i = Some s.
Proof.
  revert m. induction l as [|x l IH]; intros m H; simpl in *.
  - right. exact H.
  - apply IH in H. destruct H as [[Hin Hid]|H].
    + left. split; [right|]; assumption.
    + destruct (decide (Suggestion.id x = i)) as [He|Hne].
      * subst i. rewrite lookup_insert_eq in H. injection H as <-.
        left. split; [left|]; reflexivity.
      * rewrite lookup_insert_ne in H by exact Hne. right. exact H.
Qed.

Lemma suggestion_map_fold_known (l : list Suggestion.t) (m : gmap string Suggestion.t)
    (i : string) :
  (exists s, In s l /\ Suggestion.id s = i) \/ is_Some (m !! i) ->
  is_Some (fold_left (fun m s => <[Suggestion.id s := s]> m) l m !! i).
Proof.
  revert m. induction l as [|x l IH]; intros m H; simpl.
  - destruct H as [[s [[] _]]|H]. exact H.
  - apply IH. destruct H as [[s [[->|Hin] Hid]]|H].
    + right. subst i. rewrite lookup_insert_eq. eauto.
    + left. eauto.
    + right. destruct (decide (Suggestion.id x = i)) as [->|Hne].
      * rewrite lookup_insert_eq. eauto.
      * rewrite lookup_insert_ne by exact Hne. exact H.
Qed.

Lemma suggestion_map_lookup (l : list Suggestion.t) (i : string) :
  match CoreController.suggestion_map l !! i with
  | Some s => In s l /\ Suggestion.id s = i
              /\ existsb (fun s => String.eqb (Suggestion.id s) i) l = true
  | None => existsb (fun s => String.eqb (Suggestion.id s) i) l = false
  end.
Proof.
  unfold CoreController.suggestion_map.
  destruct (fold_left _ l ∅ !! i) as [s|] eqn:E.
  - apply suggestion_map_fold in E. destruct E as [[Hin Hid]|E].
    + split; [exact Hin|]. split; [exact Hid|].
      apply existsb_exists. exists s. split; [exact Hin|]. apply String.eqb_eq. exact Hid.
    + rewrite lookup_empty in E. discriminate E.
  - destruct (existsb _ l) eqn:Ex; [|reflexivity].
    apply existsb_exists in Ex. destruct Ex as [s [Hin Hid]]. apply String.eqb_eq in Hid.
    assert (Hsome : is_Some (fold_left (fun m s => <[Suggestion.id s := s]> m) l
                               (∅ : gmap string Suggestion.t) !! i)).
    { apply suggestion_map_fold_known. left. eauto. }
    rewrite E in Hsome. destruct Hsome as [? Hsome]. discriminate Hsome.
Qed.

Lemma select_known (l : list Suggestion.t) (ids : list string) :
  map Suggestion.id (CoreController.select (CoreController.suggestion_map l) ids)
  = List.filter (fun i => existsb (fun s => String.eqb (Suggestion.id s) i) l) ids
  /\ Forall (fun s => In s l) (CoreController.select (CoreController.suggestion_map l) ids).
Proof.
  unfold CoreController.select.
  induction ids as [|i ids [IHm IHf]]; simpl; [split; [reflexivity | constructor]|].
  pose proof (suggestion_map_lookup l i) as Hl.
  destruct (CoreController.suggestion_map l !! i) as [s|]; simpl.
  - destruct Hl as [Hin [Hid ->]]. simpl.
    split; [f_equal; [exact Hid | exact IHm] | constructor; [exact Hin | exact IHf]].
  - rewrite Hl. split; [exact IHm | exact IHf].
Qed.

(** What [get_last_suggestions] returns is what it rebuilds from the
    records of the artifact, in their order. *)
Lemma load_records_rebuilt (records : list json) (loaded : list Suggestion.t) :
  CoreController.load_records records = Return loaded -> loaded = omap rebuilt records.
Proof.
  revert loaded. induction records as [|j records IH]; intros loaded H; simpl in H.
  - injection H as <-. reflexivity.
  - unfold mbind, outcome_bind in H.
    change (omap rebuilt (j :: records))
      with (match rebuilt j with
            | Some s => s :: omap rebuilt records
            | None => omap rebuilt records
            end).
    unfold rebuilt at 1.
    destruct (CoreController.load_record j) as [o|e]; [|discriminate H].
    destruct (CoreController.load_records records) as [rest|e]; [|discriminate H].
    unfold mret, outcome_ret in H. injection H as <-.
    rewrite <- (IH rest eq_refl). destruct o; reflexivity.
Qed.

(** C10 (as the code has it). [apply] with a list of ids works on the
    suggestions that [get_last_suggestions] rebuilds from the records of
    the artifact.  With a non-empty list the results are, in the order of
    the ids, one for each id that is the id of a rebuilt suggestion, each
    about such a suggestion; an id that matches none of them (an unknown
    id, or the id of a record that the loader drops) gets no entry.  With
    an empty list every rebuilt suggestion is applied. *)
Theorem C10_unknown_ids_are_skipped
    (self : CoreController.t) (ids : list string) (dry_run : bool) (w : World.t)
    (records : list json) (loaded : list Suggestion.t) :
  World.suggestions_file w = World.Stored (JArr records) ->
  CoreController.load_records records = Return loaded ->
  exists results,
    (CoreController.apply self (Some ids) dry_run w).1 = Return results
    /\ loaded = omap rebuilt records
    /\ (ids <> [] ->
        map (fun r => Suggestion.id (ActionResult.suggestion r)) results
        = List.filter (known loaded) ids
        /\ Forall (fun r => In (ActionResult.suggestion r) loaded) results)
    /\ (ids = [] -> map ActionResult.suggestion results = loaded).
Proof.
  intros Hfile Hrecords.
  assert (Hload : CoreController.get_last_suggestions self w = Return loaded).
  { unfold CoreController.get_last_suggestions. rewrite Hfile. exact Hrecords. }
  unfold CoreController.apply. rewrite Hload.
  destruct loaded as [|s0 l0].
  - exists []. split; [reflexivity|].
    split; [apply (load_records_rebuilt _ _ Hrecords)|].
    split; [|reflexivity]. intros _. split; [|constructor].
    simpl. clear. induction ids as [|i ids' IH]; [reflexivity|exact IH].
  - set (loaded := s0 :: l0) in *.
    destruct ids as [|i ids'].
    + pose proof (apply_loop_suggestions self loaded loaded dry_run w) as Hmap.
      destruct (CoreController.apply_loop self loaded loaded dry_run w) as [results w'].
      exists results. split; [reflexivity|].
      split; [apply (load_records_rebuilt _ _ Hrecords)|].
      split; [intros H; contradiction|]. intros _. exact Hmap.
    + set (sel := CoreController.select (CoreController.suggestion_map loaded) (i :: ids')).
      pose proof (apply_loop_suggestions self loaded sel dry_run w) as Hmap.
      destruct (CoreController.apply_loop self loaded sel dry_run w) as [results w'] eqn:Hrun.
      exists results. split; [reflexivity|]. simpl in Hmap.
      split; [apply (load_records_rebuilt _ _ Hrecords)|].
      split; [|discriminate]. intros _.
      destruct (select_known loaded (i :: ids')) as [Hids' Hall].
      fold sel in Hids', Hall. split.
      * unfold known. rewrite <- Hids', <- Hmap. rewrite map_map. reflexivity.
      * rewrite <- Hmap in Hall. apply Forall_map in Hall. exact Hall.
Qed.

Lemma C10_unknown_ids_witness :
  World.suggestions_file (Scenario.after_suggest [Scenario.old_iso_suggestion])
  = World.Stored (JArr [CoreController.encode Scenario.old_iso_suggestion])
  /\ CoreController.load_records [CoreController.encode Scenario.old_iso_suggestion]
     = Return [Scenario.old_iso_loaded]
  /\ exists results,
       (CoreController.apply Scenario.controller (Some ["0000000000"; "fe6865e4a6"; "not-an-id"])
          false (Scenario.after_suggest [Scenario.old_iso_suggestion])).1 = Return results
       /\ map (fun r => Suggestion.id (ActionResult.suggestion r)) results = ["fe6865e4a6"].
Proof.
  assert (Hfile : World.suggestions_file (Scenario.after_suggest [Scenario.old_iso_suggestion])
                  = World.Stored (JArr [CoreController.encode Scenario.old_iso_suggestion]))
    by reflexivity.
  assert (Hrecords : CoreController.load_records
                       [CoreController.encode Scenario.old_iso_suggestion]
                     = Return [Scenario.old_iso_loaded]) by (vm_compute; reflexivity).
  split; [exact Hfile|]. split; [exact Hrecords|].
  destruct (C10_unknown_ids_are_skipped Scenario.controller
              ["0000000000"; "fe6865e4a6"; "not-an-id"] false
              (Scenario.after_suggest [Scenario.old_iso_suggestion])
              [CoreController.encode Scenario.old_iso_suggestion] [Scenario.old_iso_loaded]
              Hfile Hrecords) as [results [Hrun [_ [Hids _]]]].
  exists results. split; [exact Hrun|].
  destruct (Hids ltac:(discriminate)) as [Hmap _]. rewrite Hmap. vm_compute. reflexivity.
Defined.

(** The artifact of the six suggestions of the example holds the records
    of the ORPHAN_PACKAGE suggestion 10b51ee978 and of the PACMAN_CACHE
    suggestion 162ad333cd; [apply] with these two ids returns no entry.
    And [apply] with the empty list of ids on the artifact of one
    suggestion returns an entry. *)
Lemma C10_artifact_ids_without_entry :
  World.suggestions_file (Scenario.after_suggest Scenario.all_six)
  = World.Stored (JArr (map CoreController.encode Scenario.all_six))
  /\ In "10b51ee978" (map Suggestion.id Scenario.all_six)
  /\ In "162ad333cd" (map Suggestion.id Scenario.all_six)
  /\ (CoreController.apply Scenario.controller (Some ["10b51ee978"; "162ad333cd"]) true
        (Scenario.after_suggest Scenario.all_six)).1 = Return []
  /\ exists r,
       (CoreController.apply Scenario.controller (Some []) true
          (Scenario.after_suggest [Scenario.old_iso_suggestion])).1 = Return [r]
       /\ Suggestion.id (ActionResult.suggestion r) = "fe6865e4a6".
Proof.
  split; [reflexivity|].
  split; [vm_compute; do 2 right; left; reflexivity|].
  split; [vm_compute; do 5 right; left; reflexivity|].
  split; [vm_compute; reflexivity|].
  eexists. split; [vm_compute; reflexivity|]. reflexivity.
Qed.

(** Three ids, one of them known: one result. *)
Example apply_one_known_id :
  map (fun r => (Suggestion.id (ActionResult.suggestion r), ActionResult.success r))
    (match (CoreController.apply Scenario.controller
              (Some ["0000000000"; "fe6865e4a6"; "not-an-id"]) false
              (Scenario.after_suggest [Scenario.old_iso_suggestion])).1 with
     | Return results => results
     | Raise _ => []
     end)
  = [("fe6865e4a6", true)].
Proof. vm_compute. reflexivity. Qed.

(** ** Failures of the store (C6) *)

(** Reporting an error touches no table. *)
Lemma log_error_tables (s : Database.stmt) (db : Database.t) :
  Database.scanned_items (Database.log_error s db) = Database.scanned_items db
  /\ Database.packages (Database.log_error s db) = Database.packages db
  /\ Database.action_feedback (Database.log_error s db) = Database.action_feedback db
  /\ Database.scan_history (Database.log_error s db) = Database.scan_history db
  /\ Database.error_log (Database.log_error s db) = Database.error_log db ++ [s].
Proof. repeat split. Qed.

(** When every value binds, the statement fails exactly when there is a
    row and the engine does not run it. *)
Lemma executemany_all_bind (runs : bool) (rows : list (list Database.param)) :
  all_bind rows ->
  Database.executemany runs rows
  = Return (runs || match rows with [] => true | _ => false end).
Proof.
  intros Hall. induction Hall as [|row rows Hrow _ IH]; simpl.
  - rewrite orb_true_r. reflexivity.
  - rewrite Hrow. destruct runs; [|reflexivity]. rewrite IH. reflexivity.
Qed.





(** The same happens when the rows refer to a scan that is not in
    [scan_history]: the foreign key rejects the batch. *)
Example batch_with_unknown_scan :
  Database.add_scanned_items_batch [Scenario.old_iso] 7 Scenario.store
  = (Return tt, Database.log_error Database.UpsertItems Scenario.store).
Proof. vm_compute. reflexivity. Qed.

(** On a healthy store the batch is written. *)
Example batch_on_healthy_store :
  Database.scanned_items (Database.add_scanned_items_batch [Scenario.old_iso] 1 Scenario.store).2
  !! "/home/u/Downloads/old.iso"
  = Some (Database.Build_ItemRow 1 2048 998 998 "file" None false None).
Proof. vm_compute. reflexivity. Qed.

(** A size beyond 64 bits cannot be bound: the [OverflowError] leaves the
    batch writer, which has neither written nor logged anything. *)
Example batch_with_huge_size :
  Database.add_scanned_items_batch
    [Scenario.old_iso; ScannedItem.Make "/home/u/Downloads/huge" (2 ^ 63) 998 998 "file" []]
    1 Scenario.store
  = (Raise (OverflowError "Python int too large to convert to SQLite INTEGER"), Scenario.store).
Proof. vm_compute. reflexivity. Qed.

(** A file whose name is not UTF-8 in the directory that is scanned: the
    batch of the file system is refused as a whole, and [collect_all] files
    the error with the scan. *)
Example scan_with_latin1_name :
  let name := "/home/u/Downloads/caf" +:+ String "233"%char EmptyString in
  let w := Scenario.machine (<[name := Scenario.file 10 998]> Scenario.disk) Scenario.quiet
             Scenario.store in
  let w' := (DataCollector.collect_all (CoreController.collector Scenario.controller)
               false (Some "/home/u/Downloads") w).2 in
  Database.scanned_items (World.db w') = ∅
  /\ option_map Database.errors (last (Database.scan_history (World.db w')))
     = Some (Some "Filesystem Scan Error: 'utf-8' codec can't encode character '\udce9' in position 21: surrogates not allowed")
  /\ option_map Database.items_found (last (Database.scan_history (World.db w')))
     = Some (Some 0).
Proof. cbv zeta. split; [|split]; vm_compute; reflexivity. Qed.

(** ** Feedback after an execution (C3) *)

(** [add_feedback] reads [feedback.suggestion_type], an attribute the
    dataclass of [core/models.py] does not have: with an open connection the
    call raises before any statement is executed. *)
Lemma add_feedback_raises (feedback : ActionFeedback.t) (db : Database.t) :
  Database.conn db = true ->
  Database.add_feedback feedback db = (Raise (AttributeError "suggestion_type"), db).
Proof.
  intros Hconn. unfold Database.add_feedback. rewrite Hconn. reflexivity.
Qed.

Lemma add_feedback_adds_nothing (feedback : ActionFeedback.t) (db : Database.t) :
  (Database.add_feedback feedback db).2 = db.
Proof.
  unfold Database.add_feedback.
  destruct (negb (Database.conn db)); reflexivity.
Qed.

Lemma with_db_same (w : World.t) : World.with_db (World.db w) w = w.
Proof. destruct w. reflexivity. Qed.

(** Whatever the suggestion and the action, [record_feedback] leaves the
    machine, and so the feedback log, as it was. *)
Lemma record_feedback_records_nothing (self : LearningModule.t) (s : Suggestion.t)
    (action_taken : string) (user_comment : option string) (w : World.t) :
  LearningModule.record_feedback self s action_taken user_comment w = w.
Proof.
  unfold LearningModule.record_feedback.
  destruct (negb (LearningModule.learning_enabled self)); [reflexivity|].
  match goal with
  | |- context [Database.add_feedback ?f ?d] =>
      pose proof (add_feedback_adds_nothing f d) as H;
      destruct (Database.add_feedback f d) as [o d']
  end.
  simpl in H. subst d'. destruct o; apply with_db_same.
Qed.

(** C3 (what the code does). A real run of [apply] on the example machine,
    learning enabled, store open and healthy: the old file is deleted, the
    result reports success, and the feedback log is as empty as before. *)
Theorem C3_apply_records_no_feedback :
  let w := Scenario.after_suggest [Scenario.old_iso_suggestion] in
  LearningModule.learning_enabled (CoreController.learner Scenario.controller) = true
  /\ Database.conn (World.db w) = true
  /\ Database.action_feedback (World.db w) = []
  /\ exists r w',
       CoreController.apply Scenario.controller (Some ["fe6865e4a6"]) false w
       = (Return [r], w')
       /\ ActionResult.success r = true
       /\ ActionResult.dry_run r = false
       /\ World.path_exists "/home/u/Downloads/old.iso" w' = false
       /\ Database.action_feedback (World.db w') = []
       /\ Database.error_log (World.db w') = [].
Proof.
  cbv zeta. split; [reflexivity|]. split; [reflexivity|]. split; [reflexivity|].
  eexists _, _. split; [vm_compute; reflexivity|].
  repeat split.
Qed.

(** ** The journal when [journalctl] fails (C7) *)

(** Whenever the disk-usage query fails (a return code other than 0, or no
    output), the collector yields no journal item: the fallback never
    assigns the local [match] that the item's [extra_info] reads. *)
Lemma journal_fallback_yields_nothing (self : DataCollector.t) (w : World.t) :
  (let r := (World.exec w ["journalctl"; "--disk-usage"] (World.files w)).1 in
   World.returncode r <> 0 \/ World.stdout r = EmptyString) ->
  (DataCollector._collect_journal_info self w).1.1 = [].
Proof.
  intros Hfail. unfold DataCollector._collect_journal_info.
  set (jp := if World.is_dir "/var/log/journal" w then Some "/var/log/journal"
             else if World.is_dir "/run/log/journal" w then Some "/run/log/journal"
             else None).
  destruct jp as [journal_path|]; [|reflexivity].
  unfold World.run_command.
  destruct (World.exec w ["journalctl"; "--disk-usage"] (World.files w)) as [r f].
  simpl in Hfail.
  assert (Hcond : (World.returncode r =? 0) && negb (String.eqb (World.stdout r) EmptyString)
                  = false).
  { destruct Hfail as [Hrc|Hout].
    - apply Z.eqb_neq in Hrc. rewrite Hrc. reflexivity.
    - rewrite Hout. simpl. apply andb_false_r. }
  rewrite Hcond.
  match goal with
  | |- context [DataCollector.sum_sizes ?l ?w'] => destruct (DataCollector.sum_sizes l w')
  end;
  match goal with
  | |- context [if ?b then _ else _] => destruct b; [|reflexivity]
  end;
  match goal with
  | |- context [World.stat ?p ?w'] => destruct (World.stat p w') as [[[? ?] ?]|]
  end; reflexivity.
Qed.

(** C7 (what the code does). On the example machine the journal directory
    holds 4096 bytes of files and [journalctl --disk-usage] exits with code
    1.  The fallback sums the sizes to 4096, then the collector stops on
    [UnboundLocalError] without yielding an item; [collect_all] files the
    error with the scan and stores no journal item. *)
Theorem C7_journal_fallback_raises :
  let w := Scenario.machine Scenario.disk Scenario.journalctl_fails Scenario.store in
  let collector := CoreController.collector Scenario.controller in
  World.returncode (Scenario.journalctl_fails ["journalctl"; "--disk-usage"] Scenario.disk).1 = 1
  /\ DataCollector.sum_sizes
       (List.filter (fun p => World.below "/var/log/journal" p)
          (map fst (map_to_list (World.files w)))) w = Return 4096
  /\ (DataCollector._collect_journal_info collector w).1
     = ([], Some (UnboundLocalError "match"))
  /\ (let w' := (DataCollector.collect_all collector false None w).2 in
      Database.scanned_items (World.db w') !! "/var/log/journal" = None
      /\ option_map Database.errors (last (Database.scan_history (World.db w')))
         = Some (Some "Journal Info Error: cannot access local variable 'match' where it is not associated with a value")).
Proof.
  cbv zeta. split; [reflexivity|].
  split; [vm_compute; reflexivity|].
  split; [vm_compute; reflexivity|].
  split; vm_compute; reflexivity.
Qed.

(** When the query succeeds the item is yielded, with the size it reports. *)
Example journal_query_succeeds :
  let journalctl (command : list string) (fs : gmap string World.node) :=
    (World.Build_CompletedProcess 0 "Archived and active journals take up 1.1G on disk." "",
     fs) in
  (DataCollector._collect_journal_info (CoreController.collector Scenario.controller)
     (Scenario.machine Scenario.disk journalctl Scenario.store)).1
  = ([ScannedItem.Make "/var/log/journal" 1181116006 990 990 "journal_log"
        [("source", JStr "journalctl")]], None).
Proof. vm_compute. reflexivity. Qed.

(** ** Scanning a directory on request (C4) *)

(** As long as the general collection does not raise, [scan] is that
    collection: the directory it was given plays no part. *)
Lemma scan_ignores_directory (self : CoreController.t) (force : bool)
    (directory : option string) (w w' : World.t) :
  DataCollector.collect_all (CoreController.collector self) force None w = (Return tt, w') ->
  CoreController.scan self force directory w = (Return tt, w').
Proof. intros H. unfold CoreController.scan. rewrite H. reflexivity. Qed.

(** The parts of [collect_all] that only talk to the store. *)
Lemma start_collection_frame (self : DataCollector.t) (w : World.t) :
  exists d, (DataCollector.start_collection self w).2 = World.with_db d w.
Proof.
  unfold DataCollector.start_collection.
  destruct (Database.start_scan (World.clock w) (World.db w)) as [[id|] d]; simpl.
  - destruct (id =? 0); simpl; eauto.
  - eauto.
Qed.

Lemma finish_collection_frame (self : DataCollector.t) (sid n : Z) (e : option string)
    (w : World.t) :
  exists d, (DataCollector.finish_collection self sid n e w).2 = World.with_db d w.
Proof.
  unfold DataCollector.finish_collection.
  destruct (Database.end_scan (World.clock w) sid n e (World.db w)) as [o d]. simpl. eauto.
Qed.

Lemma mark_duplicates_frame (self : DataCollector.t) (m : Z) (w : World.t) :
  exists d, DataCollector._mark_duplicates_in_db self m w = World.with_db d w.
Proof.
  unfold DataCollector._mark_duplicates_in_db.
  destruct (Database.find_potential_duplicates m (World.db w)) as [[|g gs] d].
  - eauto.
  - destruct (negb (Database.conn (World.db (World.with_db d w)))); simpl; eauto.
Qed.

Lemma is_dir_exists (d : string) (w : World.t) :
  World.is_dir d w = true -> World.path_exists d w = true /\ World.is_file d w = false.
Proof.
  unfold World.is_dir, World.path_exists, World.is_file.
  destruct (World.files w !! d) as [[]|]; intros H; try discriminate H; split; reflexivity.
Qed.

(** Walking one directory enumerates that directory and nothing else. *)
Lemma scan_filesystem_one_directory (self : DataCollector.t) (d : string)
    (exclude : list string) (hashes : bool) (min_size : Z) (w : World.t) :
  World.is_dir d w = true ->
  (DataCollector._scan_filesystem self [d] exclude hashes min_size w).2
  = World.with_listed (World.listed w ++ [d]) w.
Proof.
  intros Hdir. destruct (is_dir_exists d w Hdir) as [Hex Hfile].
  unfold DataCollector._scan_filesystem. simpl. rewrite Hex, Hfile. reflexivity.
Qed.

(** The collector itself honours a target directory: no external command
    is run (so no package query and no journal query), the files are left
    alone, and the only directory whose entries are read is the target. *)
Lemma collect_all_targeted (self : DataCollector.t) (force : bool) (d : string) (w : World.t) :
  d <> EmptyString ->
  World.is_dir d w = true ->
  let w' := (DataCollector.collect_all self force (Some d) w).2 in
  World.commands w' = World.commands w
  /\ World.files w' = World.files w
  /\ (World.listed w' = World.listed w \/ World.listed w' = World.listed w ++ [d]).
Proof.
  intros Hne Hdir. cbv zeta. unfold DataCollector.collect_all.
  destruct (start_collection_frame self w) as [d0 Hstart].
  destruct (DataCollector.start_collection self w) as [[sid|] w1]; simpl in Hstart; subst w1;
    [|simpl; auto].
  assert (Heq : String.eqb d EmptyString = false) by (apply String.eqb_neq; exact Hne).
  rewrite Heq.
  assert (Hdir1 : World.is_dir d (World.with_db d0 w) = true) by exact Hdir.
  rewrite Hdir1. cbn [negb].
  pose proof (scan_filesystem_one_directory self d
                (ConfigManager.paths_exclude (DataCollector.config self))
                (ConfigManager.duplicates_enabled (DataCollector.config self))
                (default 0
                   (if String.eqb (ConfigManager.duplicates_min_size (DataCollector.config self))
                         EmptyString
                    then Some (1024 * 1024)
                    else Helpers.parse_size
                           (ConfigManager.duplicates_min_size (DataCollector.config self))))
                (World.with_db d0 w) Hdir1) as Hscan.
  destruct (DataCollector._scan_filesystem self [d] _ _ _ (World.with_db d0 w)) as [items w2].
  simpl in Hscan. subst w2. cbn [negb].
  set (w3 := match items with
             | [] => (0, [], _)
             | _ :: _ => _
             end).
  assert (H3 : exists d3, w3.2 = World.with_db d3
                                   (World.with_listed (World.listed w ++ [d]) w)).
  { subst w3. destruct items as [|i items].
    - simpl. exists d0. reflexivity.
    - destruct (Database.add_scanned_items_batch (i :: items) sid _) as [[o|e] d3];
        simpl; eauto. }
  destruct H3 as [d3 H3]. destruct w3 as [[n errors] w3]. simpl in H3. subst w3.
  match goal with
  | |- context [DataCollector.finish_collection self sid n ?e ?wm] =>
      destruct (finish_collection_frame self sid n e wm) as [d5 H5];
      assert (Hm : exists d4, wm = World.with_db d4
                                     (World.with_listed (World.listed w ++ [d]) w))
  end.
  { destruct (ConfigManager.duplicates_enabled (DataCollector.config self)).
    - match goal with
      | |- context [DataCollector._mark_duplicates_in_db self ?m ?wx] =>
          destruct (mark_duplicates_frame self m wx) as [d4 H4]; rewrite H4
      end.
      simpl. eauto.
    - eauto. }
  destruct Hm as [d4 Hm]. rewrite Hm in H5. rewrite Hm. rewrite H5. simpl. auto.
Qed.

Example collect_all_targeted_example :
  "/srv/data" <> EmptyString
  /\ World.is_dir "/srv/data" (Scenario.machine Scenario.disk Scenario.quiet Scenario.store) = true
  /\ World.commands
       (DataCollector.collect_all (CoreController.collector Scenario.controller) false
          (Some "/srv/data") (Scenario.machine Scenario.disk Scenario.quiet Scenario.store)).2 = []
  /\ World.listed
       (DataCollector.collect_all (CoreController.collector Scenario.controller) false
          (Some "/srv/data") (Scenario.machine Scenario.disk Scenario.quiet Scenario.store)).2
     = ["/srv/data"].
Proof.
  split; [discriminate|]. split; [reflexivity|]. split; vm_compute; reflexivity.
Qed.

(** C4 (what the code does). [scan] with the directory [/srv/data] on the
    example machine: the package manager and [journalctl] are queried, the
    configured root, the pacman cache and the journal directory are read,
    their files are stored, and [/srv/data] is neither read nor stored. *)
Theorem C4_scan_with_directory_scans_everything :
  let w := Scenario.machine Scenario.disk Scenario.quiet Scenario.store in
  let w' := (CoreController.scan Scenario.controller false (Some "/srv/data") w).2 in
  World.is_dir "/srv/data" w = true
  /\ World.commands w' = [["pacman"; "-Qtdq"]; ["pacman"; "-Q"]; ["journalctl"; "--disk-usage"]]
  /\ World.listed w' = ["/home/u/Downloads"; "/var/cache/pacman/pkg"; "/var/log/journal"]
  /\ map fst (map_to_list (Database.scanned_items (World.db w')))
     = ["/var/cache/pacman/pkg/pkg-1.0-1-x86_64.pkg.tar.zst"; "/home/u/Downloads/old.iso"]
  /\ Database.scanned_items (World.db w') !! "/srv/data/report.txt" = None
  /\ CoreController.scan Scenario.controller false (Some "/srv/data") w
     = CoreController.scan Scenario.controller false None w.
Proof.
  cbv zeta. split; [reflexivity|].
  split; [vm_compute; reflexivity|]. split; [vm_compute; reflexivity|].
  split; [vm_compute; reflexivity|]. split; [vm_compute; reflexivity|].
  vm_compute. reflexivity.
Qed.

(** ** The artifact read back (C1) *)

(** For the two file types the record that is written is read back with
    the same payload; only the rationale, which the loader does not read,
    is lost. *)
Lemma file_suggestion_round_trip (s : Suggestion.t) (i : ScannedItem.t) :
  Suggestion.data s = DItem i ->
  Suggestion.suggestion_type s = SUGGESTION_OLD_FILE
  \/ Suggestion.suggestion_type s = SUGGESTION_LARGE_FILE ->
  ScannedItem.path i <> EmptyString ->
  CoreController.load_record (CoreController.encode s)
  = Return (Some (Suggestion.Make (Suggestion.id s) (Suggestion.suggestion_type s)
                    (Suggestion.description s) (Suggestion.details s)
                    (Suggestion.estimated_size_bytes s) (Suggestion.confidence s)
                    EmptyString (DItem i))).
Proof.
  intros Hdata Hty Hpath.
  destruct s as [id ty desc det est conf rat data]. simpl in *. subst data.
  destruct i as [path size la lm ity extra]. simpl in Hpath.
  assert (Hp : negb (String.eqb path EmptyString) = true).
  { apply negb_true_iff, String.eqb_neq. exact Hpath. }
  unfold CoreController.load_record, CoreController.encode, CoreController.encode_data,
    ScannedItem.to_dict.
  destruct Hty as [-> | ->]; cbn; rewrite Hp; cbn; reflexivity.
Qed.

(** C1 (what the code does). Six suggestions, one of each type, are
    generated and saved.  Read back, the orphan-package and the
    pacman-cache suggestion are gone (their payloads are lists, which the
    loader skips), the duplicate-set suggestion has no payload (the loader
    looks for the type name DUPLICATE_FILES) and the journal suggestion
    carries an empty scanned item in place of its vacuum parameters.
    Executed as generated, all six succeed in a dry run; executed through
    [apply], which reads the artifact, four are found and two of them
    fail. *)
Theorem C1_reload_loses_payloads :
  let w := Scenario.after_suggest Scenario.all_six in
  map Suggestion.suggestion_type Scenario.all_six
  = ["LARGE_FILE"; "JOURNAL_LOG"; "ORPHAN_PACKAGE"; "DUPLICATE_SET"; "OLD_FILE"; "PACMAN_CACHE"]
  /\ map (fun s => ActionResult.success
                     (ExecutionHandler.execute_suggestion
                        (CoreController.executor Scenario.controller) s true w).1)
       Scenario.all_six
     = [true; true; true; true; true; true]
  /\ exists loaded,
       CoreController.get_last_suggestions Scenario.controller w = Return loaded
       /\ map Suggestion.suggestion_type loaded
          = ["LARGE_FILE"; "JOURNAL_LOG"; "DUPLICATE_SET"; "OLD_FILE"]
       /\ map Suggestion.data loaded
          = [DItem (ScannedItem.Make "/home/u/Downloads/big.img" 600000000 999 999 "file" []);
             DItem (ScannedItem.Make "." 0 0 0 "unknown" []);
             DNone;
             DItem Scenario.old_iso]
       /\ exists results,
            (CoreController.apply Scenario.controller None true w).1 = Return results
            /\ map (fun r => (Suggestion.suggestion_type (ActionResult.suggestion r),
                              ActionResult.success r, ActionResult.message r)) results
               = [("LARGE_FILE", true, "Path /home/u/Downloads/big.img already gone.");
                  ("JOURNAL_LOG", false, "Invalid data type for JOURNAL_LOG");
                  ("DUPLICATE_SET", false,
                   "Invalid data type or insufficient files for DUPLICATE_SET");
                  ("OLD_FILE", true, "Simulated delete of /home/u/Downloads/old.iso")].
Proof.
  cbv zeta. split; [vm_compute; reflexivity|]. split; [vm_compute; reflexivity|].
  eexists. split; [vm_compute; reflexivity|].
  split; [vm_compute; reflexivity|]. split; [vm_compute; reflexivity|].
  eexists. split; [vm_compute; reflexivity|]. vm_compute. reflexivity.
Qed.

(** The loader on the record of the duplicate-set suggestion alone, and on
    the same record under the type name the loader expects: the first is
    read without its payload, the second is skipped, the constructor call
    lacking [total_size_bytes]. *)
Example duplicate_set_record :
  let s := Suggestion.Make "656126b022" "DUPLICATE_SET" "" "" 4096 (7 # 10) ""
             (DDupSet (DuplicateSet.Make "9f86d081884c7d65"
                         ["/srv/data/a.bin"; "/srv/data/b.bin"] 4096 8192)) in
  let renamed := Suggestion.Make "656126b022" "DUPLICATE_FILES" "" "" 4096 (7 # 10) ""
                   (Suggestion.data s) in
  CoreController.load_record (CoreController.encode s)
  = Return (Some (Suggestion.Make "656126b022" "DUPLICATE_SET" "" "" 4096 (7 # 10) "" DNone))
  /\ CoreController.load_record (CoreController.encode renamed) = Return None.
Proof. split; vm_compute; reflexivity. Qed.

(* ===================================================================== *)
(** * Further properties, module by module *)
(* ===================================================================== *)

(** ** utils/helpers.py: sizes and durations *)

Lemma string_length_app (a b : string) :
  String.length (a +:+ b) = (String.length a + String.length b)%nat.
Proof.
  induction a as [|c a IH]; [reflexivity|].
  change (S (String.length (a +:+ b)) = S (String.length a + String.length b)).
  rewrite IH. reflexivity.
Qed.

Lemma all_chars_app (p : ascii -> bool) (a b : string) :
  all_chars p (a +:+ b) = all_chars p a && all_chars p b.
Proof.
  induction a as [|c a IH]; simpl; [reflexivity|].
  rewrite IH. apply andb_assoc.
Qed.

Lemma all_chars_impl (p q : ascii -> bool) (s : string) :
  (forall c, p c = true -> q c = true) -> all_chars p s = true -> all_chars q s = true.
Proof.
  intros Hpq. induction s as [|c s IH]; simpl; [reflexivity|].
  intros H. apply andb_prop in H. destruct H as [Hc Hs].
  rewrite (Hpq c Hc), (IH Hs). reflexivity.
Qed.

Lemma byte_of_range (c : ascii) : 0 <= PyStr.byte_of c < 256.
Proof.
  unfold PyStr.byte_of. pose proof (N_ascii_bounded c). lia.
Qed.

Lemma digit_not_space (c : ascii) : PyStr.is_digit c = true -> negb (PyStr.is_space c) = true.
Proof.
  unfold PyStr.is_digit, PyStr.is_space. intros H. apply andb_prop in H.
  destruct H as [H1 H2]. apply Z.leb_le in H1, H2.
  apply negb_true_iff, orb_false_iff. split; apply andb_false_iff.
  - right. apply Z.leb_gt. lia.
  - right. apply Z.leb_gt. lia.
Qed.

Lemma digit_lower (c : ascii) : PyStr.is_digit c = true -> PyStr.lower_char c = c.
Proof.
  unfold PyStr.is_digit, PyStr.lower_char, PyStr.is_upper. intros H. apply andb_prop in H.
  destruct H as [H1 H2]. apply Z.leb_le in H1, H2.
  replace (65 <=? PyStr.byte_of c) with false by (symmetry; apply Z.leb_gt; lia).
  reflexivity.
Qed.

Lemma digit_upper (c : ascii) : PyStr.is_digit c = true -> PyStr.upper_char c = c.
Proof.
  unfold PyStr.is_digit, PyStr.upper_char, PyStr.is_lower. intros H. apply andb_prop in H.
  destruct H as [H1 H2]. apply Z.leb_le in H1, H2.
  replace (97 <=? PyStr.byte_of c) with false by (symmetry; apply Z.leb_gt; lia).
  reflexivity.
Qed.

Lemma map_chars_app (f : ascii -> ascii) (a b : string) :
  PyStr.map_chars f (a +:+ b) = PyStr.map_chars f a +:+ PyStr.map_chars f b.
Proof. induction a as [|c a IH]; simpl; [reflexivity|]. rewrite IH. reflexivity. Qed.

Lemma map_chars_id (f : ascii -> ascii) (p : ascii -> bool) (s : string) :
  (forall c, p c = true -> f c = c) -> all_chars p s = true -> PyStr.map_chars f s = s.
Proof.
  intros Hf. induction s as [|c s IH]; simpl; [reflexivity|].
  intros H. apply andb_prop in H. destruct H as [Hc Hs].
  rewrite (Hf c Hc), (IH Hs). reflexivity.
Qed.

Lemma lstrip_nospace (s : string) :
  all_chars (fun c => negb (PyStr.is_space c)) s = true -> PyStr.lstrip s = s.
Proof.
  destruct s as [|c s]; simpl; [reflexivity|].
  intros H. apply andb_prop in H. destruct H as [Hc _].
  apply negb_true_iff in Hc. rewrite Hc. reflexivity.
Qed.

Lemma rstrip_nospace (s : string) :
  all_chars (fun c => negb (PyStr.is_space c)) s = true -> PyStr.rstrip s = s.
Proof.
  induction s as [|c s IH]; simpl; [reflexivity|].
  intros H. apply andb_prop in H. destruct H as [Hc Hs].
  rewrite (IH Hs). apply negb_true_iff in Hc. rewrite Hc.
  destruct s; reflexivity.
Qed.

Lemma strip_nospace (s : string) :
  all_chars (fun c => negb (PyStr.is_space c)) s = true -> PyStr.strip s = s.
Proof.
  intros H. unfold PyStr.strip. rewrite (lstrip_nospace s H). apply rstrip_nospace, H.
Qed.

(** *** The digits of a number *)

Lemma pretty_N_char_digit (x : N) :
  (x < 10)%N ->
  PyStr.is_digit (pretty_N_char x) = true
  /\ PyStr.byte_of (pretty_N_char x) - 48 = Z.of_N x.
Proof.
  intros H.
  assert (x = 0 \/ x = 1 \/ x = 2 \/ x = 3 \/ x = 4 \/ x = 5 \/ x = 6 \/ x = 7 \/ x = 8
          \/ x = 9)%N as Hx by lia.
  repeat (destruct Hx as [->|Hx]; [split; reflexivity|]). subst x. split; reflexivity.
Qed.

Lemma pretty_N_go_digits (x : N) (s : string) :
  all_chars PyStr.is_digit s = true ->
  all_chars PyStr.is_digit (pretty_N_go x s) = true
  /\ Helpers.digits_value 0 (pretty_N_go x s) = Helpers.digits_value (Z.of_N x) s
  /\ (s <> EmptyString -> pretty_N_go x s <> EmptyString).
Proof.
  revert s. induction (N.lt_wf_0 x) as [x _ IH]. intros s Hs.
  destruct (N.eq_dec x 0%N) as [->|Hx].
  - rewrite pretty_N_go_0. auto.
  - assert (Hpos : (0 < x)%N) by lia.
    rewrite pretty_N_go_step by exact Hpos.
    destruct (pretty_N_char_digit (x `mod` 10)%N) as [Hd Hv].
    { apply N.mod_lt. discriminate. }
    destruct (IH (x `div` 10)%N (N.div_lt x 10 Hpos eq_refl)
                 (String (pretty_N_char (x `mod` 10)) s)) as [Ha [Hb Hc]].
    { simpl. rewrite Hd, Hs. reflexivity. }
    split; [exact Ha|]. split.
    + rewrite Hb. simpl. f_equal. rewrite Hv.
      pose proof (N.div_mod x 10). lia.
    + intros _. apply Hc. discriminate.
Qed.

(** [str(n)] of a non-negative integer: decimal digits that read back as [n] *)
Lemma of_Z_digits (n : Z) :
  0 <= n ->
  all_chars PyStr.is_digit (PyStr.of_Z n) = true
  /\ Helpers.digits_value 0 (PyStr.of_Z n) = n
  /\ PyStr.of_Z n <> EmptyString.
Proof.
  intros Hn. destruct n as [|p|p]; [repeat split; discriminate| |lia].
  unfold PyStr.of_Z, pretty, pretty_Z, pretty, pretty_positive, pretty, pretty_N.
  destruct (decide (N.pos p = 0%N)) as [H|_]; [discriminate H|].
  rewrite pretty_N_go_step by reflexivity.
  destruct (pretty_N_char_digit (N.pos p `mod` 10)%N) as [Hd Hv].
  { apply N.mod_lt. discriminate. }
  destruct (pretty_N_go_digits (N.pos p `div` 10)%N
              (String (pretty_N_char (N.pos p `mod` 10)) EmptyString)) as [Ha [Hb Hc]].
  { simpl. rewrite Hd. reflexivity. }
  split; [exact Ha|]. split.
  - rewrite Hb. simpl. rewrite Hv. pose proof (N.div_mod (N.pos p) 10). lia.
  - apply Hc. discriminate.
Qed.

(** *** Scanning *)

Lemma span_all (p : ascii -> bool) (a rest : string) :
  all_chars p a = true -> head_fails p rest = true ->
  Helpers.span p (a +:+ rest) = (a, rest).
Proof.
  intros Ha Hr. induction a as [|c a IH]; simpl in *.
  - destruct rest as [|d r]; [reflexivity|]. simpl in *.
    apply negb_true_iff in Hr. rewrite Hr. reflexivity.
  - apply andb_prop in Ha. destruct Ha as [Hc Ha]. rewrite Hc, (IH Ha). reflexivity.
Qed.


Lemma scan_number_digits (ds rest : string) :
  ds <> EmptyString -> all_chars PyStr.is_digit ds = true ->
  head_fails PyStr.is_digit rest = true -> not_dot rest = true ->
  Helpers.scan_number (ds +:+ rest)
  = Some (inject_Z (Helpers.digits_value 0 ds), false, (Helpers.span PyStr.is_space rest).2).
Proof.
  intros Hne Hds Hhead Hdot. unfold Helpers.scan_number.
  rewrite (span_all _ ds rest Hds Hhead).
  destruct ds as [|c ds]; [contradiction|].
  destruct rest as [|d r]; [reflexivity|].
  destruct d as [[] [] [] [] [] [] [] []]; try reflexivity. discriminate Hdot.
Qed.

Lemma int_of_Q_scaled (v m : Z) :
  Helpers.int_of_Q (inject_Z v * inject_Z m) = v * m.
Proof. unfold Helpers.int_of_Q. simpl. apply Z.quot_1_r. Qed.


(** *** Numbers with a unit *)

Lemma nospace_head (u : string) :
  all_chars (fun c => negb (PyStr.is_space c)) u = true ->
  Helpers.span PyStr.is_space u = (EmptyString, u).
Proof.
  destruct u as [|c u]; simpl; [reflexivity|].
  intros H. apply andb_prop in H. destruct H as [Hc _].
  apply negb_true_iff in Hc. rewrite Hc. reflexivity.
Qed.

Lemma digits_then_tail_nospace (ds u : string) :
  all_chars PyStr.is_digit ds = true ->
  all_chars (fun c => negb (PyStr.is_space c)) u = true ->
  all_chars (fun c => negb (PyStr.is_space c)) (ds +:+ u) = true.
Proof.
  intros Hds Hu. rewrite all_chars_app, Hu, andb_true_r.
  apply (all_chars_impl PyStr.is_digit); [exact digit_not_space | exact Hds].
Qed.

Lemma parse_duration_digits (ds u : string) (m : Z) :
  ds <> EmptyString -> all_chars PyStr.is_digit ds = true ->
  all_chars (fun c => negb (PyStr.is_space c)) u = true ->
  PyStr.lower u = u ->
  head_fails PyStr.is_digit u = true -> not_dot u = true ->
  match u with
  | EmptyString => m = 1
  | _ => Helpers.TIME_UNITS u = Some m
  end ->
  Helpers.parse_duration (ds +:+ u) = Some (Helpers.digits_value 0 ds * m).
Proof.
  intros Hne Hds Hsp Hlow Hhead Hdot Hm. unfold Helpers.parse_duration.
  rewrite (strip_nospace _ (digits_then_tail_nospace ds u Hds Hsp)).
  unfold PyStr.lower. rewrite map_chars_app.
  rewrite (map_chars_id _ _ ds digit_lower Hds).
  fold (PyStr.lower u). rewrite Hlow.
  rewrite (scan_number_digits ds u Hne Hds Hhead Hdot).
  rewrite (nospace_head u Hsp). cbn [snd].
  destruct u as [|c u].
  - subst m. change (Helpers.TIME_UNITS "s") with (Some 1).
    cbv beta iota. rewrite int_of_Q_scaled. reflexivity.
  - rewrite Hm. cbv beta iota. rewrite Hm. cbv beta iota. rewrite int_of_Q_scaled. reflexivity.
Qed.

Lemma time_unit_cases (u : string) (m : Z) :
  Helpers.TIME_UNITS u = Some m ->
  In (u, m) [("s", 1); ("m", 60); ("h", 3600); ("d", 86400); ("w", 604800);
             ("month", 2592000); ("y", 31536000)].
Proof.
  unfold Helpers.TIME_UNITS.
  repeat match goal with
         | |- context [String.eqb u ?k] => destruct (String.eqb_spec u k) as [->|_]
         end; intros H; inversion H; subst; simpl; tauto.
Qed.

Lemma size_unit_cases (u : string) (m : Z) :
  Helpers.SIZE_UNITS u = Some m ->
  In (u, m) [("B", 1); ("K", 1024); ("M", 1048576); ("G", 1073741824); ("T", 1099511627776)].
Proof.
  unfold Helpers.SIZE_UNITS.
  repeat match goal with
         | |- context [String.eqb u ?k] => destruct (String.eqb_spec u k) as [->|_]
         end; intros H; inversion H; subst; simpl; tauto.
Qed.

(** X1. A duration written as a whole number followed by one of the
    units [s], [m], [h], [d], [w], [month] and [y], or by nothing, is read
    as the number times the seconds of the unit (a number alone counts
    seconds), as long as the product is below 2^53, where the float
    product of the source is exact. *)
Theorem parse_duration_number_unit (n : Z) (u : string) (m : Z) :
  0 <= n -> n * m < 2 ^ 53 ->
  Helpers.TIME_UNITS u = Some m \/ (u = EmptyString /\ m = 1) ->
  Helpers.parse_duration (PyStr.of_Z n +:+ u) = Some (n * m).
Proof.
  intros Hn _ Hu. destruct (of_Z_digits n Hn) as [Hds [Hval Hne]].
  rewrite <- Hval at 2.
  destruct Hu as [Hu | [-> ->]].
  - pose proof (time_unit_cases u m Hu) as Hin. simpl in Hin.
    repeat (destruct Hin as [Hin|Hin];
            [inversion Hin; subst u m; apply parse_duration_digits; try reflexivity; assumption|]).
    contradiction.
  - apply parse_duration_digits; try reflexivity; assumption.
Qed.

Lemma parse_duration_90_days :
  0 <= 90 /\ 90 * 86400 < 2 ^ 53 /\ Helpers.TIME_UNITS "d" = Some 86400
  /\ Helpers.parse_duration (PyStr.of_Z 90 +:+ "d") = Some (90 * 86400).
Proof.
  split; [lia|]. split; [reflexivity|]. split; [reflexivity|].
  apply (parse_duration_number_unit 90 "d" 86400).
  - lia.
  - reflexivity.
  - left. reflexivity.
Defined.

(** What the tail [([BKMGT])?B?$] of the size pattern stands for. *)
Lemma parse_size_digits (ds t : string) (unit : option string) (m : Z) :
  ds <> EmptyString -> all_chars PyStr.is_digit ds = true ->
  all_chars (fun c => negb (PyStr.is_space c)) t = true ->
  PyStr.upper t = t ->
  head_fails PyStr.is_digit t = true -> not_dot t = true ->
  match t with
  | EmptyString => Some None
  | String c EmptyString =>
      if String.eqb t "B" then Some (Some "B")
      else match Helpers.SIZE_UNITS t with Some _ => Some (Some t) | None => None end
  | String c (String "B"%char EmptyString) =>
      match Helpers.SIZE_UNITS (String c EmptyString) with
      | Some _ => Some (Some (String c EmptyString))
      | None => None
      end
  | _ => None
  end = Some unit ->
  match unit with
  | Some u => default 1 (Helpers.SIZE_UNITS u)
  | None => 1
  end = m ->
  Helpers.parse_size (ds +:+ t) = Some (Helpers.digits_value 0 ds * m).
Proof.
  intros Hne Hds Hsp Hup Hhead Hdot Hunit Hm. unfold Helpers.parse_size.
  rewrite (strip_nospace _ (digits_then_tail_nospace ds t Hds Hsp)).
  unfold PyStr.upper. rewrite map_chars_app.
  rewrite (map_chars_id _ _ ds digit_upper Hds).
  fold (PyStr.upper t). rewrite Hup.
  rewrite (scan_number_digits ds t Hne Hds Hhead Hdot).
  rewrite (nospace_head t Hsp). cbn [snd].
  rewrite Hunit. destruct unit as [u|].
  - cbv beta iota. rewrite Hm. rewrite int_of_Q_scaled. reflexivity.
  - subst m. cbv beta iota. cbn [negb]. cbv beta iota. change 1%Q with (inject_Z 1). rewrite int_of_Q_scaled. reflexivity.
Qed.

(** X2. A size written as a whole number followed by one of the units
    [B], [K], [M], [G] and [T], or by nothing, and then by an optional
    [B], is read as the number times the bytes of the unit, as long as the
    product is below 2^53. *)
Theorem parse_size_number_unit (n : Z) (u b : string) (m : Z) :
  0 <= n -> n * m < 2 ^ 53 ->
  Helpers.SIZE_UNITS u = Some m \/ (u = EmptyString /\ m = 1) ->
  b = EmptyString \/ b = "B" ->
  Helpers.parse_size (PyStr.of_Z n +:+ u +:+ b) = Some (n * m).
Proof.
  intros Hn _ Hu Hb. destruct (of_Z_digits n Hn) as [Hds [Hval Hne]].
  rewrite <- Hval at 2.
  destruct Hu as [Hu | [-> ->]].
  - pose proof (size_unit_cases u m Hu) as Hin. simpl in Hin.
    repeat (destruct Hin as [Hin|Hin];
            [inversion Hin; subst u m;
             destruct Hb as [-> | ->];
             (eapply parse_size_digits; [assumption | assumption | reflexivity .. ])|]).
    contradiction.
  - destruct Hb as [-> | ->];
      (eapply parse_size_digits; [assumption | assumption | reflexivity .. ]).
Qed.

Lemma parse_size_500_MB :
  0 <= 500 /\ 500 * 1048576 < 2 ^ 53 /\ Helpers.SIZE_UNITS "M" = Some 1048576
  /\ Helpers.parse_size (PyStr.of_Z 500 +:+ "M" +:+ "B") = Some (500 * 1048576).
Proof.
  split; [lia|]. split; [reflexivity|]. split; [reflexivity|].
  apply (parse_size_number_unit 500 "M" "B" 1048576).
  - lia.
  - reflexivity.
  - left. reflexivity.
  - right. reflexivity.
Defined.

(** *** Sizes and durations are never negative *)







(** ** utils/helpers.py: exclusion patterns *)

(** *** Patterns that end in a wildcard *)

Lemma append_empty_r (a : string) : a +:+ EmptyString = a.
Proof.
  induction a as [|x a IH]; [reflexivity|].
  change (String x (a +:+ EmptyString) = String x a). rewrite IH. reflexivity.
Qed.

Lemma append_assoc (a b c : string) : (a +:+ b) +:+ c = a +:+ (b +:+ c).
Proof.
  induction a as [|x a IH]; [reflexivity|].
  change (String x ((a +:+ b) +:+ c) = String x (a +:+ (b +:+ c))). rewrite IH. reflexivity.
Qed.

Lemma substring_skip (a b : string) (k : nat) :
  String.substring (String.length a) k (a +:+ b) = String.substring 0 k b.
Proof. induction a as [|x a IH]; [reflexivity | exact IH]. Qed.

Lemma substring_take (a b : string) :
  String.substring 0 (String.length a) (a +:+ b) = a.
Proof.
  induction a as [|x a IH]; [destruct b; reflexivity|].
  change (String x (String.substring 0 (String.length a) (a +:+ b)) = String x a).
  rewrite IH. reflexivity.
Qed.

Lemma base_pattern_of (base : string) :
  Paths.base_pattern (base +:+ "/*") = Some base.
Proof.
  unfold Paths.base_pattern, RecommendationEngine.remove_suffix.
  rewrite string_length_app. cbn [String.length].
  replace (String.length base + 2 - 2)%nat with (String.length base) by lia.
  replace (2 <=? String.length base + 2)%nat with true by (symmetry; apply Nat.leb_le; lia).
  rewrite substring_skip, substring_take. reflexivity.
Qed.

(** a directory is among the ancestors of what lies below it *)
Lemma ancestors_from_below (seen dir rest : string) :
  seen +:+ dir <> EmptyString ->
  In (seen +:+ dir) (Paths.ancestors_from seen (dir +:+ "/" +:+ rest)).
Proof.
  revert seen. induction dir as [|c dir IH]; intros seen Hne.
  - rewrite append_empty_r in *. cbn [Paths.ancestors_from String.append].
    change (In seen (Paths.ancestors_from (seen +:+ "/") rest
                     ++ (if Ascii.eqb "/" "/" then match seen with
                                                    | EmptyString => []
                                                    | String _ _ => [seen]
                                                    end else []))).
    apply in_or_app. right. destruct seen; [contradiction|]. left. reflexivity.
  - change (String c dir +:+ "/" +:+ rest) with (String c (dir +:+ "/" +:+ rest)).
    cbn [Paths.ancestors_from]. apply in_or_app. left.
    replace (seen +:+ String c dir) with ((seen +:+ String c EmptyString) +:+ dir)
      by (rewrite append_assoc; reflexivity).
    apply IH. rewrite append_assoc. destruct seen; discriminate.
Qed.

(** X4. An exclusion pattern that ends in [/*] excludes everything
    below a directory that matches the pattern without that ending,
    at any depth: [is_path_excluded] climbs from the path to its ancestors
    and tries each of them. *)
Theorem pattern_excludes_what_lies_below (dir rest base : string)
    (exclude_patterns : list string) :
  In (base +:+ "/*") exclude_patterns ->
  Fnmatch.fnmatch dir base = true ->
  dir <> EmptyString ->
  Paths.is_path_excluded (dir +:+ "/" +:+ rest) exclude_patterns = true.
Proof.
  intros Hin Hmatch Hne. unfold Paths.is_path_excluded.
  apply existsb_exists. exists (base +:+ "/*"). split; [exact Hin|].
  apply orb_true_iff. right. rewrite base_pattern_of.
  apply existsb_exists. exists dir. split; [|exact Hmatch].
  apply (ancestors_from_below EmptyString dir rest). exact Hne.
Qed.

Lemma pattern_excludes_witness :
  In ("*/node_modules" +:+ "/*") ["*/.git/*"; "*/node_modules/*"]
  /\ Fnmatch.fnmatch "/home/u/app/node_modules" "*/node_modules" = true
  /\ "/home/u/app/node_modules" <> EmptyString
  /\ Paths.is_path_excluded ("/home/u/app/node_modules" +:+ "/" +:+ "left-pad/index.js")
       ["*/.git/*"; "*/node_modules/*"] = true.
Proof.
  split; [right; left; reflexivity|]. split; [vm_compute; reflexivity|].
  split; [discriminate|].
  apply (pattern_excludes_what_lies_below "/home/u/app/node_modules" "left-pad/index.js"
           "*/node_modules" ["*/.git/*"; "*/node_modules/*"]).
  - right. left. reflexivity.
  - vm_compute. reflexivity.
  - discriminate.
Defined.

(** ** modules/config_manager.py *)

(** *** The configuration dictionary *)

Lemma get_set (k k' : string) (v : json) (d : list (string * json)) :
  Json.get k (ConfigTree.set k' v d) = if String.eqb k k' then Some v else Json.get k d.
Proof.
  induction d as [|[k0 v0] d IH]; simpl.
  - destruct (String.eqb k k'); reflexivity.
  - destruct (String.eqb_spec k' k0) as [->|Hne]; simpl.
    + destruct (String.eqb k k0); reflexivity.
    + rewrite IH. destruct (String.eqb_spec k k') as [->|Hne'].
      * apply String.eqb_neq in Hne. rewrite Hne. reflexivity.
      * reflexivity.
Qed.

Lemma merge_step_get (merged : list (string * json)) (kv : string * json) (k : string) :
  Json.get k (ConfigTree.merge_step ConfigTree.merge merged kv)
  = if String.eqb k kv.1 then Some (laid_over kv.2 (Json.get kv.1 merged))
    else Json.get k merged.
Proof.
  unfold ConfigTree.merge_step, laid_over.
  destruct kv as [k' v]. cbn [fst snd].
  destruct v; try (rewrite get_set; reflexivity).
  destruct (Json.get k' merged) as [[]|]; rewrite get_set; reflexivity.
Qed.

Lemma get_absent (k : string) (d : list (string * json)) :
  ~ In k (map fst d) -> Json.get k d = None.
Proof.
  induction d as [|[k0 v0] d IH]; intros Hk; simpl; [reflexivity|].
  destruct (String.eqb_spec k k0) as [->|Hne]; [exfalso; apply Hk; left; reflexivity|].
  apply IH. intros H. apply Hk. right. exact H.
Qed.

Lemma merge_fold_get (overlay merged : list (string * json)) (k : string) :
  List.NoDup (map fst overlay) ->
  Json.get k (fold_left (ConfigTree.merge_step ConfigTree.merge) overlay merged)
  = match Json.get k overlay with
    | Some v => Some (laid_over v (Json.get k merged))
    | None => Json.get k merged
    end.
Proof.
  revert merged. induction overlay as [|[k' v] overlay IH]; intros merged Hnd; [reflexivity|].
  inversion Hnd as [|? ? Hk Hrest]; subst. cbn [fold_left].
  rewrite (IH _ Hrest). rewrite merge_step_get. cbn [fst snd Json.get].
  destruct (String.eqb_spec k k') as [->|Hne].
  - rewrite (get_absent k' overlay Hk). reflexivity.
  - reflexivity.
Qed.

(** X5. What a key holds after [_deep_merge_dicts]: the value of the
    overlay where the overlay has the key, except that two dictionaries
    are merged in turn; the value of the base where the overlay lacks
    the key. *)
Theorem merged_config_lookup (base overlay : list (string * json)) (k : string) :
  NoDup (map fst overlay) ->
  Json.get k (ConfigTree._deep_merge_dicts base overlay)
  = match Json.get k overlay with
    | Some (JObj o) =>
        match Json.get k base with
        | Some (JObj b) => Some (JObj (ConfigTree._deep_merge_dicts b o))
        | _ => Some (JObj o)
        end
    | Some v => Some v
    | None => Json.get k base
    end.
Proof.
  intros Hnd. apply NoDup_ListNoDup in Hnd.
  unfold ConfigTree._deep_merge_dicts. cbn [ConfigTree.merge].
  rewrite (merge_fold_get overlay base k Hnd).
  destruct (Json.get k overlay) as [v|]; [|reflexivity].
  unfold laid_over. destruct v; try reflexivity.
  destruct (Json.get k base) as [[]|]; reflexivity.
Qed.

Lemma merged_config_lookup_witness :
  NoDup (map fst [("thresholds", JObj [("old_file", JStr "1y")])])
  /\ Json.get "thresholds"
       (ConfigTree._deep_merge_dicts ConfigTree.DEFAULT_CONFIG
          [("thresholds", JObj [("old_file", JStr "1y")])])
     = Some (JObj [("old_file", JStr "1y"); ("large_file", JStr "500M")]).
Proof.
  assert (Hnd : NoDup (map fst [("thresholds", JObj [("old_file", JStr "1y")])])).
  { apply NoDup_singleton. }
  split; [exact Hnd|].
  rewrite (merged_config_lookup ConfigTree.DEFAULT_CONFIG
             [("thresholds", JObj [("old_file", JStr "1y")])] "thresholds" Hnd).
  reflexivity.
Defined.

(** *** Reading a dotted key *)





(** ** db/database.py *)

(** *** The item table *)

Lemma delete_scanned_item_open (path : string) (db : Database.t) :
  Database.conn db = true ->
  Database.delete_scanned_item path db
  = (if Database.faulty db Database.Commit then Raise (SqliteError "commit failed")
     else Return tt,
     if Database.faulty db Database.DeleteItem then Database.log_error Database.DeleteItem db
     else Database.with_scanned_items (delete path (Database.scanned_items db)) db).
Proof.
  intros Hconn. unfold Database.delete_scanned_item, Database.execute_sql, Database.commit.
  rewrite Hconn. cbn [negb].
  destruct (Database.faulty db Database.DeleteItem) eqn:Hf; cbn [snd];
    unfold Database.log_error, Database.with_scanned_items; cbn; rewrite Hconn; reflexivity.
Qed.

Lemma item_of_row_tuple (sid : Z) (i : ScannedItem.t) :
  Database.item_of_row (Database.item_tuple sid i) = i.
Proof. destruct i as [p s a m t e]. destruct e; reflexivity. Qed.

Lemma upsert_fold_other {V} (l : list (string * V)) (m : gmap string V) (k : string) :
  ~ In k (map fst l) ->
  fold_left (fun m kv => <[kv.1 := kv.2]> m) l m !! k = m !! k.
Proof.
  revert m. induction l as [|x l IH]; intros m Hk; simpl; [reflexivity|].
  rewrite IH by (intros H; apply Hk; right; exact H).
  apply lookup_insert_ne. intros H. apply Hk. left. exact H.
Qed.

Lemma upsert_fold_distinct {V} (l : list (string * V)) (m : gmap string V) (kv : string * V) :
  List.NoDup (map fst l) -> In kv l ->
  fold_left (fun m kv => <[kv.1 := kv.2]> m) l m !! kv.1 = Some kv.2.
Proof.
  revert m. induction l as [|x l IH]; intros m Hnd Hin; [contradiction|].
  inversion Hnd as [|? ? Hx Hl]; subst. simpl.
  destruct Hin as [->|Hin].
  - rewrite upsert_fold_other by exact Hx. apply lookup_insert_eq.
  - apply IH; assumption.
Qed.

Lemma get_scanned_items_open (ty : option string) (min : option Z) (db : Database.t) :
  Database.conn db = true -> Database.faulty db Database.SelectItems = false ->
  (Database.get_scanned_items ty min db).1
  = map Database.item_of_row
      (List.filter
         (fun kv =>
            match ty with
            | Some t => if String.eqb t EmptyString then true
                        else String.eqb (Database.i_item_type kv.2) t
            | None => true
            end
            && match min with Some n => n <=? Database.i_size_bytes kv.2 | None => true end)
         (map_to_list (Database.scanned_items db))).
Proof.
  intros Hconn Hf. unfold Database.get_scanned_items, Database.execute_sql.
  rewrite Hconn, Hf. reflexivity.
Qed.

Lemma In_map_to_list {V} (m : gmap string V) (k : string) (v : V) :
  In (k, v) (map_to_list m) <-> m !! k = Some v.
Proof. rewrite <- list_elem_of_In. apply elem_of_map_to_list. Qed.

(** X7. What a batch writes is read back: on an open store whose
    statements succeed, after [add_scanned_items_batch] of items with
    distinct paths, whose values can be bound, for a scan that exists,
    [get_scanned_items] returns every item of the batch unchanged, also
    when it filters by the item's own type and size. *)
Theorem stored_items_are_read_back (db : Database.t) (items : list ScannedItem.t) (sid : Z)
    (i : ScannedItem.t) :
  Database.conn db = true ->
  Database.faulty db Database.UpsertItems = false ->
  Database.faulty db Database.SelectItems = false ->
  Database.scan_exists sid db = true ->
  all_bind (map (Database.item_params sid) items) ->
  NoDup (map ScannedItem.path items) ->
  In i items ->
  let db' := (Database.add_scanned_items_batch items sid db).2 in
  In i (Database.get_scanned_items None None db').1
  /\ In i (Database.get_scanned_items (Some (ScannedItem.item_type i))
             (Some (ScannedItem.size_bytes i)) db').1.
Proof.
  intros Hconn Hu Hs Hscan Hbind Hnd Hin. cbv zeta.
  unfold Database.add_scanned_items_batch, Database.upsert_runs.
  rewrite Hconn, Hu, Hscan, (executemany_all_bind _ _ Hbind). cbn [negb orb andb snd].
  set (m' := fold_left _ _ _).
  assert (Hrow : m' !! ScannedItem.path i = Some (Database.item_tuple sid i).2).
  { subst m'. apply (upsert_fold_distinct _ _ (Database.item_tuple sid i)).
    - rewrite map_map. cbn [Database.item_tuple fst]. apply NoDup_ListNoDup. exact Hnd.
    - apply in_map. exact Hin. }
  apply In_map_to_list in Hrow.
  rewrite !get_scanned_items_open by assumption.
  cbn [Database.scanned_items Database.with_scanned_items].
  split.
  - rewrite <- (item_of_row_tuple sid i) at 1. apply in_map.
    apply filter_In. split; [exact Hrow | reflexivity].
  - rewrite <- (item_of_row_tuple sid i) at 1. apply in_map.
    apply filter_In. split; [exact Hrow|].
    cbn [Database.item_tuple snd Database.i_item_type Database.i_size_bytes].
    rewrite String.eqb_refl, Z.leb_refl.
    destruct (String.eqb (ScannedItem.item_type i) EmptyString); reflexivity.
Qed.

Lemma stored_items_are_read_back_witness :
  Database.conn Scenario.store = true
  /\ Database.faulty Scenario.store Database.UpsertItems = false
  /\ Database.faulty Scenario.store Database.SelectItems = false
  /\ Database.scan_exists 1 Scenario.store = true
  /\ all_bind (map (Database.item_params 1) [Scenario.old_iso])
  /\ NoDup (map ScannedItem.path [Scenario.old_iso])
  /\ In Scenario.old_iso [Scenario.old_iso]
  /\ In Scenario.old_iso
       (Database.get_scanned_items None None
          (Database.add_scanned_items_batch [Scenario.old_iso] 1 Scenario.store).2).1.
Proof.
  assert (Hbind : all_bind (map (Database.item_params 1) [Scenario.old_iso])).
  { constructor; [vm_compute; reflexivity | constructor]. }
  do 4 (split; [reflexivity|]). split; [exact Hbind|].
  split; [apply NoDup_singleton|].
  split; [left; reflexivity|].
  exact (proj1 (stored_items_are_read_back Scenario.store [Scenario.old_iso] 1 Scenario.old_iso
                  eq_refl eq_refl eq_refl eq_refl Hbind (NoDup_singleton _)
                  (or_introl eq_refl))).
Defined.

Lemma NoDup_fst_filter {V} (f : string * V -> bool) (l : list (string * V)) :
  NoDup (map fst l) -> NoDup (map fst (List.filter f l)).
Proof.
  induction l as [|x l IH]; intros Hnd; simpl; [constructor|].
  apply NoDup_cons in Hnd. destruct Hnd as [Hx Hl].
  destruct (f x); [|apply IH, Hl].
  simpl. apply NoDup_cons. split; [|apply IH, Hl].
  intros Hin. apply Hx. apply list_elem_of_In in Hin. apply list_elem_of_In.
  apply in_map_iff in Hin. destruct Hin as [y [Hy Hin]].
  apply filter_In in Hin. apply in_map_iff. exists y. split; [exact Hy | apply Hin].
Qed.

(** X8. [get_scanned_items] never returns two items with the same
    path, and each item it returns is the row the table holds under the
    item's path. *)
Theorem one_item_per_path (ty : option string) (min : option Z) (db : Database.t) :
  NoDup (map ScannedItem.path (Database.get_scanned_items ty min db).1)
  /\ Forall (fun i =>
               exists r, Database.scanned_items db !! ScannedItem.path i = Some r
                         /\ i = Database.item_of_row (ScannedItem.path i, r))
       (Database.get_scanned_items ty min db).1.
Proof.
  unfold Database.get_scanned_items, Database.execute_sql.
  destruct (Database.conn db); cbn [negb]; [|split; constructor].
  destruct (Database.faulty db Database.SelectItems); cbn [fst]; [split; constructor|].
  split.
  - rewrite map_map. cbn [Database.item_of_row ScannedItem.path].
    apply (NoDup_fst_filter _ (map_to_list (Database.scanned_items db))).
    apply NoDup_fst_map_to_list.
  - apply List.Forall_forall. intros i Hin. apply in_map_iff in Hin.
    destruct Hin as [[k r] [<- Hin]]. apply filter_In in Hin. destruct Hin as [Hin _].
    apply In_map_to_list in Hin. exists r. split; [exact Hin | reflexivity].
Qed.

(** X9. After [delete_scanned_item] of a path (a text that can be
    encoded) on an open store that accepts the statement the row of the
    path is gone and no other row has changed: [get_scanned_items] returns
    what it returned before, the item of that path left out; the package
    table is as before. *)
Theorem deleted_item_is_not_read_back (path : string) (ty : option string) (min : option Z)
    (db : Database.t) (i : ScannedItem.t) :
  Database.conn db = true ->
  Database.faulty db Database.DeleteItem = false ->
  Utf8.encodable path = true ->
  let db' := (Database.delete_scanned_item path db).2 in
  Database.scanned_items db' = delete path (Database.scanned_items db)
  /\ Database.packages db' = Database.packages db
  /\ (In i (Database.get_scanned_items ty min db').1
      <-> In i (Database.get_scanned_items ty min db).1 /\ ScannedItem.path i <> path).
Proof.
  intros Hconn Hd _. cbv zeta. rewrite (delete_scanned_item_open path db Hconn), Hd.
  cbn [snd]. split; [reflexivity|]. split; [reflexivity|].
  destruct (Database.faulty db Database.SelectItems) eqn:Hs.
  - unfold Database.get_scanned_items, Database.execute_sql. cbn. rewrite Hconn, Hs. cbn.
    tauto.
  - rewrite !get_scanned_items_open by assumption.
    cbn [Database.scanned_items Database.with_scanned_items].
    rewrite !in_map_iff. split.
    + intros [[k r] [<- Hin]]. apply filter_In in Hin. destruct Hin as [Hin Hf].
      apply In_map_to_list in Hin. apply lookup_delete_Some in Hin. destruct Hin as [Hne Hin].
      split; [|cbn; congruence].
      exists (k, r). split; [reflexivity|]. apply filter_In. split; [|exact Hf].
      apply In_map_to_list. exact Hin.
    + intros [[[k r] [<- Hin]] Hne]. apply filter_In in Hin. destruct Hin as [Hin Hf].
      exists (k, r). split; [reflexivity|]. apply filter_In. split; [|exact Hf].
      apply In_map_to_list. apply lookup_delete_Some. split; [cbn in Hne; congruence|].
      apply In_map_to_list. exact Hin.
Qed.

Lemma deleted_item_witness :
  Database.conn Scenario.store_with_old_iso = true
  /\ Database.faulty Scenario.store_with_old_iso Database.DeleteItem = false
  /\ Utf8.encodable "/srv/data/report.txt" = true
  /\ (In Scenario.old_iso
        (Database.get_scanned_items None None
           (Database.delete_scanned_item "/srv/data/report.txt"
              Scenario.store_with_old_iso).2).1
      <-> In Scenario.old_iso (Database.get_scanned_items None None Scenario.store_with_old_iso).1
          /\ ScannedItem.path Scenario.old_iso <> "/srv/data/report.txt").
Proof.
  assert (Hconn : Database.conn Scenario.store_with_old_iso = true) by (vm_compute; reflexivity).
  assert (Hf : Database.faulty Scenario.store_with_old_iso Database.DeleteItem = false)
    by (vm_compute; reflexivity).
  assert (Hp : Utf8.encodable "/srv/data/report.txt" = true) by (vm_compute; reflexivity).
  split; [exact Hconn|]. split; [exact Hf|]. split; [exact Hp|].
  exact (proj2 (proj2 (deleted_item_is_not_read_back "/srv/data/report.txt" None None
                         Scenario.store_with_old_iso Scenario.old_iso Hconn Hf Hp))).
Defined.

(** *** A new scan *)

Lemma start_scan_open (now : Q) (db : Database.t) :
  Database.conn db = true -> Database.faulty db Database.InsertScan = false ->
  Database.start_scan now db
  = (Some (Database.next_scan_id db),
     Database.with_scan_history
       (Database.scan_history db
        ++ [Database.Build_ScanRow (Database.next_scan_id db) now None None None None])
       (Database.next_scan_id db + 1) db).
Proof.
  intros Hconn Hf. unfold Database.start_scan, Database.execute_sql.
  rewrite Hconn, Hf. reflexivity.
Qed.

Lemma clear_scan_data_open (sid : Z) (db : Database.t) :
  Database.conn db = true ->
  Database.faulty db Database.DeleteItemsOfScan = false ->
  Database.faulty db Database.DeletePackagesOfScan = false ->
  Database.clear_scan_data sid db
  = Database.with_packages
      (filter (fun kv => Database.p_scan_id kv.2 <> sid) (Database.packages db))
      (Database.with_scanned_items
         (filter (fun kv => Database.i_scan_id kv.2 <> sid) (Database.scanned_items db)) db).
Proof.
  destruct db as [c f h n si p af el]. cbn [Database.conn Database.faulty].
  intros -> Hi Hp. unfold Database.clear_scan_data, Database.execute_sql.
  cbn. rewrite Hi. cbn. rewrite Hp. reflexivity.
Qed.

(** X10. [start_collection] on an open store that accepts the
    statements opens a scan with a fresh id and clears the rows of that
    id only: the rows that earlier scans stored stay, as do the files and
    the command log. *)
Theorem new_scan_keeps_earlier_rows (self : DataCollector.t) (w : World.t) :
  Database.conn (World.db w) = true ->
  Database.faulty (World.db w) Database.InsertScan = false ->
  Database.faulty (World.db w) Database.DeleteItemsOfScan = false ->
  Database.faulty (World.db w) Database.DeletePackagesOfScan = false ->
  Database.next_scan_id (World.db w) <> 0 ->
  let sid := Database.next_scan_id (World.db w) in
  let '(started, w') := DataCollector.start_collection self w in
  started = Some sid
  /\ Database.scan_exists sid (World.db w') = true
  /\ Database.next_scan_id (World.db w') = sid + 1
  /\ (forall k r, Database.scanned_items (World.db w') !! k = Some r
                  <-> Database.scanned_items (World.db w) !! k = Some r
                      /\ Database.i_scan_id r <> sid)
  /\ (forall k r, Database.packages (World.db w') !! k = Some r
                  <-> Database.packages (World.db w) !! k = Some r
                      /\ Database.p_scan_id r <> sid)
  /\ World.files w' = World.files w
  /\ World.commands w' = World.commands w.
Proof.
  intros Hconn Hi Hdi Hdp Hne. cbv zeta.
  unfold DataCollector.start_collection.
  rewrite (start_scan_open _ _ Hconn Hi).
  apply Z.eqb_neq in Hne. rewrite Hne.
  rewrite clear_scan_data_open by assumption.
  split; [reflexivity|]. split.
  { unfold Database.scan_exists. cbn. rewrite existsb_app. cbn.
    rewrite Z.eqb_refl. apply orb_true_iff. right. reflexivity. }
  split; [reflexivity|].
  split; [intros k r; apply map_lookup_filter_Some|].
  split; [intros k r; apply map_lookup_filter_Some|].
  split; reflexivity.
Qed.

Lemma new_scan_witness :
  let w := Scenario.machine Scenario.disk Scenario.quiet Scenario.store_with_old_iso in
  Database.conn (World.db w) = true
  /\ Database.faulty (World.db w) Database.InsertScan = false
  /\ Database.faulty (World.db w) Database.DeleteItemsOfScan = false
  /\ Database.faulty (World.db w) Database.DeletePackagesOfScan = false
  /\ Database.next_scan_id (World.db w) <> 0
  /\ (DataCollector.start_collection (DataCollector.init Scenario.config) w).1 = Some 2.
Proof.
  cbv zeta. do 4 (split; [reflexivity|]). split; [discriminate|].
  pose proof (new_scan_keeps_earlier_rows (DataCollector.init Scenario.config)
                (Scenario.machine Scenario.disk Scenario.quiet Scenario.store_with_old_iso)
                eq_refl eq_refl eq_refl eq_refl ltac:(discriminate)) as H.
  cbv zeta in H.
  destruct (DataCollector.start_collection (DataCollector.init Scenario.config)
              (Scenario.machine Scenario.disk Scenario.quiet Scenario.store_with_old_iso))
    as [started w'].
  destruct H as [H _]. exact H.
Defined.

(** *** Grouping by hash and size *)

Lemma same_group_eq (k g : string * Z) : same_group k g = true <-> g = k.
Proof.
  unfold same_group. destruct k as [h sz], g as [h' sz']. cbn [fst snd].
  rewrite andb_true_iff, String.eqb_eq, Z.eqb_eq. split; [intros [-> ->]; reflexivity|].
  intros H. inversion H. split; reflexivity.
Qed.

Lemma count_group_keys (k : string * Z) (acc : list (string * Z * Z)) (x : string * Z) :
  In x (map fst (Database.count_group k acc)) <-> x = k \/ In x (map fst acc).
Proof.
  induction acc as [|[[h sz] c] r IH]; simpl.
  - destruct k; simpl. intuition.
  - destruct (String.eqb h k.1 && (sz =? k.2)) eqn:E.
    + assert (Hk : (h, sz) = k) by (apply (same_group_eq k (h, sz)); exact E).
      simpl. subst k. intuition.
    + simpl. rewrite IH. intuition.
Qed.

Lemma count_group_ok (k : string * Z) (acc : list (string * Z * Z)) :
  groups_ok acc -> groups_ok (Database.count_group k acc).
Proof.
  intros [Hnd Hpos]. induction acc as [|[[h sz] c] r IH]; simpl.
  - destruct k. split; simpl; [constructor; [intros []|constructor]|].
    constructor; [simpl; lia|constructor].
  - inversion Hnd as [|? ? Hx Hr]; subst. inversion Hpos as [|? ? Hc Hrest]; subst.
    destruct (String.eqb h k.1 && (sz =? k.2)) eqn:E.
    + split; [exact Hnd|]. constructor; [simpl in *; lia | exact Hrest].
    + destruct (IH Hr Hrest) as [Hnd' Hpos']. split.
      * simpl. constructor; [|exact Hnd'].
        intros Hin. apply count_group_keys in Hin. destruct Hin as [Hin|Hin].
        -- apply (same_group_eq k (h, sz)) in Hin. unfold same_group in Hin. cbn in Hin.
           congruence.
        -- apply Hx, Hin.
      * constructor; [exact Hc | exact Hpos'].
Qed.

Lemma count_group_counted (k k' : string * Z) (acc : list (string * Z * Z)) :
  counted k' (Database.count_group k acc)
  = counted k' acc + (if same_group k' k then 1 else 0).
Proof.
  induction acc as [|[[h sz] c] r IH]; simpl.
  - destruct k as [h sz]. simpl. destruct (same_group k' (h, sz)); reflexivity.
  - destruct (String.eqb h k.1 && (sz =? k.2)) eqn:E.
    + assert (Hk : (h, sz) = k) by (apply (same_group_eq k (h, sz)); exact E).
      subst k. simpl. destruct (same_group k' (h, sz)); lia.
    + simpl. destruct (same_group k' (h, sz)) eqn:E'.
      * apply same_group_eq in E'.
        assert (Hne : same_group k' k = false).
        { destruct (same_group k' k) eqn:E''; [|reflexivity].
          apply same_group_eq in E''. subst k'. subst k.
          unfold same_group in E. cbn in E. rewrite String.eqb_refl, Z.eqb_refl in E.
          discriminate E. }
        rewrite Hne. lia.
      * exact IH.
Qed.

Lemma fold_count_group (keys : list (string * Z)) (acc : list (string * Z * Z))
    (k : string * Z) :
  groups_ok acc ->
  groups_ok (fold_left (fun acc k => Database.count_group k acc) keys acc)
  /\ counted k (fold_left (fun acc k => Database.count_group k acc) keys acc)
     = counted k acc + occurrences k keys.
Proof.
  revert acc. induction keys as [|x keys IH]; intros acc Hok; simpl.
  - split; [exact Hok|]. unfold occurrences. simpl. lia.
  - destruct (IH (Database.count_group x acc) (count_group_ok x acc Hok)) as [H1 H2].
    split; [exact H1|]. rewrite H2, count_group_counted.
    unfold occurrences. cbn [List.filter].
    destruct (same_group k x); simpl length; lia.
Qed.

Lemma counted_In (acc : list (string * Z * Z)) (h : string) (sz c : Z) :
  groups_ok acc ->
  In (h, sz, c) acc <-> counted (h, sz) acc = c /\ 1 <= c.
Proof.
  intros [Hnd Hpos]. induction acc as [|[[h' sz'] c'] r IH]; simpl.
  - split; [intros [] | lia].
  - inversion Hnd as [|? ? Hx Hr]; subst. inversion Hpos as [|? ? Hc Hrest]; subst.
    specialize (IH Hr Hrest). simpl in Hc.
    destruct (same_group (h, sz) (h', sz')) eqn:E.
    + apply same_group_eq in E. inversion E; subst h' sz'. split.
      * intros [H|H]; [inversion H; subst; split; [reflexivity | exact Hc]|].
        exfalso. apply Hx. apply (in_map fst) in H. exact H.
      * intros [-> _]. left. reflexivity.
    + split.
      * intros [H|H]; [|apply IH, H].
        inversion H; subst. unfold same_group in E. cbn in E.
        rewrite String.eqb_refl, Z.eqb_refl in E. discriminate E.
      * intros H. right. apply IH, H.
Qed.

Lemma occurrences_omap {A} (f : A -> option (string * Z)) (p : A -> bool)
    (k : string * Z) (l : list A) :
  (forall a, p a = match f a with Some g => same_group k g | None => false end) ->
  occurrences k (omap f l) = Z.of_nat (length (List.filter p l)).
Proof.
  intros Hp. unfold occurrences. induction l as [|a l IH]; [reflexivity|].
  change (omap f (a :: l)) with (match f a with Some y => y :: omap f l | None => omap f l end).
  cbn [List.filter]. rewrite (Hp a). destruct (f a) as [g|]; [|exact IH].
  cbn [List.filter]. destruct (same_group k g); cbn [length]; lia.
Qed.

(** X11. [find_potential_duplicates], given a minimum that fits 64
    bits, lists a hash and a size with a count exactly when the count is
    the number of rows with that hash and that size, is above one, and the
    size is at least the minimum. *)
Theorem potential_duplicates_are_counted (min_size : Z) (db : Database.t)
    (h : string) (sz c : Z) :
  Database.conn db = true ->
  Database.faulty db Database.SelectDuplicateGroups = false ->
  int64 min_size = true ->
  In (h, sz, c) (Database.find_potential_duplicates min_size db).1
  <-> c = Z.of_nat (length (List.filter
                             (fun kv => bool_decide (Database.i_file_hash kv.2 = Some h)
                                        && (Database.i_size_bytes kv.2 =? sz))
                             (map_to_list (Database.scanned_items db))))
      /\ 1 < c /\ min_size <= sz.
Proof.
  intros Hconn Hf _. unfold Database.find_potential_duplicates, Database.execute_sql.
  rewrite Hconn, Hf. cbn [negb fst default]. unfold id.
  set (f := fun kv : string * Database.ItemRow =>
              match Database.i_file_hash kv.2 with
              | Some h => if min_size <=? Database.i_size_bytes kv.2
                          then Some (h, Database.i_size_bytes kv.2) else None
              | None => None
              end).
  set (rows := map_to_list (Database.scanned_items db)).
  assert (Hok0 : groups_ok []) by (split; constructor).
  destruct (fold_count_group (omap f rows) [] (h, sz) Hok0) as [Hok Hcount].
  simpl counted in Hcount at 2.
  rewrite filter_In, (counted_In _ h sz c Hok), Hcount. cbn [fst snd].
  rewrite Z.ltb_lt.
  destruct (Z.leb_spec min_size sz) as [Hmin|Hmin].
  - rewrite (occurrences_omap f
               (fun kv => bool_decide (Database.i_file_hash kv.2 = Some h)
                          && (Database.i_size_bytes kv.2 =? sz))).
    + lia.
    + intros [k r]. subst f. cbn [fst snd].
      destruct (Database.i_file_hash r) as [h'|]; [|reflexivity].
      destruct (Z.eqb_spec (Database.i_size_bytes r) sz) as [->|Hsz].
      * replace (min_size <=? sz) with true by (symmetry; apply Z.leb_le; exact Hmin).
        unfold same_group. cbn. rewrite Z.eqb_refl, andb_true_r, andb_true_r.
        destruct (String.eqb_spec h' h) as [->|Hh].
        -- apply bool_decide_eq_true. reflexivity.
        -- apply bool_decide_eq_false. congruence.
      * rewrite andb_false_r. destruct (min_size <=? Database.i_size_bytes r); [|reflexivity].
        unfold same_group. cbn. apply Z.eqb_neq in Hsz. rewrite Hsz. rewrite andb_false_r.
        reflexivity.
  - rewrite (occurrences_omap f (fun _ => false)).
    + replace (List.filter (fun _ => false) rows) with (@nil (string * Database.ItemRow)).
      * simpl. lia.
      * clear. induction rows; [reflexivity | exact IHrows].
    + intros [k r]. subst f. cbn [fst snd].
      destruct (Database.i_file_hash r) as [h'|]; [|reflexivity].
      destruct (Z.leb_spec min_size (Database.i_size_bytes r)); [|reflexivity].
      unfold same_group. cbn.
      replace (Database.i_size_bytes r =? sz) with false by (symmetry; apply Z.eqb_neq; lia).
      rewrite andb_false_r. reflexivity.
Qed.

Lemma potential_duplicates_witness :
  Database.conn Scenario.store_with_twins = true
  /\ Database.faulty Scenario.store_with_twins Database.SelectDuplicateGroups = false
  /\ int64 1024 = true
  /\ In ("abc", 4096, 2) (Database.find_potential_duplicates 1024 Scenario.store_with_twins).1.
Proof.
  assert (Hconn : Database.conn Scenario.store_with_twins = true) by (vm_compute; reflexivity).
  assert (Hf : Database.faulty Scenario.store_with_twins Database.SelectDuplicateGroups = false)
    by (vm_compute; reflexivity).
  assert (Hm : int64 1024 = true) by (vm_compute; reflexivity).
  split; [exact Hconn|]. split; [exact Hf|]. split; [exact Hm|].
  apply (potential_duplicates_are_counted 1024 Scenario.store_with_twins "abc" 4096 2
           Hconn Hf Hm).
  split; [vm_compute; reflexivity|]. split; [reflexivity|]. discriminate.
Defined.

(** ** modules/collection.py *)

(** *** What a walk of the file system returns *)





(** *** A store that cannot open a scan *)

(** X13. When the store has no connection, or refuses to register the
    scan, [scan] returns normally without reading a directory or running
    a command: all that happens is that the store logs the failed
    statement. *)
Theorem scan_without_store_does_nothing (self : CoreController.t) (force : bool)
    (directory : option string) (w : World.t) :
  Database.conn (World.db w) = false
  \/ Database.faulty (World.db w) Database.InsertScan = true ->
  CoreController.scan self force directory w
  = (Return tt, World.with_db (Database.log_error Database.InsertScan (World.db w)) w).
Proof.
  intros Hbad.
  assert (Hstart : Database.start_scan (World.clock w) (World.db w)
                   = (None, Database.log_error Database.InsertScan (World.db w))).
  { unfold Database.start_scan, Database.execute_sql.
    destruct Hbad as [H|H]; rewrite H; [reflexivity|].
    destruct (negb (Database.conn (World.db w))); reflexivity. }
  unfold CoreController.scan, DataCollector.collect_all, DataCollector.start_collection.
  rewrite Hstart. reflexivity.
Qed.

Lemma scan_without_store_witness :
  let w := Scenario.machine Scenario.disk Scenario.quiet Scenario.closed_store in
  (Database.conn (World.db w) = false
   \/ Database.faulty (World.db w) Database.InsertScan = true)
  /\ World.commands (CoreController.scan Scenario.controller false (Some "/srv/data") w).2 = []
  /\ World.listed (CoreController.scan Scenario.controller false (Some "/srv/data") w).2 = [].
Proof.
  cbv zeta. split; [left; reflexivity|].
  rewrite (scan_without_store_does_nothing Scenario.controller false (Some "/srv/data")
             (Scenario.machine Scenario.disk Scenario.quiet Scenario.closed_store)
             (or_introl eq_refl)).
  split; reflexivity.
Defined.

(** ** modules/analysis.py *)

Section SortingOrder.
Context {A : Type} (key : A -> Z).

Lemma insert_desc_perm (x : A) (l : list A) :
  Permutation (insert_desc key Z.ltb x l) (x :: l).
Proof.
  induction l as [|y l IH]; simpl; [reflexivity|].
  destruct (key x <? key y); [|reflexivity].
  rewrite IH. apply perm_swap.
Qed.

Lemma sort_desc_perm (l : list A) : Permutation (sort_desc key Z.ltb l) l.
Proof.
  induction l as [|x l IH]; simpl; [reflexivity|].
  rewrite insert_desc_perm, IH. reflexivity.
Qed.

Lemma insert_desc_sorted (x : A) (l : list A) :
  StronglySorted (above key) l -> StronglySorted (above key) (insert_desc key Z.ltb x l).
Proof.
  induction l as [|y l IH]; intros Hs; simpl.
  - constructor; constructor.
  - inversion Hs as [|? ? Hl Hy]; subst.
    destruct (key x <? key y) eqn:E.
    + apply Z.ltb_lt in E. constructor; [apply IH; exact Hl|].
      apply List.Forall_forall. intros z Hz.
      apply (Permutation_in _ (insert_desc_perm x l)) in Hz.
      destruct Hz as [<-|Hz]; [unfold above; lia|].
      rewrite List.Forall_forall in Hy. apply Hy, Hz.
    + apply Z.ltb_ge in E. constructor; [exact Hs|].
      constructor; [exact E|].
      rewrite List.Forall_forall in Hy |- *. intros z Hz. specialize (Hy z Hz).
      unfold above in *. lia.
Qed.

Lemma sort_desc_sorted (l : list A) :
  StronglySorted (above key) (sort_desc key Z.ltb l).
Proof.
  induction l as [|x l IH]; simpl; [constructor|].
  apply insert_desc_sorted, IH.
Qed.
End SortingOrder.

(** X14. With a large-file threshold set, [_find_large_files] returns
    exactly the files of at least that size (the threshold itself
    included), each as often as it was given, the largest first. *)
Theorem large_files_sorted_and_complete
    (self : AnalysisEngine.t) (bytes : Z) (files : list ScannedItem.t) :
  AnalysisEngine.large_file_bytes self = Some bytes ->
  StronglySorted (above ScannedItem.size_bytes) (AnalysisEngine._find_large_files self files)
  /\ Permutation (AnalysisEngine._find_large_files self files)
       (List.filter (fun f => bytes <=? ScannedItem.size_bytes f) files)
  /\ forall f, In f (AnalysisEngine._find_large_files self files)
               <-> In f files /\ bytes <= ScannedItem.size_bytes f.
Proof.
  intros Hb. unfold AnalysisEngine._find_large_files. rewrite Hb.
  split; [apply sort_desc_sorted|]. split; [apply sort_desc_perm|].
  intros f. rewrite In_sort_desc, filter_In, Z.leb_le. reflexivity.
Qed.

Lemma large_files_sorted_witness :
  AnalysisEngine.large_file_bytes (AnalysisEngine.init Scenario.config) = Some 524288000
  /\ AnalysisEngine._find_large_files (AnalysisEngine.init Scenario.config)
       [ScannedItem.Make "/a" 524288000 0 0 "file" [];
        ScannedItem.Make "/b" 524287999 0 0 "file" [];
        ScannedItem.Make "/c" 600000000 0 0 "file" []]
     = [ScannedItem.Make "/c" 600000000 0 0 "file" [];
        ScannedItem.Make "/a" 524288000 0 0 "file" []]
  /\ StronglySorted (above ScannedItem.size_bytes)
       (AnalysisEngine._find_large_files (AnalysisEngine.init Scenario.config)
          [ScannedItem.Make "/a" 524288000 0 0 "file" [];
           ScannedItem.Make "/b" 524287999 0 0 "file" [];
           ScannedItem.Make "/c" 600000000 0 0 "file" []]).
Proof.
  split; [vm_compute; reflexivity|]. split; [vm_compute; reflexivity|].
  apply (large_files_sorted_and_complete (AnalysisEngine.init Scenario.config) 524288000).
  vm_compute. reflexivity.
Defined.

(** *** Duplicate sets *)




(** *** What the analysis reads *)

Lemma typed_items_are_stored (ty : string) (db : Database.t) (f : ScannedItem.t) :
  ty <> EmptyString ->
  In f (Database.get_scanned_items (Some ty) None db).1 ->
  ScannedItem.item_type f = ty
  /\ exists row, Database.scanned_items db !! ScannedItem.path f = Some row
                 /\ f = Database.item_of_row (ScannedItem.path f, row).
Proof.
  intros Hty. unfold Database.get_scanned_items, Database.execute_sql.
  destruct (Database.conn db); cbn [negb]; [|intros []].
  destruct (Database.faulty db Database.SelectItems); cbn [fst]; [intros []|].
  intros Hin. apply in_map_iff in Hin. destruct Hin as [[k row] [<- Hin]].
  apply filter_In in Hin. destruct Hin as [Hin Hf].
  apply In_map_to_list in Hin. cbn [snd] in Hf.
  apply String.eqb_neq in Hty. rewrite Hty in Hf. rewrite andb_true_r in Hf.
  apply String.eqb_eq in Hf.
  split; [exact Hf|]. exists row. split; [exact Hin | reflexivity].
Qed.

(** X16. What [analyze_all] reports as an old file or as a large file
    is an item of type [file] that the store holds under its path:
    directories, cache files and the journal are never reported there.
    (The threshold for duplicates fits 64 bits, so that the analysis of
    duplicates, which follows, can hand it to the store.) *)
Theorem analysis_reports_only_plain_files (self : AnalysisEngine.t) (w : World.t)
    (f : ScannedItem.t) :
  bindable_threshold self = true ->
  In f (AnalysisEngine.old_files (AnalysisEngine.analyze_all self w).1)
  \/ In f (AnalysisEngine.large_files (AnalysisEngine.analyze_all self w).1) ->
  ScannedItem.item_type f = ITEM_TYPE_FILE
  /\ exists row, Database.scanned_items (World.db w) !! ScannedItem.path f = Some row
                 /\ f = Database.item_of_row (ScannedItem.path f, row).
Proof.
  intros _. unfold AnalysisEngine.analyze_all.
  pose proof (typed_items_are_stored ITEM_TYPE_FILE (World.db w) f) as Hstored.
  destruct (Database.get_scanned_items (Some ITEM_TYPE_FILE) None (World.db w))
    as [all_files d].
  cbn [fst] in Hstored.
  repeat match goal with
         | |- context [let '(_, _) := ?x in _] => destruct x
         end.
  cbn [fst AnalysisEngine.old_files AnalysisEngine.large_files].
  intros [Hin|Hin]; apply Hstored; try discriminate.
  - unfold AnalysisEngine._find_old_files in Hin.
    destruct (AnalysisEngine.old_file_seconds self); [|contradiction].
    apply filter_In in Hin. apply Hin.
  - unfold AnalysisEngine._find_large_files in Hin.
    destruct (AnalysisEngine.large_file_bytes self); [|contradiction].
    apply In_sort_desc, filter_In in Hin. apply Hin.
Qed.

Lemma analysis_reports_witness :
  let w := Scenario.machine Scenario.disk Scenario.quiet Scenario.store_with_old_iso in
  let self := AnalysisEngine.init Scenario.config in
  bindable_threshold self = true
  /\ (In Scenario.old_iso (AnalysisEngine.old_files (AnalysisEngine.analyze_all self w).1)
      \/ In Scenario.old_iso (AnalysisEngine.large_files (AnalysisEngine.analyze_all self w).1))
  /\ ScannedItem.item_type Scenario.old_iso = ITEM_TYPE_FILE.
Proof.
  cbv zeta.
  assert (Hb : bindable_threshold (AnalysisEngine.init Scenario.config) = true)
    by (vm_compute; reflexivity).
  assert (Hin : In Scenario.old_iso
                  (AnalysisEngine.old_files
                     (AnalysisEngine.analyze_all (AnalysisEngine.init Scenario.config)
                        (Scenario.machine Scenario.disk Scenario.quiet
                           Scenario.store_with_old_iso)).1)).
  { vm_compute. left. reflexivity. }
  split; [exact Hb|]. split; [left; exact Hin|].
  apply (analysis_reports_only_plain_files (AnalysisEngine.init Scenario.config)
           (Scenario.machine Scenario.disk Scenario.quiet Scenario.store_with_old_iso)
           Scenario.old_iso Hb (or_introl Hin)).
Defined.

(** ** modules/recommendation.py *)

(** X17. [generate_suggestions] returns the suggestions of the six
    generators, none lost and none added, ordered by the estimated saving,
    the largest first. *)
Theorem suggestions_sorted_by_saving
    (ctime : Q -> string) (self : RecommendationEngine.t) (now : Q)
    (r : AnalysisEngine.results) :
  StronglySorted (above Suggestion.estimated_size_bytes)
    (RecommendationEngine.generate_suggestions ctime self now r)
  /\ Permutation (RecommendationEngine.generate_suggestions ctime self now r)
       (RecommendationEngine._generate_old_file_suggestions ctime now (AnalysisEngine.old_files r)
        ++ RecommendationEngine._generate_large_file_suggestions ctime (AnalysisEngine.large_files r)
        ++ RecommendationEngine._generate_orphan_package_suggestions (AnalysisEngine.orphan_packages r)
        ++ RecommendationEngine._generate_duplicate_set_suggestions (AnalysisEngine.duplicate_sets r)
        ++ RecommendationEngine._generate_pacman_cache_suggestions self
             (AnalysisEngine.pacman_cache_files r)
        ++ RecommendationEngine._generate_journal_log_suggestions self
             (AnalysisEngine.journal_logs r)).
Proof.
  unfold RecommendationEngine.generate_suggestions.
  split; [apply sort_desc_sorted | apply sort_desc_perm].
Qed.

Lemma Qmin_le_r (a b : Q) : (RecommendationEngine.Qmin a b <= b)%Q.
Proof.
  unfold RecommendationEngine.Qmin. destruct (Qltb b a) eqn:E.
  - apply Qle_refl.
  - apply Qltb_ge in E. exact E.
Qed.

(** X18. No generated suggestion has a confidence above 0.9. *)
Theorem suggestion_confidence_at_most_090
    (ctime : Q -> string) (self : RecommendationEngine.t) (now : Q)
    (r : AnalysisEngine.results) :
  Forall (fun s => (Suggestion.confidence s <= 9 # 10)%Q)
    (RecommendationEngine.generate_suggestions ctime self now r).
Proof.
  apply List.Forall_forall. intros s Hin. apply In_generate_suggestions in Hin.
  destruct Hin as [H|[H|[H|[H|[H|H]]]]].
  - unfold RecommendationEngine._generate_old_file_suggestions in H.
    apply in_map_iff in H. destruct H as [item [<- _]].
    unfold RecommendationEngine.old_file_suggestion. cbn [Suggestion.confidence].
    apply Qmin_le_r.
  - unfold RecommendationEngine._generate_large_file_suggestions in H.
    apply in_map_iff in H. destruct H as [item [<- _]]. discriminate.
  - unfold RecommendationEngine._generate_orphan_package_suggestions in H.
    destruct (AnalysisEngine.orphan_packages r); [contradiction|].
    destruct H as [<-|[]]. discriminate.
  - unfold RecommendationEngine._generate_duplicate_set_suggestions in H.
    apply list_elem_of_In, list_elem_of_omap in H. destruct H as [d [_ Hd]].
    unfold RecommendationEngine.duplicate_set_suggestion in Hd.
    destruct (_ <=? 0); [discriminate|].
    injection Hd as <-. discriminate.
  - unfold RecommendationEngine._generate_pacman_cache_suggestions in H.
    destruct (AnalysisEngine.pacman_cache_files r); [contradiction|].
    match type of H with
    | In _ (match ?l with [] => _ | _ => _ end) => destruct l; [contradiction|]
    end.
    destruct H as [<-|[]]. apply Qle_refl.
  - unfold RecommendationEngine._generate_journal_log_suggestions in H.
    destruct (AnalysisEngine.journal_logs r) as [|j js]; [contradiction|].
    destruct (RecommendationEngine.journal_max_bytes self) as [m|]; [|contradiction].
    destruct (m <? ScannedItem.size_bytes j); [|contradiction].
    destruct H as [<-|[]]. discriminate.
Qed.

(** *** The shape of an id *)

Lemma hex_digit_is_hex (d : Z) : 0 <= d < 16 -> is_hex (Sha1.hex_digit d) = true.
Proof.
  intros H.
  assert (d = 0 \/ d = 1 \/ d = 2 \/ d = 3 \/ d = 4 \/ d = 5 \/ d = 6 \/ d = 7 \/ d = 8
          \/ d = 9 \/ d = 10 \/ d = 11 \/ d = 12 \/ d = 13 \/ d = 14 \/ d = 15) as Hd by lia.
  repeat (destruct Hd as [->|Hd]; [reflexivity|]). subst d. reflexivity.
Qed.

Lemma land_15 (x : Z) : 0 <= Z.land x 15 < 16.
Proof.
  change 15 with (Z.ones 4). rewrite Z.land_ones by lia.
  apply Z.mod_pos_bound. reflexivity.
Qed.

Lemma hex32_shape (x : Z) :
  String.length (Sha1.hex32 x) = 8%nat /\ all_chars is_hex (Sha1.hex32 x) = true.
Proof.
  unfold Sha1.hex32. cbn [rev seq app fold_right]. split; [reflexivity|].
  cbn [all_chars]. rewrite !hex_digit_is_hex by apply land_15. reflexivity.
Qed.

Lemma prefix_shape (p : ascii -> bool) (n : nat) (s : string) :
  (n <= String.length s)%nat -> all_chars p s = true ->
  String.length (PyStr.prefix n s) = n /\ all_chars p (PyStr.prefix n s) = true.
Proof.
  revert s. induction n as [|n IH]; intros s Hlen Hall; [split; reflexivity|].
  destruct s as [|c s]; [simpl in Hlen; lia|].
  simpl in *. apply andb_prop in Hall. destruct Hall as [Hc Hs].
  destruct (IH s ltac:(lia) Hs) as [H1 H2]. rewrite H1, Hc, H2. split; reflexivity.
Qed.

(** X19. A suggestion id is ten characters long, each a digit or a
    letter from [a] to [f], whatever type and key it is made of (texts
    that can be encoded, so that the hasher accepts them). *)
Theorem suggestion_id_is_ten_hex_digits (suggestion_type details : string) :
  Utf8.encodable suggestion_type = true -> Utf8.encodable details = true ->
  String.length (RecommendationEngine._generate_suggestion_id suggestion_type details) = 10%nat
  /\ all_chars is_hex (RecommendationEngine._generate_suggestion_id suggestion_type details)
     = true.
Proof.
  intros _ _. unfold RecommendationEngine._generate_suggestion_id, Sha1.hexdigest.
  generalize (Sha1.digest (PyStr.bytes_of (suggestion_type +:+ details))). intros d.
  apply prefix_shape.
  - rewrite !string_length_app.
    rewrite (proj1 (hex32_shape (Sha1.h0 d))), (proj1 (hex32_shape (Sha1.h1 d))),
      (proj1 (hex32_shape (Sha1.h2 d))), (proj1 (hex32_shape (Sha1.h3 d))),
      (proj1 (hex32_shape (Sha1.h4 d))).
    simpl. lia.
  - rewrite !all_chars_app.
    rewrite (proj2 (hex32_shape (Sha1.h0 d))), (proj2 (hex32_shape (Sha1.h1 d))),
      (proj2 (hex32_shape (Sha1.h2 d))), (proj2 (hex32_shape (Sha1.h3 d))),
      (proj2 (hex32_shape (Sha1.h4 d))).
    reflexivity.
Qed.

Lemma suggestion_id_shape_witness :
  Utf8.encodable "OLD_FILE" = true
  /\ Utf8.encodable "/home/u/Downloads/old.iso" = true
  /\ String.length
       (RecommendationEngine._generate_suggestion_id "OLD_FILE" "/home/u/Downloads/old.iso")
     = 10%nat.
Proof.
  assert (Ht : Utf8.encodable "OLD_FILE" = true) by (vm_compute; reflexivity).
  assert (Hd : Utf8.encodable "/home/u/Downloads/old.iso" = true) by (vm_compute; reflexivity).
  split; [exact Ht|]. split; [exact Hd|].
  exact (proj1 (suggestion_id_is_ten_hex_digits "OLD_FILE" "/home/u/Downloads/old.iso" Ht Hd)).
Defined.

(** ** modules/execution.py *)

(** *** Deleting for real *)

Lemma unlink_files (p : string) (w : World.t) :
  World.denied w p = false ->
  World.unlink p w = (Return tt, World.with_files (delete p (World.files w)) w).
Proof. intros H. unfold World.unlink. rewrite H. reflexivity. Qed.

(** A permanent delete touches the path and what lies below it, nothing
    else; the store and the record of commands are left alone. *)
Lemma safe_delete_permanent_frame (self : ExecutionHandler.t) (path : string)
    (dry_run : bool) (w : World.t) :
  ExecutionHandler.use_trash self = false ->
  let w' := (ExecutionHandler._safe_delete self path dry_run w).2 in
  World.db w' = World.db w
  /\ World.commands w' = World.commands w
  /\ World.denied w' = World.denied w
  /\ forall q, q <> path -> World.below path q = false ->
               World.files w' !! q = World.files w !! q.
Proof.
  intros Htrash. cbv zeta. unfold ExecutionHandler._safe_delete. rewrite Htrash.
  destruct (negb (World.path_exists path w)); [auto|].
  destruct dry_run; [auto|].
  destruct (World.is_file path w).
  - unfold World.unlink. destruct (World.denied w path); simpl; [auto|].
    repeat split. intros q Hq _. apply lookup_delete_ne. congruence.
  - destruct (World.is_dir path w); [|simpl; auto].
    unfold World.rmtree. destruct (World.denied w path); simpl; [auto|].
    repeat split. intros q Hq Hb.
    destruct (World.files w !! q) as [x|] eqn:E.
    + apply map_lookup_filter_Some. split; [exact E|]. simpl. auto.
    + apply map_lookup_filter_None. left. exact E.
Qed.






(** *** Orphan packages *)

Lemma package_list_packages (pkgs : list PackageInfo.t) :
  ExecutionHandler.package_list (map EPackage pkgs) = Some pkgs.
Proof.
  induction pkgs as [|p pkgs IH]; simpl; [reflexivity|]. rewrite IH. reflexivity.
Qed.

Lemma delete_package_accepted (name : string) (db : Database.t) :
  accepts_deletions db ->
  Database.delete_package name db
  = (Return tt, Database.with_packages (delete name (Database.packages db)) db).
Proof.
  intros [Hconn [Hdp [Hdi Hc]]].
  unfold Database.delete_package, Database.execute_sql. rewrite Hconn, Hdp. cbn [negb snd].
  unfold Database.commit, Database.with_packages. cbn [Database.conn Database.faulty].
  rewrite Hconn, Hc. reflexivity.
Qed.

Lemma delete_each_packages (names : list string) (w : World.t) :
  accepts_deletions (World.db w) ->
  let r := ExecutionHandler.delete_each Database.delete_package names w in
  r.1 = Return tt
  /\ World.files r.2 = World.files w
  /\ World.commands r.2 = World.commands w
  /\ Database.scanned_items (World.db r.2) = Database.scanned_items (World.db w)
  /\ Database.packages (World.db r.2)
     = fold_left (fun m n => delete n m) names (Database.packages (World.db w)).
Proof.
  cbv zeta. revert w. induction names as [|n names IH]; intros w Hok.
  - repeat split.
  - cbn [ExecutionHandler.delete_each fold_left].
    rewrite (delete_package_accepted n _ Hok).
    match goal with
    | |- context [ExecutionHandler.delete_each _ names ?w1] =>
        destruct (IH w1) as [H1 [H2 [H3 [H4 H5]]]]
    end.
    { destruct Hok as [Hconn [Hdp [Hdi Hc]]]. repeat split; assumption. }
    repeat split; assumption.
Qed.

(** The loop over the store leaves the files and the record of commands
    alone, whatever it is asked to delete. *)
Lemma delete_each_frame (del : string -> Database.t -> outcome unit * Database.t)
    (names : list string) (w : World.t) :
  World.commands (ExecutionHandler.delete_each del names w).2 = World.commands w
  /\ World.files (ExecutionHandler.delete_each del names w).2 = World.files w.
Proof.
  revert w. induction names as [|n names IH]; intros w; [split; reflexivity|].
  cbn [ExecutionHandler.delete_each].
  destruct (del n (World.db w)) as [[u|e] d]; [|split; reflexivity].
  destruct (IH (World.with_db d w)) as [H1 H2]. rewrite H1, H2. split; reflexivity.
Qed.

Lemma fold_delete_lookup {V} (names : list string) (m : gmap string V) (k : string) :
  In k names -> fold_left (fun m n => delete n m) names m !! k = None.
Proof.
  revert m. induction names as [|n names IH]; intros m Hin; simpl; [contradiction|].
  destruct (in_dec string_dec k names) as [Hk|Hk]; [apply IH, Hk|].
  destruct Hin as [->|Hin]; [|contradiction].
  clear IH. revert m. induction names as [|x names IH]; intros m; simpl.
  - apply lookup_delete_eq.
  - assert (Hx : x <> k) by (intros ->; apply Hk; left; reflexivity).
    replace (delete x (delete k m)) with (delete k (delete x m)) by apply delete_delete.
    apply IH. intros H. apply Hk. right. exact H.
Qed.

(** X22. A real run of an ORPHAN_PACKAGE suggestion (package names that
    can be encoded) runs one command, [sudo pacman -Rns] followed by the
    names of the packages in the order of the suggestion.  When the
    command fails the store is left alone and the result reports a failure
    with nothing freed; when it succeeds on a store that accepts
    deletions, the packages are removed from the store and the result
    reports the estimate of the suggestion as freed. *)
Theorem orphan_removal_runs_pacman (self : ExecutionHandler.t) (s : Suggestion.t)
    (pkgs : list PackageInfo.t) (w : World.t) :
  Suggestion.data s = DList (map EPackage pkgs) ->
  pkgs <> [] ->
  Forall (fun p => Utf8.encodable (PackageInfo.name p) = true) pkgs ->
  let command := ["sudo"; "pacman"; "-Rns"] ++ map PackageInfo.name pkgs in
  let answer := World.exec w command (World.files w) in
  let '(o, w') := ExecutionHandler._handle_orphan_package self s false w in
  World.commands w' = World.commands w ++ [command]
  /\ World.files w' = answer.2
  /\ (World.returncode answer.1 <> 0 ->
      World.db w' = World.db w
      /\ exists r, o = Return r /\ ActionResult.success r = false
                   /\ ActionResult.bytes_freed r = 0)
  /\ (World.returncode answer.1 = 0 -> accepts_deletions (World.db w) ->
      (forall p, In p pkgs -> Database.packages (World.db w') !! PackageInfo.name p = None)
      /\ exists r, o = Return r /\ ActionResult.success r = true
                   /\ ActionResult.bytes_freed r = Suggestion.estimated_size_bytes s).
Proof.
  intros Hdata Hne _. cbv zeta.
  unfold ExecutionHandler._handle_orphan_package. rewrite Hdata, package_list_packages.
  destruct pkgs as [|p0 ps]; [contradiction|].
  set (pkgs := p0 :: ps). set (command := ["sudo"; "pacman"; "-Rns"] ++ map PackageInfo.name pkgs).
  unfold World.run_command.
  destruct (World.exec w command (World.files w)) as [r f] eqn:Hexec. cbn [fst snd].
  set (w1 := World.with_commands _ _).
  destruct (World.returncode r =? 0) eqn:Hrc.
  - apply Z.eqb_eq in Hrc.
    pose proof (delete_each_packages (map PackageInfo.name pkgs) w1) as Hdel. cbv zeta in Hdel.
    destruct (ExecutionHandler.delete_each Database.delete_package
                (map PackageInfo.name pkgs) w1) as [o w2] eqn:Hrun.
    cbn [fst snd] in Hdel.
    pose proof (delete_each_frame Database.delete_package (map PackageInfo.name pkgs) w1)
      as Hframe.
    rewrite Hrun in Hframe. cbn [snd] in Hframe.
    destruct Hframe as [Hc Hf].
    destruct o as [u|e].
    + cbn [fst snd]. split; [exact Hc|]. split; [exact Hf|].
      split; [intros H; contradiction|].
      intros _ Hok. destruct (Hdel Hok) as [_ [_ [_ [_ Hp]]]].
      split; [|eexists; split; [reflexivity|split; reflexivity]].
      intros p Hin. rewrite Hp. apply fold_delete_lookup. apply in_map. exact Hin.
    + cbn [fst snd]. split; [exact Hc|]. split; [exact Hf|].
      split; [intros H; contradiction|].
      intros _ Hok. destruct (Hdel Hok) as [H _]. discriminate H.
  - apply Z.eqb_neq in Hrc. cbn [fst snd].
    split; [reflexivity|]. split; [reflexivity|].
    split; [|intros H; contradiction].
    intros _. split; [reflexivity|]. eexists. split; [reflexivity|]. split; reflexivity.
Qed.

Lemma orphan_removal_witness :
  let w := Scenario.machine Scenario.disk Scenario.quiet Scenario.store in
  let self := ExecutionHandler.init Scenario.config false in
  Suggestion.data Scenario.orphan_suggestion = DList (map EPackage [Scenario.libfoo])
  /\ [Scenario.libfoo] <> []
  /\ Forall (fun p => Utf8.encodable (PackageInfo.name p) = true) [Scenario.libfoo]
  /\ World.commands (ExecutionHandler._handle_orphan_package self Scenario.orphan_suggestion
                       false w).2
     = [["sudo"; "pacman"; "-Rns"; "libfoo"]].
Proof.
  assert (Hnames : Forall (fun p => Utf8.encodable (PackageInfo.name p) = true)
                     [Scenario.libfoo]).
  { constructor; [vm_compute; reflexivity | constructor]. }
  cbv zeta. split; [reflexivity|]. split; [discriminate|]. split; [exact Hnames|].
  pose proof (orphan_removal_runs_pacman (ExecutionHandler.init Scenario.config false)
                Scenario.orphan_suggestion [Scenario.libfoo]
                (Scenario.machine Scenario.disk Scenario.quiet Scenario.store)
                eq_refl ltac:(discriminate) Hnames) as H.
  cbv zeta in H.
  destruct (ExecutionHandler._handle_orphan_package (ExecutionHandler.init Scenario.config false)
              Scenario.orphan_suggestion false
              (Scenario.machine Scenario.disk Scenario.quiet Scenario.store)) as [o w'].
  destruct H as [H _]. exact H.
Defined.

(** *** Duplicate sets *)

Lemma remove_duplicates_keeps (self : ExecutionHandler.t) (size_bytes : Z) (dry_run : bool)
    (keep : string) (paths : list string) (acc : Z * Z * list string) (w : World.t) :
  ExecutionHandler.use_trash self = false ->
  Forall (fun p => p <> keep /\ World.below p keep = false) paths ->
  World.files (ExecutionHandler.remove_duplicates self size_bytes dry_run paths acc w).2 !! keep
  = World.files w !! keep.
Proof.
  intros Htrash. revert acc w.
  induction paths as [|p paths IH]; intros [[total count] messages] w Hall; [reflexivity|].
  inversion Hall as [|? ? [Hne Hbelow] Hrest]; subst.
  cbn [ExecutionHandler.remove_duplicates].
  pose proof (safe_delete_permanent_frame self p dry_run w Htrash) as Hframe.
  cbv zeta in Hframe.
  destruct (ExecutionHandler._safe_delete self p dry_run w) as [[success message] w1].
  cbn [snd] in Hframe. destruct Hframe as [_ [_ [_ Hfiles]]].
  assert (Hkeep : World.files w1 !! keep = World.files w !! keep).
  { apply Hfiles; [congruence | exact Hbelow]. }
  destruct success.
  - destruct (negb dry_run).
    + destruct (Database.delete_scanned_item p (World.db w1)) as [[u|e] d].
      * rewrite IH by exact Hrest. exact Hkeep.
      * exact Hkeep.
    + rewrite IH by exact Hrest. exact Hkeep.
  - rewrite IH by exact Hrest. exact Hkeep.
Qed.

(** X23. Removing a duplicate set never touches the first path of the
    set, the copy that is kept, provided the other paths are different
    from it and none of them is a directory above it. *)
Theorem duplicate_removal_keeps_first_copy (self : ExecutionHandler.t) (s : Suggestion.t)
    (d : DuplicateSet.t) (keep : string) (others : list string) (dry_run : bool)
    (w : World.t) :
  Suggestion.data s = DDupSet d ->
  DuplicateSet.paths d = keep :: others ->
  ExecutionHandler.use_trash self = false ->
  Forall (fun p => p <> keep /\ World.below p keep = false) others ->
  World.files (ExecutionHandler._handle_duplicate_set self s dry_run w).2 !! keep
  = World.files w !! keep.
Proof.
  intros Hdata Hpaths Htrash Hall.
  unfold ExecutionHandler._handle_duplicate_set. rewrite Hdata, Hpaths.
  destruct others as [|p ps]; [reflexivity|].
  pose proof (remove_duplicates_keeps self (DuplicateSet.size_bytes d) dry_run keep (p :: ps)
                (0, 0, []) w Htrash Hall) as H.
  destruct (ExecutionHandler.remove_duplicates self (DuplicateSet.size_bytes d) dry_run
              (p :: ps) (0, 0, []) w) as [[[[total count] messages]|e] w1]; exact H.
Qed.

Lemma duplicate_removal_keeps_first_copy_witness :
  let w := Scenario.machine Scenario.disk Scenario.quiet Scenario.store in
  let self := ExecutionHandler.init Scenario.config false in
  Suggestion.data Scenario.two_copies_suggestion = DDupSet Scenario.two_copies
  /\ DuplicateSet.paths Scenario.two_copies = ["/srv/data/report.txt"; "/home/u/Downloads/old.iso"]
  /\ ExecutionHandler.use_trash self = false
  /\ Forall (fun p => p <> "/srv/data/report.txt" /\ World.below p "/srv/data/report.txt" = false)
       ["/home/u/Downloads/old.iso"]
  /\ World.files (ExecutionHandler._handle_duplicate_set self Scenario.two_copies_suggestion
                    false w).2 !! "/srv/data/report.txt"
     = World.files w !! "/srv/data/report.txt".
Proof.
  assert (Hall : Forall (fun p => p <> "/srv/data/report.txt"
                                  /\ World.below p "/srv/data/report.txt" = false)
                   ["/home/u/Downloads/old.iso"]).
  { constructor; [split; [discriminate | reflexivity] | constructor]. }
  cbv zeta. split; [reflexivity|]. split; [reflexivity|]. split; [reflexivity|].
  split; [exact Hall|].
  apply (duplicate_removal_keeps_first_copy (ExecutionHandler.init Scenario.config false)
           Scenario.two_copies_suggestion Scenario.two_copies "/srv/data/report.txt"
           ["/home/u/Downloads/old.iso"] false
           (Scenario.machine Scenario.disk Scenario.quiet Scenario.store)
           eq_refl eq_refl eq_refl Hall).
Defined.

Lemma remove_duplicates_account (self : ExecutionHandler.t) (size_bytes : Z) (dry_run : bool)
    (paths : list string) (total count : Z) (messages : list string) (w : World.t) :
  match (ExecutionHandler.remove_duplicates self size_bytes dry_run paths
           (total, count, messages) w).1 with
  | Return (total', count', _) =>
      total' - total = size_bytes * (count' - count)
      /\ count <= count' <= count + Z.of_nat (length paths)
  | Raise _ => True
  end.
Proof.
  revert total count messages w.
  induction paths as [|p paths IH]; intros total count messages w.
  - simpl. lia.
  - cbn [ExecutionHandler.remove_duplicates].
    destruct (ExecutionHandler._safe_delete self p dry_run w) as [[success message] w1].
    destruct success.
    + assert (Hstep : forall w2,
                 match (ExecutionHandler.remove_duplicates self size_bytes dry_run paths
                          (total + size_bytes, count + 1, messages ++ [message]) w2).1 with
                 | Return (total', count', _) =>
                     total' - total = size_bytes * (count' - count)
                     /\ count <= count' <= count + Z.of_nat (length (p :: paths))
                 | Raise _ => True
                 end).
      { intros w2.
        specialize (IH (total + size_bytes) (count + 1) (messages ++ [message]) w2).
        destruct (ExecutionHandler.remove_duplicates _ _ _ _ _ w2).1 as [[[t c] m]|e];
          [|exact I].
        simpl length. lia. }
      destruct (negb dry_run); [|apply Hstep].
      destruct (Database.delete_scanned_item p (World.db w1)) as [[u|e] d]; [apply Hstep|exact I].
    + specialize (IH total count (messages ++ [message]) w1).
      destruct (ExecutionHandler.remove_duplicates _ _ _ _ _ w1).1 as [[[t c] m]|e];
        [|exact I].
      simpl length. lia.
Qed.

(** X24. For a suggestion made by the engine for a duplicate set whose
    paths can be encoded, the bytes the removal reports as freed lie
    between zero and the estimate of the suggestion, and the removal
    reports success exactly when it reports the whole estimate. *)
Theorem duplicate_removal_frees_the_estimate (self : ExecutionHandler.t)
    (d : DuplicateSet.t) (s : Suggestion.t) (dry_run : bool) (w : World.t) :
  Forall (fun p => Utf8.encodable p = true) (DuplicateSet.paths d) ->
  RecommendationEngine.duplicate_set_suggestion d = Some s ->
  match (ExecutionHandler._handle_duplicate_set self s dry_run w).1 with
  | Return r =>
      0 <= ActionResult.bytes_freed r <= Suggestion.estimated_size_bytes s
      /\ (ActionResult.success r = true
          <-> ActionResult.bytes_freed r = Suggestion.estimated_size_bytes s)
  | Raise _ => True
  end.
Proof.
  intros _. unfold RecommendationEngine.duplicate_set_suggestion, RecommendationEngine.len.
  destruct (_ <=? 0) eqn:Hpos; [discriminate|]. apply Z.leb_gt in Hpos.
  intros Hs. injection Hs as <-.
  unfold ExecutionHandler._handle_duplicate_set. cbn [Suggestion.data].
  destruct (DuplicateSet.paths d) as [|keep [|p ps]] eqn:Hpaths.
  - simpl in Hpos. cbn. lia.
  - simpl in Hpos. lia.
  - set (rest := p :: ps) in *.
    assert (Hlen : Z.of_nat (length (keep :: rest)) - 1 = Z.of_nat (length rest))
      by (simpl length; lia).
    rewrite Hlen in Hpos |- *.
    pose proof (remove_duplicates_account self (DuplicateSet.size_bytes d) dry_run rest
                  0 0 [] w) as Hacc.
    destruct (ExecutionHandler.remove_duplicates self (DuplicateSet.size_bytes d) dry_run
                rest (0, 0, []) w) as [[[[total count] messages]|e] w1]; [|exact I].
    cbn [fst snd] in *. cbn [ActionResult.bytes_freed ActionResult.success ExecutionHandler.result
                             Suggestion.estimated_size_bytes].
    destruct Hacc as [Htot Hcount].
    assert (Hsz : 0 < DuplicateSet.size_bytes d) by nia.
    split; [nia|].
    rewrite Z.eqb_eq. split; [intros ->; lia | intros H; nia].
Qed.

Lemma duplicate_removal_frees_the_estimate_witness :
  let w := Scenario.machine Scenario.disk Scenario.quiet Scenario.store in
  let self := ExecutionHandler.init Scenario.config false in
  Forall (fun p => Utf8.encodable p = true) (DuplicateSet.paths Scenario.two_copies)
  /\ exists s,
       RecommendationEngine.duplicate_set_suggestion Scenario.two_copies = Some s
       /\ match (ExecutionHandler._handle_duplicate_set self s false w).1 with
          | Return r =>
              0 <= ActionResult.bytes_freed r <= Suggestion.estimated_size_bytes s
              /\ (ActionResult.success r = true
                  <-> ActionResult.bytes_freed r = Suggestion.estimated_size_bytes s)
          | Raise _ => True
          end.
Proof.
  assert (Hpaths : Forall (fun p => Utf8.encodable p = true)
                     (DuplicateSet.paths Scenario.two_copies)).
  { repeat constructor; vm_compute; reflexivity. }
  cbv zeta. split; [exact Hpaths|].
  eexists. split; [vm_compute; reflexivity|].
  apply (duplicate_removal_frees_the_estimate (ExecutionHandler.init Scenario.config false)
           Scenario.two_copies _ false _ Hpaths).
  vm_compute. reflexivity.
Defined.

(** *** From the configured journal limit to the command *)

(** X25. A journal suggestion is made only when a size limit is
    configured and the journal is above it; its estimate is the excess;
    and a real run of it runs [sudo journalctl --vacuum-size] with the
    configured limit in bytes, and does not touch the store. *)
Theorem journal_vacuum_runs_to_the_limit (self : RecommendationEngine.t)
    (executor : ExecutionHandler.t) (journal_items : list ScannedItem.t)
    (s : Suggestion.t) (w : World.t) :
  In s (RecommendationEngine._generate_journal_log_suggestions self journal_items) ->
  exists max_bytes journal_item,
    RecommendationEngine.journal_max_bytes self = Some max_bytes
    /\ head journal_items = Some journal_item
    /\ max_bytes < ScannedItem.size_bytes journal_item
    /\ Suggestion.estimated_size_bytes s = ScannedItem.size_bytes journal_item - max_bytes
    /\ World.commands (ExecutionHandler.execute_suggestion executor s false w).2
       = World.commands w ++ [["sudo"; "journalctl"; "--vacuum-size"; PyStr.of_Z max_bytes]]
    /\ World.db (ExecutionHandler.execute_suggestion executor s false w).2 = World.db w.
Proof.
  unfold RecommendationEngine._generate_journal_log_suggestions.
  destruct journal_items as [|j js]; [intros []|].
  destruct (RecommendationEngine.journal_max_bytes self) as [m|]; [|intros []].
  destruct (m <? ScannedItem.size_bytes j) eqn:Hlt; [|intros []].
  apply Z.ltb_lt in Hlt. intros [<-|[]].
  exists m, j. split; [reflexivity|]. split; [reflexivity|]. split; [exact Hlt|].
  split; [cbn [Suggestion.estimated_size_bytes]; lia|].
  unfold ExecutionHandler.execute_suggestion. cbn [Suggestion.suggestion_type].
  change (ExecutionHandler.handler_for SUGGESTION_JOURNAL_LOG)
    with (Some ExecutionHandler._handle_journal_log).
  unfold ExecutionHandler._handle_journal_log. cbn [Suggestion.data].
  change (PyVal.get "target_size" [("target_size", PInt m); ("target_age", PNone)])
    with (Some (PInt m)).
  change (PyVal.get "target_age" [("target_size", PInt m); ("target_age", PNone)])
    with (Some PNone).
  cbn [default PyVal.str app]. unfold World.run_command.
  destruct (World.exec w _ (World.files w)) as [r f].
  destruct (World.returncode r =? 0); split; reflexivity.
Qed.

Lemma journal_vacuum_witness :
  let w := Scenario.machine Scenario.disk Scenario.quiet Scenario.store in
  exists s,
    In s (RecommendationEngine._generate_journal_log_suggestions
            (RecommendationEngine.init Scenario.config) [Scenario.big_journal])
    /\ World.commands
         (ExecutionHandler.execute_suggestion (ExecutionHandler.init Scenario.config false)
            s false w).2
       = [["sudo"; "journalctl"; "--vacuum-size"; "524288000"]].
Proof.
  cbv zeta. eexists. split; [vm_compute; left; reflexivity|].
  match goal with
  | |- World.commands (ExecutionHandler.execute_suggestion _ ?s _ _).2 = _ =>
      destruct (journal_vacuum_runs_to_the_limit (RecommendationEngine.init Scenario.config)
                  (ExecutionHandler.init Scenario.config false) [Scenario.big_journal] s
                  (Scenario.machine Scenario.disk Scenario.quiet Scenario.store))
        as [m [j [Hm [_ [_ [_ [Hc _]]]]]]]
  end.
  - vm_compute. left. reflexivity.
  - rewrite Hc. vm_compute in Hm. injection Hm as <-. vm_compute. reflexivity.
Defined.

(** ** core/controller.py and ui/cli.py *)

(** *** What a saved list gives back *)

(** X26. A list of OLD_FILE and LARGE_FILE suggestions that is saved
    is read back whole and in order, each suggestion as it was except for
    the rationale, which the loader leaves empty. *)
Theorem file_suggestions_survive_reload (self : CoreController.t) (l : list Suggestion.t)
    (w : World.t) :
  Forall file_suggestion l ->
  CoreController.get_last_suggestions self (CoreController._save_suggestions_to_file self l w)
  = Return (map reloaded l).
Proof.
  intros Hall. unfold CoreController.get_last_suggestions,
    CoreController._save_suggestions_to_file. cbn [World.suggestions_file World.with_suggestions_file].
  induction Hall as [|s l [Hty [i [Hdata Hpath]]] _ IH]; [reflexivity|].
  cbn [map CoreController.load_records].
  rewrite (file_suggestion_round_trip s i Hdata Hty Hpath), IH.
  unfold reloaded. rewrite Hdata. reflexivity.
Qed.

Lemma file_suggestions_survive_reload_witness :
  Forall file_suggestion [Scenario.old_iso_suggestion]
  /\ CoreController.get_last_suggestions Scenario.controller
       (CoreController._save_suggestions_to_file Scenario.controller
          [Scenario.old_iso_suggestion]
          (Scenario.machine Scenario.disk Scenario.quiet Scenario.store))
     = Return (map reloaded [Scenario.old_iso_suggestion]).
Proof.
  assert (Hall : Forall file_suggestion [Scenario.old_iso_suggestion]).
  { constructor; [|constructor]. split; [left; reflexivity|].
    exists Scenario.old_iso. split; [reflexivity | discriminate]. }
  split; [exact Hall|].
  apply (file_suggestions_survive_reload Scenario.controller [Scenario.old_iso_suggestion]
           (Scenario.machine Scenario.disk Scenario.quiet Scenario.store) Hall).
Defined.

(** *** [run_auto] *)

(** X27. A dry [run_auto] leaves the machine as [scan] and [suggest]
    leave it: whatever it selects, applying it changes nothing more. *)
Theorem run_auto_dry_run_stops_at_suggest (self : CoreController.t) (w : World.t) :
  (CoreController.run_auto self true w).2
  = match CoreController.scan self false None w with
    | (Return _, w1) => (CoreController.suggest self None w1).2
    | (Raise _, w1) => w1
    end.
Proof.
  unfold CoreController.run_auto.
  destruct (CoreController.scan self false None w) as [[u|e] w1]; [|reflexivity].
  destruct (CoreController.suggest self None w1) as [[|s l] w2]; [reflexivity|].
  cbn [snd].
  destruct (List.filter _ (s :: l)) as [|s' l']; [reflexivity|].
  apply apply_dry_run.
Qed.

(** *** The command line *)

(** X28. The [apply] command changes nothing when it is given
    [--dry-run], and nothing when the user, asked without [--yes],
    declines; in the latter case no result is displayed. *)
Theorem cli_apply_dry_or_declined (suggestion_ids : list string) (yes confirm : bool)
    (controller : CoreController.t) (w : World.t) :
  (Cli.handle_apply suggestion_ids true yes confirm controller w).2 = w
  /\ (Cli.handle_apply suggestion_ids false false false controller w).2 = w
  /\ forall results,
       (Cli.handle_apply suggestion_ids false false false controller w).1
       <> Return (Some results).
Proof.
  unfold Cli.handle_apply.
  destruct (CoreController.get_last_suggestions controller w) as [[|s l]|e];
    [repeat split; discriminate | | repeat split; discriminate].
  match goal with
  | |- context [match ?x with [] => (Return None, w) | _ :: _ => _ end] =>
      destruct x as [|s' l']
  end; [repeat split; discriminate|].
  cbn [negb andb]. split; [|split; [reflexivity | discriminate]].
  match goal with
  | |- context [CoreController.apply controller ?ids true w] =>
      pose proof (apply_dry_run controller ids w) as H;
      destruct (CoreController.apply controller ids true w) as [o w1]
  end.
  exact H.
Qed.

Lemma suggestion_map_fold_other (l : list Suggestion.t) (m : gmap string Suggestion.t)
    (k : string) :
  ~ In k (map Suggestion.id l) ->
  fold_left (fun m s => <[Suggestion.id s := s]> m) l m !! k = m !! k.
Proof.
  revert m. induction l as [|x l IH]; intros m Hk; simpl; [reflexivity|].
  rewrite IH by (intros H; apply Hk; right; exact H).
  apply lookup_insert_ne. intros H. apply Hk. left. exact H.
Qed.

Lemma suggestion_map_fold_distinct (l : list Suggestion.t) (m : gmap string Suggestion.t)
    (s : Suggestion.t) :
  List.NoDup (map Suggestion.id l) -> In s l ->
  fold_left (fun m s => <[Suggestion.id s := s]> m) l m !! Suggestion.id s = Some s.
Proof.
  revert m. induction l as [|x l IH]; intros m Hnd Hin; [contradiction|].
  inversion Hnd as [|? ? Hx Hl]; subst. simpl.
  destruct Hin as [->|Hin].
  - rewrite suggestion_map_fold_other by exact Hx. apply lookup_insert_eq.
  - apply IH; assumption.
Qed.

Lemma select_all (l : list Suggestion.t) :
  List.NoDup (map Suggestion.id l) ->
  CoreController.select (CoreController.suggestion_map l) (map Suggestion.id l) = l.
Proof.
  intros Hnd. unfold CoreController.select, CoreController.suggestion_map.
  assert (H : forall l', (forall s, In s l' -> In s l) ->
            omap (fun i => fold_left (fun m s => <[Suggestion.id s := s]> m) l
                             (∅ : gmap string Suggestion.t) !! i) (map Suggestion.id l') = l').
  { induction l' as [|s l' IH]; intros Hsub; [reflexivity|].
    specialize (IH (fun x Hx => Hsub x (or_intror Hx))).
    pose proof (suggestion_map_fold_distinct l ∅ s Hnd (Hsub s (or_introl eq_refl))) as Hs.
    simpl. rewrite Hs. f_equal. exact IH. }
  apply H. auto.
Qed.

(** X29. The [apply] command without ids and with [--yes] does what
    [apply] of the controller does without ids, provided the ids of the
    loaded suggestions are distinct: the command goes through the ids,
    which then stand for the same suggestions in the same order. *)
Theorem cli_apply_all_is_apply_all (dry_run confirm : bool) (controller : CoreController.t)
    (w : World.t) (loaded : list Suggestion.t) :
  CoreController.get_last_suggestions controller w = Return loaded ->
  loaded <> [] ->
  NoDup (map Suggestion.id loaded) ->
  Cli.handle_apply [] dry_run true confirm controller w
  = (match (CoreController.apply controller None dry_run w).1 with
     | Return results => Return (Some results)
     | Raise e => Raise e
     end, (CoreController.apply controller None dry_run w).2).
Proof.
  intros Hload Hne Hnd. apply NoDup_ListNoDup in Hnd.
  unfold Cli.handle_apply. rewrite Hload.
  destruct loaded as [|s l]; [contradiction|].
  set (loaded := s :: l) in *. cbn [negb andb].
  assert (Happly : forall d, CoreController.apply controller (Some (map Suggestion.id loaded)) d w
                             = CoreController.apply controller None d w).
  { intros d. unfold CoreController.apply. rewrite Hload. subst loaded. cbn [map].
    change (Suggestion.id s :: map Suggestion.id l) with (map Suggestion.id (s :: l)).
    rewrite (select_all (s :: l) Hnd). reflexivity. }
  destruct dry_run; rewrite Happly;
    destruct (CoreController.apply controller None _ w) as [o w1]; reflexivity.
Qed.

Lemma cli_apply_all_witness :
  let w := Scenario.after_suggest [Scenario.old_iso_suggestion] in
  CoreController.get_last_suggestions Scenario.controller w = Return [Scenario.old_iso_loaded]
  /\ [Scenario.old_iso_loaded] <> []
  /\ NoDup (map Suggestion.id [Scenario.old_iso_loaded])
  /\ Cli.handle_apply [] true true false Scenario.controller w
     = (match (CoreController.apply Scenario.controller None true w).1 with
        | Return results => Return (Some results)
        | Raise e => Raise e
        end, (CoreController.apply Scenario.controller None true w).2).
Proof.
  cbv zeta. split; [vm_compute; reflexivity|]. split; [discriminate|].
  split; [apply NoDup_singleton|].
  apply (cli_apply_all_is_apply_all true false Scenario.controller
           (Scenario.after_suggest [Scenario.old_iso_suggestion]) [Scenario.old_iso_loaded]).
  - vm_compute. reflexivity.
  - discriminate.
  - apply NoDup_singleton.
Defined.

(** *** The report *)

Lemma get_feedback_answers (limit : Z) (db : Database.t) :
  (DatabaseFeedback.get_feedback limit db).1 = Return []
  \/ (exists e, (DatabaseFeedback.get_feedback limit db).1 = Raise (TypeError e))
     /\ Database.conn db = true /\ Database.action_feedback db <> [] /\ limit <> 0.
Proof.
  unfold DatabaseFeedback.get_feedback, Database.execute_sql.
  destruct (Database.conn db) eqn:Hconn; cbn [negb]; [|left; reflexivity].
  destruct (Database.faulty db Database.SelectFeedback); [left; reflexivity|].
  destruct (DatabaseFeedback.limit_rows limit _) as [|r rows] eqn:Hrows; [left; reflexivity|].
  right. split; [eexists; reflexivity|]. split; [reflexivity|].
  unfold DatabaseFeedback.limit_rows in Hrows. split.
  - intros Hnil. rewrite Hnil in Hrows. simpl in Hrows.
    destruct (limit <? 0); [discriminate|]. destruct (Z.to_nat limit); discriminate.
  - intros ->. discriminate Hrows.
Qed.

(** X30. [generate_report] never lists an action: it reports an empty
    list of recent actions, or an error.  As soon as the feedback table
    holds a row and the store answers the query, the report is the error
    that [get_feedback] raises on the first row. *)
Theorem report_never_lists_an_action (self : CoreController.t) (w : World.t) :
  match (Reporting.generate_report self w).1 with
  | Reporting.Report recent_actions total_saved_estimate =>
      recent_actions = [] /\ total_saved_estimate = "Not implemented"
  | Reporting.ReportError _ =>
      Database.conn (World.db w) = true /\ Database.action_feedback (World.db w) <> []
  end
  /\ (Database.conn (World.db w) = true ->
      Database.faulty (World.db w) Database.SelectFeedback = false ->
      Database.action_feedback (World.db w) <> [] ->
      exists e, (Reporting.generate_report self w).1 = Reporting.ReportError e).
Proof.
  unfold Reporting.generate_report. split.
  - destruct (get_feedback_answers 20 (World.db w)) as [H | [[e H] [Hc [Hf _]]]];
      destruct (DatabaseFeedback.get_feedback 20 (World.db w)) as [o d]; cbn [fst] in *; subst o.
    + split; reflexivity.
    + split; assumption.
  - intros Hconn Hfaulty Hrows.
    unfold DatabaseFeedback.get_feedback, Database.execute_sql. rewrite Hconn, Hfaulty. cbn [negb].
    destruct (DatabaseFeedback.limit_rows 20 _) as [|r rows] eqn:E; [|eexists; reflexivity].
    exfalso. unfold DatabaseFeedback.limit_rows in E. cbn in E.
    destruct (sort_desc Database.f_timestamp DatabaseFeedback.sql_ltb
                (Database.action_feedback (World.db w))) as [|x xs] eqn:Es; [|discriminate E].
    apply Hrows. apply length_zero_iff_nil.
    rewrite <- (length_sort_desc Database.f_timestamp DatabaseFeedback.sql_ltb), Es. reflexivity.
Qed.
